(** * Proxly browser extensions: link capture and settings

    A shallow embedding of the decision logic of the Proxly browser
    extensions (content script, background relay, settings managers and the
    Safari native handler) together with the properties of the capture
    predicate, the forwarder and the settings store.

    JavaScript objects are finite maps from property names to values,
    JavaScript strings are sequences of UTF-16 code units, and the browser
    interfaces the code calls (the [URL] constructor,
    [String.prototype.toLowerCase], extension storage) are taken as
    parameters or as explicit state. *)

From stdpp Require Import base numbers option list strings gmap fin_maps.
From Stdlib Require Import Ascii NArith ZArith Lia.

Open Scope N_scope.

(** ** JavaScript values and strings *)

Module JS.

(** A string is its sequence of UTF-16 code units. *)
Abbreviation jsstring := (list N).

(** A string literal of the source, as code units. *)
Definition lit (s : string) : jsstring := N_of_ascii <$> String.list_ascii_of_string s.

(** [s.startsWith(p)] *)
Fixpoint startsWith (s p : jsstring) {struct p} : bool :=
  match p, s with
  | [], _ => true
  | _ :: _, [] => false
  | c :: p', d :: s' => (c =? d) && startsWith s' p'
  end.

(** [a === b] on strings *)
Definition str_eqb (a b : jsstring) : bool := bool_decide (a = b).

(** The values a settings record, a message field or a response field can
    hold.  Numbers are kept as integers; objects and arrays are opaque. *)
Inductive JSVal :=
  | VUndefined
  | VNull
  | VBool (b : bool)
  | VNum (n : Z)
  | VStr (s : jsstring)
  | VObject.

#[global] Instance JSVal_eq_dec : EqDecision JSVal.
Proof. solve_decision. Defined.

(** A flat object: property name to value. *)
Abbreviation JSObject := (gmap string JSVal).

(** [o.k]: a missing property reads as [undefined]. *)
Definition get (o : JSObject) (k : string) : JSVal := default VUndefined (o !! k).

(** ToBoolean *)
Definition truthy (v : JSVal) : bool :=
  match v with
  | VUndefined | VNull => false
  | VBool b => b
  | VNum n => negb (n =? 0)%Z
  | VStr s => negb (str_eqb s [])
  | VObject => true
  end.

(** [Boolean(v)] *)
Definition Boolean (v : JSVal) : JSVal := VBool (truthy v).

(** [a || b] *)
Definition or_else (a b : JSVal) : JSVal := if truthy a then a else b.

(** [a !== undefined ? a : b] *)
Definition defined_or (a b : JSVal) : JSVal :=
  match a with VUndefined => b | _ => a end.

(** [a === b] for the primitive values compared in the source. *)
Definition strict_eq (a b : JSVal) : bool :=
  match a, b with
  | VObject, _ | _, VObject => false
  | _, _ => bool_decide (a = b)
  end.

(** [list.includes(v)] *)
Definition includes (l : list JSVal) (v : JSVal) : bool := existsb (strict_eq v) l.

(** [{...a, ...b}]: the properties of [b] win. *)
Definition spread2 (a b : JSObject) : JSObject := b ∪ a.

(** [JSON.parse(JSON.stringify(o))] for a flat record: a property whose
    value is [undefined] is left out, the others come back as they
    were. *)
Definition JSON_roundtrip (o : JSObject) : JSObject :=
  filter (fun kv => kv.2 <> VUndefined) o.

(** What a call can do: return, or throw an error with a message. *)
Inductive Outcome (A : Type) :=
  | Returned (a : A)
  | Thrown (message : jsstring).
Arguments Returned {A} a.
Arguments Thrown {A} message.

End JS.
Export JS.

(** ** The browser interfaces used by the code *)

(** A parsed URL, as the [URL] object exposes it. *)
Record URL := mkURL {
  url_protocol : jsstring;
  url_origin : jsstring;
  url_href : jsstring
}.

(** The two platform functions the decision logic depends on:
    [new URL(url, base)] ([None] when it throws) and [toLowerCase]. *)
Record Platform := mkPlatform {
  URL_new : jsstring -> option jsstring -> option URL;
  toLowerCase : jsstring -> jsstring
}.

(** The storage the code reads and writes: the extension's synchronized
    area and the [proxlySettings] item of [localStorage] that the Safari
    settings manager falls back to.  Each of the four calls can fail on
    its own: [sync_get_error] is the error [storage.sync.get] rejects
    with, [sync_set_error] the one [storage.sync.set] rejects with,
    [local_get_error] the one [localStorage.getItem] throws
    ([localStorage] missing or blocked), and [local_set_error] the one
    [localStorage.setItem] throws (also a full store); [None] means that
    the call succeeds.  The item is the record it parses to: it is only
    written by [setStorage], as the JSON text of a record. *)
Record Storage := mkStorage {
  sync_items : JSObject;
  sync_get_error : option jsstring;
  sync_set_error : option jsstring;
  local_item : option JSObject;
  local_get_error : option jsstring;
  local_set_error : option jsstring
}.

Definition with_sync_items (items : JSObject) (st : Storage) : Storage :=
  mkStorage items (sync_get_error st) (sync_set_error st)
            (local_item st) (local_get_error st) (local_set_error st).

Definition with_local_item (item : JSObject) (st : Storage) : Storage :=
  mkStorage (sync_items st) (sync_get_error st) (sync_set_error st)
            (Some item) (local_get_error st) (local_set_error st).

(** [storage.sync.get(null)] *)
Definition storage_get (st : Storage) : Outcome JSObject :=
  match sync_get_error st with
  | Some e => Thrown e
  | None => Returned (sync_items st)
  end.

(** [storage.sync.set(items)]: the given keys are written, the others stay. *)
Definition storage_set (items : JSObject) (st : Storage) : Outcome Storage :=
  match sync_set_error st with
  | Some e => Thrown e
  | None => Returned (with_sync_items (items ∪ sync_items st) st)
  end.

(** [localStorage.getItem('proxlySettings')] followed by [JSON.parse]:
    the stored record, or nothing when there is no item. *)
Definition local_get (st : Storage) : Outcome (option JSObject) :=
  match local_get_error st with
  | Some e => Thrown e
  | None => Returned (local_item st)
  end.

(** [localStorage.setItem('proxlySettings', JSON.stringify(settings))]:
    the item then parses to the record without its [undefined]
    properties. *)
Definition local_set (settings : JSObject) (st : Storage) : Outcome Storage :=
  match local_set_error st with
  | Some e => Thrown e
  | None => Returned (with_local_item (JSON_roundtrip settings) st)
  end.

(** Observable actions of a handler, in the order they happen. *)
Inductive Effect :=
  | PreventDefault
  | StopPropagation
  | Announce (messageKey : jsstring)
  | ShowVisualFeedback
  | PlayCaptureFeedback
  | ShowErrorIndicator
  | Navigate (url : jsstring)
  | TabsUpdate (tabId : N) (url : jsstring)
  | SetBadge (enabled : JSVal)
  | UpdateMenuTitle (linkMode : JSVal)
  | Broadcast (settings : JSObject)
  | SendRuntimeMessage (settings : JSObject)
  | SendNativeMessage (url : jsstring)
  | OpenWorkspaceURL (url : jsstring).

(** A run of code that acts on the page or the browser: the actions it
    performed, in order, and how it ended.  A call that throws keeps the
    actions performed before the throw. *)
Definition Eff (A : Type) : Type := (list Effect * Outcome A)%type.

Definition pure {A : Type} (a : A) : Eff A := ([], Returned a).

Definition throw {A : Type} (e : jsstring) : Eff A := ([], Thrown e).

(** One action that cannot fail. *)
Definition emit (e : Effect) : Eff unit := ([e], Returned ()).

(** A call whose result is known, without actions. *)
Definition lift {A : Type} (o : Outcome A) : Eff A := ([], o).

(** [m] and then [k] on its result; a throw of [m] ends the run. *)
Definition bind {A B : Type} (m : Eff A) (k : A -> Eff B) : Eff B :=
  match m with
  | (es, Returned a) => let '(es', r) := k a in (es ++ es', r)
  | (es, Thrown e) => (es, Thrown e)
  end.

(** [try { m } catch (error) { handler(error) }] *)
Definition try_catch {A : Type} (m : Eff A) (handler : jsstring -> Eff A) : Eff A :=
  match m with
  | (es, Thrown e) => let '(es', r) := handler e in (es ++ es', r)
  | (es, Returned a) => (es, Returned a)
  end.

(** A call of an [async] function that is not awaited: its actions
    happen, its rejection is not thrown to the caller. *)
Definition detached {A : Type} (m : Eff A) : Eff unit := (fst m, Returned ()).

Notation "x <- m ;; k" := (bind m (fun x => k))
  (at level 20, m at level 99, k at level 200, only parsing).

(** The [TypeError] of a method call on a value that has no such method,
    or of a property read on [null]. *)
Definition TypeError : jsstring := lit "TypeError".

(** ** Encodings: base64 and UTF-8 *)

Module Base64.

(** The standard alphabet (RFC 4648, with [+] and [/]) and the padding
    character [=]. *)
Definition alphabet : jsstring :=
  lit "ABCDEFGHIJKLMNOPQRSTUVWXYZabcdefghijklmnopqrstuvwxyz0123456789+/".

Definition pad : N := 61.

Definition b64char (n : N) : N := default 0 (alphabet !! N.to_nat n).

Fixpoint index_of (c : N) (l : list N) : option N :=
  match l with
  | [] => None
  | d :: l' => if c =? d then Some 0 else N.succ <$> index_of c l'
  end.

Definition b64index (c : N) : option N := index_of c alphabet.

(** Three bytes give four characters; one or two trailing bytes are
    padded to four characters with [=]. *)
Fixpoint encode (bs : list N) : jsstring :=
  match bs with
  | [] => []
  | [a] => [b64char (a / 4); b64char ((a mod 4) * 16); pad; pad]
  | [a; b] =>
      [b64char (a / 4); b64char ((a mod 4) * 16 + b / 16);
       b64char ((b mod 16) * 4); pad]
  | a :: b :: c :: rest =>
      b64char (a / 4) :: b64char ((a mod 4) * 16 + b / 16)
      :: b64char ((b mod 16) * 4 + c / 64) :: b64char (c mod 64)
      :: encode rest
  end.

(** Modelled from the spec: the decode side is the external application,
    which is not part of the repository; the spec has it decode the
    standard base64 segment.  Padding is accepted in the last group only. *)
Fixpoint decode (cs : jsstring) : option (list N) :=
  match cs with
  | [] => Some []
  | c1 :: c2 :: c3 :: c4 :: rest =>
      if c4 =? pad then
        match rest with
        | [] =>
            if c3 =? pad then
              s1 ← b64index c1; s2 ← b64index c2;
              Some [s1 * 4 + s2 / 16]
            else
              s1 ← b64index c1; s2 ← b64index c2; s3 ← b64index c3;
              Some [s1 * 4 + s2 / 16; (s2 mod 16) * 16 + s3 / 4]
        | _ :: _ => None
        end
      else
        s1 ← b64index c1; s2 ← b64index c2;
        s3 ← b64index c3; s4 ← b64index c4;
        tl ← decode rest;
        Some (s1 * 4 + s2 / 16 :: (s2 mod 16) * 16 + s3 / 4
              :: (s3 mod 4) * 64 + s4 :: tl)
  | _ => None
  end.

(** [btoa(s)]: every code unit must be a byte (at most 0xFF), otherwise
    the call throws [InvalidCharacterError]. *)
Definition btoa (s : jsstring) : Outcome jsstring :=
  if forallb (fun c => c <? 256) s then Returned (encode s)
  else Thrown (lit "InvalidCharacterError").

End Base64.

Module UTF8.

(** Unicode scalar values: code points outside the surrogate range. *)
Definition is_scalar (c : N) : bool :=
  (c <? 0xD800) || ((0xDFFF <? c) && (c <? 0x110000)).

Definition encode_scalar (c : N) : list N :=
  if c <? 0x80 then [c]
  else if c <? 0x800 then [0xC0 + c / 64; 0x80 + c mod 64]
  else if c <? 0x10000 then
    [0xE0 + c / 4096; 0x80 + (c / 64) mod 64; 0x80 + c mod 64]
  else
    [0xF0 + c / 262144; 0x80 + (c / 4096) mod 64;
     0x80 + (c / 64) mod 64; 0x80 + c mod 64].

(** [Data(s.utf8)] *)
Definition encode (s : list N) : list N := s ≫= encode_scalar.

Definition is_cont (b : N) : bool := (0x80 <=? b) && (b <? 0xC0).

(** Modelled from the spec: the receiver reads the decoded bytes as the
    UTF-8 target URL. *)
Fixpoint decode (bs : list N) : option (list N) :=
  match bs with
  | [] => Some []
  | b0 :: r0 =>
      if b0 <? 0x80 then cons b0 <$> decode r0
      else if b0 <? 0xC0 then None
      else if b0 <? 0xE0 then
        match r0 with
        | b1 :: r1 =>
            if is_cont b1
            then cons ((b0 - 0xC0) * 64 + (b1 - 0x80)) <$> decode r1
            else None
        | _ => None
        end
      else if b0 <? 0xF0 then
        match r0 with
        | b1 :: b2 :: r2 =>
            if is_cont b1 && is_cont b2
            then cons ((b0 - 0xE0) * 4096 + (b1 - 0x80) * 64 + (b2 - 0x80))
                   <$> decode r2
            else None
        | _ => None
        end
      else if b0 <? 0xF8 then
        match r0 with
        | b1 :: b2 :: b3 :: r3 =>
            if is_cont b1 && is_cont b2 && is_cont b3
            then cons ((b0 - 0xF0) * 262144 + (b1 - 0x80) * 4096
                       + (b2 - 0x80) * 64 + (b3 - 0x80)) <$> decode r3
            else None
        | _ => None
        end
      else None
  end.

End UTF8.

(** The literal scheme and path of the forwarding URI. *)
Definition proxly_prefix : jsstring := lit "proxly://open/".

(** Modelled from the spec: the external receiver, which is not part of the
    repository, takes the segment after [proxly://open/], base64-decodes it
    and reads the bytes as the UTF-8 target URL. *)
Definition receiver_decode (uri : jsstring) : option (list N) :=
  if startsWith uri proxly_prefix
  then Base64.decode (drop (length proxly_prefix) uri) ≫= UTF8.decode
  else None.

(** ** The content script ([ProxlyContentScript]) *)

Module ContentScript.

(** The value of the [href] property of an element whose tag is [a].
    For an HTML anchor it is a string; for an SVG [<a>] it is an
    [SVGAnimatedString] object and for an element of another namespace it
    is [undefined]: values that are no strings and have no
    [toLowerCase], given here with what [String(value)] is. *)
Inductive HrefValue :=
  | HrefString (s : jsstring)
  | HrefOther (shown : jsstring).

(** The string [new URL(value, base)] parses. *)
Definition ToString (v : HrefValue) : jsstring :=
  match v with
  | HrefString s => s
  | HrefOther shown => shown
  end.

(** An element that [findLinkElement] returns: its content attributes
    and the value of its [href] property. *)
Record Anchor := mkAnchor {
  attributes : gmap string jsstring;
  href : HrefValue
}.

(** [anchor.hasAttribute(name)] *)
Definition hasAttribute (a : Anchor) (name : string) : bool :=
  bool_decide (is_Some (attributes a !! name)).

(** What the handlers read of the document: [document.baseURI],
    [window.location.href], whether [document.head] and [document.body]
    are elements (they are [null] in a document without them, such as an
    XHTML document that has no [body] element), and whether the element
    with the id [proxly-capture-styles] is already there. *)
Record Page := mkPage {
  baseURI : jsstring;
  location_href : jsstring;
  document_head : bool;
  document_body : bool;
  capture_styles : bool
}.

(** The part of the document tree the ancestor walk reads: nodes are
    numbered, [parentNode] and [tagName] are whatever the page holds. *)
Record DOM := mkDOM {
  parentNode : N -> option N;
  tagName : N -> option jsstring
}.

(** The settings set by the constructor and by the failure path of
    [loadSettings]. *)
Definition defaultSettings : JSObject :=
  <["linkMode" := VStr (lit "all")]>
  (<["enabled" := VBool true]>
  (<["visualFeedback" := VBool true]>
  (<["soundFeedback" := VBool false]> ∅))).

Definition maxDepth : nat := 5.

Section WithPlatform.
Context (P : Platform).

(** [loadSettings]: storage first, then the background's answer to
    [GET_SETTINGS] when it differs in [enabled] or [linkMode].  [response]
    is what [sendMessageWithRetry] gives: a throw, no response, or an
    object. *)
Definition loadSettings (st : Storage) (response : Outcome (option JSObject))
  : JSObject :=
  match storage_get st with
  | Thrown _ => defaultSettings
  | Returned result =>
      let settings : JSObject :=
        <["linkMode" := or_else (get result "linkMode") (VStr (lit "all"))]>
        (<["enabled" := defined_or (get result "enabled") (VBool true)]>
        (<["visualFeedback" := defined_or (get result "visualFeedback") (VBool true)]>
        (<["soundFeedback" := or_else (get result "soundFeedback") (VBool false)]> ∅)))
      in
      match response with
      | Returned (Some r) =>
          if negb (truthy (get r "error")) then
            if negb (strict_eq (get r "enabled") (get settings "enabled"))
               || negb (strict_eq (get r "linkMode") (get settings "linkMode"))
            then r else settings
          else settings
      | _ => settings
      end
  end.

(** The [SETTINGS_UPDATED] listener replaces the settings object. *)
Definition onSettingsUpdated (message_settings : JSObject) : JSObject :=
  message_settings.

(** The storage-change listener; [changes] maps each changed key to its
    new value. *)
Definition onStorageChanged (changes : JSObject) (namespace : jsstring)
    (settings : JSObject) : JSObject :=
  if str_eqb namespace (lit "sync") then
    let upd (k : string) (s : JSObject) : JSObject :=
      match changes !! k with
      | Some newValue =>
          if negb (strict_eq newValue (get s k)) then <[k := newValue]> s else s
      | None => s
      end in
    upd "soundFeedback" (upd "visualFeedback" (upd "linkMode" (upd "enabled" settings)))
  else settings.

(** [current.tagName && current.tagName.toLowerCase() === 'a'] *)
Definition isAnchorTag (d : DOM) (n : N) : bool :=
  match tagName d n with
  | Some t => negb (str_eqb t []) && str_eqb (toLowerCase P t) (lit "a")
  | None => false
  end.

(** The [while] loop of [findLinkElement], one iteration per unit of
    fuel; [inspected] records the nodes whose tag was read.  The outer
    [None] means the fuel ran out before the loop ended. *)
Fixpoint findLinkElement_loop (d : DOM) (fuel : nat) (current : option N)
    (depth : nat) (inspected : list N) : option (option N * list N) :=
  match fuel with
  | O => None
  | S fuel' =>
      match current with
      | None => Some (None, inspected)
      | Some c =>
          match parentNode d c with
          | None => Some (None, inspected)
          | Some p =>
              if (depth <? maxDepth)%nat then
                if isAnchorTag d c then Some (Some c, inspected ++ [c])
                else findLinkElement_loop d fuel' (Some p) (S depth)
                       (inspected ++ [c])
              else Some (None, inspected)
          end
      end
  end.

(** [findLinkElement(element)] *)
Definition findLinkElement (d : DOM) (element : N) : option N :=
  match findLinkElement_loop d (S maxDepth) (Some element) 0 [] with
  | Some (r, _) => r
  | None => None
  end.

(** [shouldCaptureLink(anchor, event)]; the event is not read.
    [anchor.href.toLowerCase()] throws when the [href] property is not a
    string. *)
Definition shouldCaptureLink (settings : JSObject) (page : Page)
    (anchor : Anchor) : Outcome bool :=
  if negb (hasAttribute anchor "href") then Returned false
  else
    match href anchor with
    | HrefOther _ => Thrown TypeError
    | HrefString s =>
        let h := toLowerCase P s in
        if startsWith h (lit "javascript:") || startsWith h (lit "mailto:")
           || startsWith h (lit "tel:")
        then Returned false
        else if startsWith h (lit "#") then Returned false
        else if hasAttribute anchor "download" then Returned false
        else if negb (truthy (get settings "enabled")) then Returned false
        else if strict_eq (get settings "linkMode") (VStr (lit "all")) then
          match URL_new P s (Some (baseURI page)) with
          | None => Returned false
          | Some linkUrl =>
              match URL_new P (location_href page) None with
              | None => Returned false
              | Some currentUrl =>
                  Returned (negb (str_eqb (url_origin linkUrl)
                                          (url_origin currentUrl)))
              end
          end
        else if strict_eq (get settings "linkMode") (VStr (lit "context"))
        then Returned false
        else Returned false
    end.

(** [isValidUrl(urlString)] *)
Definition isValidUrl (urlString : jsstring) : bool :=
  match URL_new P urlString None with
  | Some url =>
      str_eqb (url_protocol url) (lit "http:")
      || str_eqb (url_protocol url) (lit "https:")
  | None => false
  end.

(** [forwardToProxlyDirect(url)]: the error of [btoa] is rethrown. *)
Definition forwardToProxlyDirect (url : jsstring) : Eff unit :=
  match Base64.btoa url with
  | Returned encodedUrl => emit (Navigate (proxly_prefix ++ encodedUrl))
  | Thrown e => throw e
  end.

(** [showVisualFeedback(element)]: the style element goes into
    [document.head] unless it is already in the document, the indicator
    into [document.body]; appending to [null] throws.  Adding the style
    element is not recorded as an action. *)
Definition showVisualFeedback (page : Page) : Eff unit :=
  _ <- (if negb (capture_styles page) && negb (document_head page)
        then throw TypeError else pure ()) ;;
  if document_body page then emit ShowVisualFeedback else throw TypeError.

(** [showCaptureFeedback(element)]; [playCaptureFeedback] catches its own
    errors. *)
Definition showCaptureFeedback (settings : JSObject) (page : Page) : Eff unit :=
  _ <- emit (Announce (lit "accessibilityLinkCapture")) ;;
  _ <- (if truthy (get settings "visualFeedback")
        then showVisualFeedback page else pure ()) ;;
  if truthy (get settings "soundFeedback")
  then emit PlayCaptureFeedback else pure ().

(** [showError(messageKey)]: the indicator goes into [document.body]. *)
Definition showError (settings : JSObject) (page : Page)
    (messageKey : jsstring) : Eff unit :=
  _ <- emit (Announce messageKey) ;;
  if truthy (get settings "visualFeedback") then
    if document_body page then emit ShowErrorIndicator else throw TypeError
  else pure ().

(** [captureLink(url, anchorElement)]: the feedback comes first, inside
    the [try]; the result is how the promise of the [async] function
    settles. *)
Definition captureLink (settings : JSObject) (page : Page) (url : jsstring)
  : Eff unit :=
  try_catch
    (_ <- showCaptureFeedback settings page ;; forwardToProxlyDirect url)
    (fun _ => showError settings page (lit "errorProxlyNotRunning")).

(** [handleLinkClick(event)], from the element that [findLinkElement]
    resolved for the event target.  The call of [shouldCaptureLink] is
    outside the [try]; [captureLink] is called without [await]. *)
Definition handleLinkClick (settings : JSObject) (page : Page)
    (found : option Anchor) : Eff unit :=
  match found with
  | None => pure ()
  | Some anchor =>
      capture <- lift (shouldCaptureLink settings page anchor) ;;
      if negb capture then pure ()
      else
        try_catch
          (match URL_new P (ToString (href anchor)) (Some (baseURI page)) with
           | None => throw TypeError
           | Some u =>
               let url := url_href u in
               if negb (isValidUrl url) then pure ()
               else
                 _ <- emit PreventDefault ;;
                 _ <- emit StopPropagation ;;
                 detached (captureLink settings page url)
           end)
          (fun _ => showError settings page (lit "errorInvalidUrl"))
  end.

End WithPlatform.

End ContentScript.

(** ** The background relay ([ProxlyBackground]) *)

(** Messages, menu events and results of the two background scripts, and
    the functions whose text is the same in both ([loadSettings],
    [isValidUrl], the storage write of [handleInstallation]). *)
Module Relay.

(** A runtime message with the fields the handlers read; an absent field
    is [undefined] ([None] for the URL). *)
Record Message := mkMessage {
  msg_type : jsstring;
  msg_url : option jsstring;
  msg_isTest : JSVal;
  msg_enabled : JSVal;
  msg_settings : JSObject
}.

(** The [info] argument of a context-menu click. *)
Record MenuInfo := mkMenuInfo {
  info_menuItemId : jsstring;
  info_linkUrl : option jsstring
}.

(** What handling one message leaves behind. *)
Record Handled := mkHandled {
  new_settings : JSObject;
  new_storage : Storage;
  response : JSObject;
  effects : list Effect
}.

(** The reply of the native application to [sendNativeMessage]. *)
Record NativeResponse := mkNativeResponse {
  nr_success : bool;
  nr_error : option jsstring
}.

Definition menuItemId : jsstring := lit "proxly-open-url".

(** The settings set by the constructor. *)
Definition initialSettings : JSObject :=
  <["linkMode" := VStr (lit "all")]>
  (<["enabled" := VBool true]>
  (<["visualFeedback" := VBool true]>
  (<["soundFeedback" := VBool false]> ∅))).

(** The record returned when storage cannot be read, and written at
    installation. *)
Definition defaultRecord : JSObject :=
  <["linkMode" := VStr (lit "all")]>
  (<["enabled" := VBool true]>
  (<["visualFeedback" := VBool true]>
  (<["soundFeedback" := VBool false]>
  (<["version" := VStr (lit "1.0.0")]> ∅)))).

(** [s] is a truthy string: present and not empty. *)
Definition nonempty (s : option jsstring) : bool :=
  match s with
  | Some (_ :: _) => true
  | _ => false
  end.

(** [loadSettings()]: the new [this.settings] and the returned record. *)
Definition loadSettings (settings : JSObject) (st : Storage)
  : JSObject * JSObject :=
  match storage_get st with
  | Returned result =>
      let loaded : JSObject :=
        <["linkMode" := or_else (get result "linkMode") (VStr (lit "all"))]>
        (<["enabled" := defined_or (get result "enabled") (VBool true)]>
        (<["visualFeedback" := defined_or (get result "visualFeedback") (VBool true)]>
        (<["soundFeedback" := or_else (get result "soundFeedback") (VBool false)]>
        (<["version" := or_else (get result "version") (VStr (lit "1.0.0"))]> ∅))))
      in (loaded, loaded)
  | Thrown _ => (settings, defaultRecord)
  end.

(** [handleInstallation(details)] for [reason === 'install']: a failed
    write is only logged. *)
Definition handleInstallation (st : Storage) : Storage :=
  match storage_set defaultRecord st with
  | Returned st' => st'
  | Thrown _ => st
  end.

Section WithPlatform.
Context (P : Platform).

(** [isValidUrl(urlString)] *)
Definition isValidUrl (urlString : jsstring) : bool :=
  match URL_new P urlString None with
  | Some url =>
      str_eqb (url_protocol url) (lit "http:")
      || str_eqb (url_protocol url) (lit "https:")
  | None => false
  end.

End WithPlatform.

End Relay.

(** The Firefox background script. *)
Module FirefoxBackground.
Import Relay.

(** [forwardToProxly(url, tab)]; [tabId] is [tab.id] and
    [update tabId url] is the error [chrome.tabs.update] rejects with,
    [None] when it resolves.  The error is logged and thrown again; the
    call of [tabs.update] is recorded whether or not it resolves. *)
Definition forwardToProxly (update : N -> jsstring -> option jsstring)
    (url : jsstring) (tabId : N) : Eff unit :=
  match Base64.btoa url with
  | Returned encodedUrl =>
      match update tabId (proxly_prefix ++ encodedUrl) with
      | None => ([TabsUpdate tabId (proxly_prefix ++ encodedUrl)], Returned ())
      | Some e => ([TabsUpdate tabId (proxly_prefix ++ encodedUrl)], Thrown e)
      end
  | Thrown e => ([], Thrown e)
  end.

Section WithPlatform.
Context (P : Platform).

(** [handleContextMenuClick(info, tab)]: errors of the forwarder are
    caught and logged. *)
Definition handleContextMenuClick
    (update : N -> jsstring -> option jsstring)
    (settings : JSObject) (info : MenuInfo) (tabId : N) : list Effect :=
  if negb (str_eqb (info_menuItemId info) menuItemId)
     || negb (nonempty (info_linkUrl info))
  then []
  else
    let linkUrl := default [] (info_linkUrl info) in
    if negb (isValidUrl P linkUrl) then []
    else fst (forwardToProxly update linkUrl tabId).

(** [handleRuntimeMessage(message, sender, sendResponse)]; [tabId] is
    [sender.tab.id]. *)
Definition handleRuntimeMessage
    (update : N -> jsstring -> option jsstring)
    (settings : JSObject) (st : Storage)
    (message : Message) (tabId : N) : Handled :=
  if str_eqb (msg_type message) (lit "GET_SETTINGS") then
    let '(settings', loaded) := loadSettings settings st in
    mkHandled settings' st loaded []
  else if str_eqb (msg_type message) (lit "CAPTURE_LINK") then
    if nonempty (msg_url message)
       && isValidUrl P (default [] (msg_url message))
    then
      if truthy (msg_isTest message) then
        mkHandled settings st
          (<["success" := VBool true]> (<["test" := VBool true]> ∅)) []
      else
        mkHandled settings st (<["success" := VBool true]> ∅)
          (fst (forwardToProxly update (default [] (msg_url message)) tabId))
    else
      mkHandled settings st
        (<["success" := VBool false]>
         (<["error" := VStr (lit "Invalid URL")]> ∅)) []
  else if str_eqb (msg_type message) (lit "SETTINGS_UPDATED") then
    mkHandled settings st (<["received" := VBool true]> ∅)
      [Broadcast (msg_settings message)]
  else if str_eqb (msg_type message) (lit "TOGGLE_EXTENSION") then
    let newState := VBool (negb (truthy (get settings "enabled"))) in
    let settings' := <["enabled" := newState]> settings in
    match storage_set (<["enabled" := newState]> ∅) st with
    | Returned st' =>
        mkHandled settings' st' (<["enabled" := newState]> ∅) [SetBadge newState]
    | Thrown e =>
        mkHandled settings' st (<["error" := VStr e]> ∅) []
    end
  else
    mkHandled settings st
      (<["error" := VStr (lit "Unknown message type")]> ∅) [].

End WithPlatform.

End FirefoxBackground.

(** The Safari background script. *)
Module SafariBackground.
Import Relay.

(** [forwardToProxly(url, tab)]: native messaging first, direct
    navigation of the tab as the fallback.  [native] is the result of
    [sendNativeMessage]; [update tabId url] is the error
    [browser.tabs.update] rejects with for that tab and URL, [None] when
    it resolves.  Every error of the fallback is caught and the error of
    the native side is thrown again.  A call of [tabs.update] is recorded
    whether or not it resolves. *)
Definition forwardToProxly (native : Outcome (option NativeResponse))
    (update : N -> jsstring -> option jsstring)
    (url : jsstring) (tab : option N) : Eff unit :=
  let failed (error : jsstring) : Eff unit :=
    match Base64.btoa url with
    | Returned encodedUrl =>
        match tab with
        | Some tabId =>
            if negb (tabId =? 0)
            then
              match update tabId (proxly_prefix ++ encodedUrl) with
              | None =>
                  ([SendNativeMessage url;
                    TabsUpdate tabId (proxly_prefix ++ encodedUrl)], Returned ())
              | Some _ =>
                  ([SendNativeMessage url;
                    TabsUpdate tabId (proxly_prefix ++ encodedUrl)], Thrown error)
              end
            else ([SendNativeMessage url], Thrown error)
        | None => ([SendNativeMessage url], Thrown error)
        end
    | Thrown _ => ([SendNativeMessage url], Thrown error)
    end in
  match native with
  | Returned (Some r) =>
      if nr_success r then ([SendNativeMessage url], Returned ())
      else failed (lit "Native app failed: "
                   ++ (if nonempty (nr_error r) then default [] (nr_error r)
                       else lit "Unknown error"))
  | Returned None => failed (lit "Native app failed: Unknown error")
  | Thrown e => failed e
  end.

Section WithPlatform.
Context (P : Platform).

(** [handleContextMenuClick(info, tab)] *)
Definition handleContextMenuClick (native : Outcome (option NativeResponse))
    (update : N -> jsstring -> option jsstring)
    (settings : JSObject) (info : MenuInfo) (tab : option N) : list Effect :=
  if negb (str_eqb (info_menuItemId info) menuItemId)
     || negb (nonempty (info_linkUrl info))
  then []
  else
    let linkUrl := default [] (info_linkUrl info) in
    if negb (isValidUrl P linkUrl) then []
    else fst (forwardToProxly native update linkUrl tab).

(** [handleRuntimeMessage(message, sender, sendResponse)] *)
Definition handleRuntimeMessage (native : Outcome (option NativeResponse))
    (update : N -> jsstring -> option jsstring)
    (settings : JSObject) (st : Storage) (message : Message)
    (tab : option N) : Handled :=
  if str_eqb (msg_type message) (lit "GET_SETTINGS") then
    let '(settings', loaded) := loadSettings settings st in
    mkHandled settings' st loaded []
  else if str_eqb (msg_type message) (lit "CAPTURE_LINK") then
    if nonempty (msg_url message)
       && isValidUrl P (default [] (msg_url message))
    then
      if truthy (msg_isTest message) then
        mkHandled settings st
          (<["success" := VBool true]> (<["test" := VBool true]> ∅)) []
      else
        match forwardToProxly native update (default [] (msg_url message)) tab with
        | (eff, Returned _) =>
            mkHandled settings st (<["success" := VBool true]> ∅) eff
        | (eff, Thrown e) =>
            mkHandled settings st (<["error" := VStr e]> ∅) eff
        end
    else
      mkHandled settings st
        (<["success" := VBool false]>
         (<["error" := VStr (lit "Invalid URL")]> ∅)) []
  else if str_eqb (msg_type message) (lit "SETTINGS_UPDATED") then
    let settings' := spread2 settings (msg_settings message) in
    mkHandled settings' st
      (<["received" := VBool true]> (<["updated" := VBool true]> ∅))
      ((match get (msg_settings message) "enabled" with
        | VUndefined => []
        | e => [SetBadge e]
        end)
       ++ (match get (msg_settings message) "linkMode" with
           | VUndefined => []
           | m => [UpdateMenuTitle m]
           end)
       ++ [Broadcast (msg_settings message)])
  else if str_eqb (msg_type message) (lit "TOGGLE_EXTENSION") then
    let newState :=
      defined_or (msg_enabled message)
                 (VBool (negb (truthy (get settings "enabled")))) in
    let settings' := <["enabled" := newState]> settings in
    match storage_set (<["enabled" := newState]> ∅) st with
    | Returned st' =>
        mkHandled settings' st' (<["enabled" := newState]> ∅) [SetBadge newState]
    | Thrown e =>
        mkHandled settings' st (<["error" := VStr e]> ∅) []
    end
  else
    mkHandled settings st
      (<["error" := VStr (lit "Unknown message type")]> ∅) [].

End WithPlatform.

End SafariBackground.

(** ** The popup ([ProxlyPopup]) *)

Module SafariPopup.
Import Relay.

(** [loadSettings()]: the answer of the relay to [GET_SETTINGS] when
    there is one without an error, otherwise the store, otherwise the
    built-in values. *)
Definition loadSettings (st : Storage) (response : Outcome (option JSObject))
  : JSObject :=
  let fallback : JSObject :=
    <["enabled" := VBool true]>
    (<["linkMode" := VStr (lit "all")]>
    (<["visualFeedback" := VBool true]>
    (<["soundFeedback" := VBool false]> ∅))) in
  let from_store : JSObject :=
    match storage_get st with
    | Returned result =>
        <["enabled" := defined_or (get result "enabled") (VBool true)]>
        (<["linkMode" := or_else (get result "linkMode") (VStr (lit "all"))]>
        (<["visualFeedback" := defined_or (get result "visualFeedback") (VBool true)]>
        (<["soundFeedback" := or_else (get result "soundFeedback") (VBool false)]> ∅)))
    | Thrown _ => fallback
    end in
  match response with
  | Returned (Some r) =>
      if negb (truthy (get r "error")) then r else from_store
  | Returned None => from_store
  | Thrown _ => fallback
  end.

(** The message [handleMainToggle(enabled)] sends to the relay. *)
Definition toggleRequest (enabled : bool) : Message :=
  mkMessage (lit "TOGGLE_EXTENSION") None VUndefined (VBool enabled) ∅.

End SafariPopup.

(** ** The settings managers ([SettingsManager]) *)

(** The Chrome settings manager.  Inside the extension [chrome.storage]
    is defined, so [getStorage] and [setStorage] are the synchronized
    storage calls. *)
Module ChromeSettingsManager.

Definition defaultSettings : JSObject :=
  <["linkMode" := VStr (lit "alt")]>
  (<["visualFeedback" := VBool true]>
  (<["soundFeedback" := VBool false]>
  (<["version" := VStr (lit "1.0.0")]> ∅))).

(** [loadSettings()] *)
Definition loadSettings (st : Storage) : JSObject :=
  match storage_get st with
  | Returned result => spread2 defaultSettings result
  | Thrown _ => defaultSettings
  end.

(** [validateSettings(settings)] *)
Definition validateSettings (settings : JSObject) : JSObject :=
  let validated := defaultSettings in
  let validated :=
    if includes [VStr (lit "all"); VStr (lit "alt")] (get settings "linkMode")
    then <["linkMode" := get settings "linkMode"]> validated
    else validated in
  let validated :=
    <["visualFeedback" := Boolean (get settings "visualFeedback")]> validated in
  <["soundFeedback" := Boolean (get settings "soundFeedback")]> validated.

(** [saveSettings(settings)]: the storage after the call, the
    notification sent, and the returned success flag. *)
Definition saveSettings (settings : JSObject) (st : Storage)
  : Storage * list Effect * bool :=
  let validatedSettings := validateSettings settings in
  match storage_set validatedSettings st with
  | Returned st' => (st', [SendRuntimeMessage validatedSettings], true)
  | Thrown _ => (st, [], false)
  end.

(** [resetSettings()] *)
Definition resetSettings (st : Storage) : Storage * list Effect * bool :=
  saveSettings defaultSettings st.

End ChromeSettingsManager.

(** The Safari settings manager. *)
Module SafariSettingsManager.

(** An instance of the class.  [defaultSettings] is a field that holds
    an object: [loadSettings] returns that very object when reading the
    storage fails, and [setSetting] then assigns into it. *)
Record Manager := mkManager {
  defaultSettings : JSObject
}.

(** [new SettingsManager()] *)
Definition constructor : Manager :=
  mkManager
    (<["linkMode" := VStr (lit "all")]>
    (<["enabled" := VBool true]>
    (<["visualFeedback" := VBool true]>
    (<["soundFeedback" := VBool false]>
    (<["version" := VStr (lit "1.0.0")]> ∅))))).

Section Methods.
Context (this : Manager).

(** [getStorage()]: when the storage call fails, the [proxlySettings]
    item of [localStorage], or an empty object when there is none; an
    error of that fallback is thrown. *)
Definition getStorage (st : Storage) : Outcome JSObject :=
  match storage_get st with
  | Returned result => Returned result
  | Thrown _ =>
      match local_get st with
      | Returned data => Returned (default ∅ data)
      | Thrown e => Thrown e
      end
  end.

(** [loadSettings()]: the record, and whether it is the object held by
    [this.defaultSettings] itself rather than a fresh one. *)
Definition loadSettings (st : Storage) : JSObject * bool :=
  match getStorage st with
  | Returned result => (spread2 (defaultSettings this) result, false)
  | Thrown _ => (defaultSettings this, true)
  end.

(** [validateSettings(settings)] *)
Definition validateSettings (settings : JSObject) : JSObject :=
  let validated := defaultSettings this in
  let validated :=
    if includes [VStr (lit "all"); VStr (lit "context")] (get settings "linkMode")
    then <["linkMode" := get settings "linkMode"]> validated
    else validated in
  let validated := <["enabled" := Boolean (get settings "enabled")]> validated in
  let validated :=
    <["visualFeedback" := Boolean (get settings "visualFeedback")]> validated in
  let validated :=
    <["soundFeedback" := Boolean (get settings "soundFeedback")]> validated in
  if truthy (get settings "version")
  then <["version" := get settings "version"]> validated
  else validated.

(** [setStorage(settings)]: when the storage call fails the record
    replaces the [proxlySettings] item of [localStorage]; an error of
    that fallback is thrown. *)
Definition setStorage (settings : JSObject) (st : Storage) : Outcome Storage :=
  match storage_set settings st with
  | Returned st' => Returned st'
  | Thrown _ => local_set settings st
  end.

(** [saveSettings(settings)]: the storage after the call, the
    notification sent, and the returned success flag.
    [notifySettingsChange] catches its own errors. *)
Definition saveSettings (settings : JSObject) (st : Storage)
  : Storage * list Effect * bool :=
  let validatedSettings := validateSettings settings in
  match setStorage validatedSettings st with
  | Returned st' => (st', [SendRuntimeMessage validatedSettings], true)
  | Thrown _ => (st, [], false)
  end.

(** [resetSettings()] *)
Definition resetSettings (st : Storage) : Storage * list Effect * bool :=
  saveSettings (defaultSettings this) st.


End Methods.


End SafariSettingsManager.

(** ** The Safari native handler ([SafariWebExtensionHandler]) *)

Module SafariWebExtensionHandler.
Import Relay.

(** Foundation and AppKit calls the handler makes: [URL(string:)] with
    the scheme of the result ([None] when it is [nil]), and
    [NSWorkspace.shared.open].  A Swift string is its sequence of Unicode
    scalar values. *)
Record Native := mkNative {
  URL_string : list N -> option (option (list N));
  workspace_open : list N -> bool
}.

(** The message dictionary, with the two keys that are read. *)
Record MessageDict := mkMessageDict {
  dict_type : option (list N);
  dict_url : option (list N)
}.

Section WithNative.
Context (F : Native).

(** [handleForwardUrl(messageDict:context:)] *)
Definition handleForwardUrl (messageDict : MessageDict)
  : list Effect * NativeResponse :=
  match dict_url messageDict with
  | None => ([], mkNativeResponse false (Some (lit "Missing URL")))
  | Some urlString =>
      match URL_string F urlString with
      | Some (Some scheme) =>
          if str_eqb scheme (lit "http") || str_eqb scheme (lit "https") then
            let encodedUrl := Base64.encode (UTF8.encode urlString) in
            let proxlyUrlString := proxly_prefix ++ encodedUrl in
            match URL_string F proxlyUrlString with
            | Some _ =>
                if workspace_open F proxlyUrlString
                then ([OpenWorkspaceURL proxlyUrlString],
                      mkNativeResponse true None)
                else ([OpenWorkspaceURL proxlyUrlString],
                      mkNativeResponse false (Some (lit "Failed to open Proxly")))
            | None =>
                ([], mkNativeResponse false (Some (lit "Failed to create proxly URL")))
            end
          else ([], mkNativeResponse false (Some (lit "Invalid URL format")))
      | _ => ([], mkNativeResponse false (Some (lit "Invalid URL format")))
      end
  end.

(** [handleExtensionMessage(message:context:profile:)] *)
Definition handleExtensionMessage (message : option MessageDict)
  : list Effect * NativeResponse :=
  match message with
  | None => ([], mkNativeResponse false (Some (lit "Invalid message format")))
  | Some messageDict =>
      match dict_type messageDict with
      | None => ([], mkNativeResponse false (Some (lit "Message missing type")))
      | Some messageType =>
          if str_eqb messageType (lit "FORWARD_URL")
          then handleForwardUrl messageDict
          else ([], mkNativeResponse false (Some (lit "Unknown message type")))
      end
  end.

End WithNative.

End SafariWebExtensionHandler.

(** ** A small platform for examples

    A reference instance of the platform functions, used to run the model
    on concrete pages: lower-casing of the ASCII letters, and a URL
    parser for the strings of the examples.  For the schemes [http],
    [https], [ws], [wss] and [ftp] the parser reads
    [scheme://userinfo@host:port/path?query#fragment]: the scheme and the
    host are lower-cased, the default port of the scheme and an empty
    port are dropped, an empty path becomes [/], and the origin is the
    scheme with host and port, without the userinfo.  A string with
    another scheme is kept as it is and has the origin [null]; the
    examples do not use one as a base.  A relative reference is resolved
    against the base: [//host/...] on its scheme, [/path] on its scheme
    and authority, [?query] and [#fragment] on its path, and another
    reference on the directory of its path.  The parser is for ASCII
    strings of these forms only: nothing is percent-encoded, white space
    and backslashes are not treated, dot segments are kept, and one of
    the five schemes must be followed by [//]. *)

Module Demo.

Definition lower (c : N) : N := if (65 <=? c) && (c <=? 90) then c + 32 else c.

Definition toLower (s : jsstring) : jsstring := lower <$> s.

Definition is_letter (c : N) : bool :=
  ((65 <=? c) && (c <=? 90)) || ((97 <=? c) && (c <=? 122)).

Definition is_digit (c : N) : bool := (48 <=? c) && (c <=? 57).

(** A character of a scheme: a letter, a digit, [+], [-] or [.]. *)
Definition is_scheme_char (c : N) : bool :=
  is_letter c || is_digit c || (c =? 43) || (c =? 45) || (c =? 46).

(** The scheme before the first colon and the rest after it. *)
Fixpoint split_scheme (s : jsstring) : option (jsstring * jsstring) :=
  match s with
  | [] => None
  | c :: s' =>
      if c =? 58 then Some ([], s')
      else if is_scheme_char c then
        match split_scheme s' with
        | Some (scheme, rest) => Some (c :: scheme, rest)
        | None => None
        end
      else None
  end.

(** The default port of the schemes that have one. *)
Definition default_port (scheme : jsstring) : jsstring :=
  if str_eqb scheme (lit "http") || str_eqb scheme (lit "ws") then lit "80"
  else if str_eqb scheme (lit "https") || str_eqb scheme (lit "wss") then lit "443"
  else if str_eqb scheme (lit "ftp") then lit "21"
  else [].

(** The authority: up to the first [/], [?] or [#]. *)
Fixpoint take_host (s : jsstring) : jsstring :=
  match s with
  | [] => []
  | c :: s' =>
      if (c =? 47) || (c =? 63) || (c =? 35) then [] else c :: take_host s'
  end.

(** The parts before and after the last [sep]. *)
Fixpoint split_last (sep : N) (s : jsstring) : option (jsstring * jsstring) :=
  match s with
  | [] => None
  | c :: s' =>
      match split_last sep s' with
      | Some (before, after) => Some (c :: before, after)
      | None => if c =? sep then Some ([], s') else None
      end
  end.

(** Userinfo with its [@], host and port with its [:] of an authority;
    the port is empty when it is the default one of the scheme. *)
Definition split_authority (scheme authority : jsstring)
  : jsstring * jsstring * jsstring :=
  let '(userinfo, hostport) :=
    match split_last 64 authority with
    | Some (u, h) => (u ++ [64], h)
    | None => ([], authority)
    end in
  let '(host, port) :=
    match split_last 58 hostport with
    | Some (h, p) => if forallb is_digit p then (h, p) else (hostport, [])
    | None => (hostport, [])
    end in
  let port :=
    if str_eqb port [] || str_eqb port (default_port scheme)
    then [] else 58 :: port in
  (userinfo, toLower host, port).

Definition parse_absolute (s : jsstring) : option URL :=
  match split_scheme s with
  | Some (c :: scheme, rest) =>
      let sch := toLower (c :: scheme) in
      if negb (is_letter c) then None
      else if startsWith rest (lit "//") && negb (str_eqb (default_port sch) [])
      then
        let authority := take_host (drop 2 rest) in
        let tail := drop (length authority) (drop 2 rest) in
        let '(userinfo, host, port) := split_authority sch authority in
        if str_eqb host [] then None
        else
          Some (mkURL (sch ++ lit ":")
                      (sch ++ lit "://" ++ host ++ port)
                      (sch ++ lit "://" ++ userinfo ++ host ++ port
                       ++ (if startsWith tail (lit "/") then tail
                           else lit "/" ++ tail)))
      else Some (mkURL (sch ++ lit ":") (lit "null") (sch ++ lit ":" ++ rest))
  | _ => None
  end.

Fixpoint take_until (stop : N -> bool) (s : jsstring) : jsstring :=
  match s with
  | [] => []
  | c :: s' => if stop c then [] else c :: take_until stop s'
  end.

(** A reference that has no scheme, resolved against a parsed base. *)
Definition resolve (ub : URL) (s : jsstring) : option URL :=
  if str_eqb (url_origin ub) (lit "null") then None
  else
    let after := drop (length (url_protocol ub) + 2) (url_href ub) in
    let site := url_protocol ub ++ lit "//" ++ take_host after in
    let tail := drop (length (take_host after)) after in
    let path := take_until (fun c => (c =? 63) || (c =? 35)) tail in
    let query := take_until (fun c => c =? 35) (drop (length path) tail) in
    let dir :=
      match split_last 47 path with
      | Some (before, _) => before ++ [47]
      | None => [47]
      end in
    if startsWith s (lit "//") then parse_absolute (url_protocol ub ++ s)
    else
      Some (mkURL (url_protocol ub) (url_origin ub)
              (if str_eqb s [] then site ++ path ++ query
               else if startsWith s (lit "/") then site ++ s
               else if startsWith s (lit "?") then site ++ path ++ s
               else if startsWith s (lit "#") then site ++ path ++ query ++ s
               else site ++ dir ++ s)).

Definition parse (s : jsstring) (base : option jsstring) : option URL :=
  match parse_absolute s with
  | Some u => Some u
  | None =>
      match base with
      | Some b =>
          match parse_absolute b with
          | Some ub => resolve ub s
          | None => None
          end
      | None => None
      end
  end.

Definition platform : Platform := mkPlatform parse toLower.

(** A native side that accepts [scheme:...] strings and opens every URL. *)
Definition native : SafariWebExtensionHandler.Native :=
  SafariWebExtensionHandler.mkNative
    (fun s => match split_scheme s with
              | Some (c :: scheme, _) => Some (Some (toLower (c :: scheme)))
              | _ => None
              end)
    (fun _ => true).

(** A browser in which [tabs.update] resolves. *)
Definition update : N -> jsstring -> option jsstring := fun _ _ => None.

(** An HTML anchor with an [href] attribute whose property value is the
    attribute value. *)
Definition link (h : string) : ContentScript.Anchor :=
  ContentScript.mkAnchor (<["href" := lit h]> ∅) (ContentScript.HrefString (lit h)).

(** An SVG [<a>] with an [href] attribute: the property is an
    [SVGAnimatedString]. *)
Definition svg_link (h : string) : ContentScript.Anchor :=
  ContentScript.mkAnchor (<["href" := lit h]> ∅)
    (ContentScript.HrefOther (lit "[object SVGAnimatedString]")).

(** An HTML page whose base URI is its location, with a head and a body
    and no indicator shown so far. *)
Definition page (h : string) : ContentScript.Page :=
  ContentScript.mkPage (lit h) (lit h) true true false.

(** A document at the same address that has a [head] and no [body], as
    an XHTML document without a [body] element is. *)
Definition bare_page (h : string) : ContentScript.Page :=
  ContentScript.mkPage (lit h) (lit h) true false false.

(** Settings with the given [enabled] and [linkMode]. *)
Definition settings (enabled : bool) (linkMode : string) : JSObject :=
  <["linkMode" := VStr (lit linkMode)]>
  (<["enabled" := VBool enabled]>
  (<["visualFeedback" := VBool true]>
  (<["soundFeedback" := VBool false]> ∅))).

(** A chain of nodes [0, 1, ...] where each node's parent is the next
    one and the tags are those given; the last node has no parent. *)
Definition chain (tags : list string) : ContentScript.DOM :=
  ContentScript.mkDOM
    (fun n => if (N.to_nat n + 1 <? length tags)%nat then Some (n + 1) else None)
    (fun n => lit <$> (tags !! N.to_nat n)).

(** Storage holding the given items, where every call succeeds. *)
Definition store (items : JSObject) : Storage :=
  mkStorage items None None None None None.

(** Storage whose synchronized area rejects every call; [localStorage]
    works and holds no item. *)
Definition broken_store (items : JSObject) : Storage :=
  mkStorage items (Some (lit "storage unavailable"))
            (Some (lit "storage unavailable")) None None None.

(** Storage that can be read but rejects writes to the synchronized
    area; [localStorage] works. *)
Definition readonly_store (items : JSObject) : Storage :=
  mkStorage items None (Some (lit "quota exceeded")) None None None.


End Demo.

(** ** Messaging with retry ([sendMessageWithRetry]) *)

Module Messaging.

(** [s.includes(sub)] *)
Fixpoint includes_str (s sub : jsstring) : bool :=
  startsWith s sub
  || match s with
     | [] => false
     | _ :: s' => includes_str s' sub
     end.

(** The error after which the content script of Chrome and Firefox tries
    again. *)
Definition transient (message : jsstring) : bool :=
  includes_str message (lit "Extension context invalidated").

(** The errors after which the content script of Safari tries again. *)
Definition transient_safari (message : jsstring) : bool :=
  includes_str message (lit "Extension context invalidated")
  || includes_str message (lit "The message port closed before a response was received")
  || includes_str message (lit "No receiving end")
  || includes_str message (lit "Message manager disconnected").

Section Retry.
Context {R : Type}.

(** [sendMessage i] is what the [i]-th call of [runtime.sendMessage]
    gives. *)
Context (sendMessage : nat -> Outcome R).
Context (is_transient : jsstring -> bool).

(** The [for] loop: [i] calls were made and [remaining] iterations are
    left.  The result comes with the number of calls made. *)
Fixpoint retry_loop (remaining i : nat) : Outcome R * nat :=
  match remaining with
  | O => (Thrown (lit "All message attempts failed"), i)
  | S remaining' =>
      match sendMessage i with
      | Returned response => (Returned response, S i)
      | Thrown message =>
          if is_transient message then retry_loop remaining' (S i)
          else (Thrown message, S i)
      end
  end.

End Retry.

(** [sendMessageWithRetry(message, maxRetries)] of the universal content
    script. *)
Definition sendMessageWithRetry {R : Type} (sendMessage : nat -> Outcome R)
    (maxRetries : nat) : Outcome R * nat :=
  retry_loop sendMessage transient maxRetries 0.

(** [sendMessageWithRetry(message, maxRetries)] of the Safari content
    script, which first checks that the runtime is still there. *)
Definition sendMessageWithRetry_safari {R : Type} (runtime_alive : bool)
    (sendMessage : nat -> Outcome R) (maxRetries : nat) : Outcome R * nat :=
  if runtime_alive then retry_loop sendMessage transient_safari maxRetries 0
  else (Thrown (lit "Extension context invalidated"), O).

End Messaging.

(** ** The Safari content script: capture through the relay *)

Module SafariContentScript.

(** The [CAPTURE_LINK] message built by [captureLink]. *)
Definition captureRequest (url : jsstring) : Relay.Message :=
  Relay.mkMessage (lit "CAPTURE_LINK") (Some url) VUndefined VUndefined ∅.

(** [captureLink(url, anchorElement)]: the feedback, then the message,
    all inside the [try].  [send message] is what
    [sendMessageWithRetry(message)] does: the actions the message causes
    in the relay, and the response or the error. *)
Definition captureLink (settings : JSObject) (page : ContentScript.Page)
    (send : Relay.Message -> Eff (option JSObject)) (url : jsstring)
  : Eff unit :=
  try_catch
    (_ <- ContentScript.showCaptureFeedback settings page ;;
     response <- send (captureRequest url) ;;
     match response with
     | Some r =>
         if truthy (get r "success") then pure ()
         else throw (lit "Background script failed to process link")
     | None => throw (lit "Background script failed to process link")
     end)
    (fun _ => ContentScript.showError settings page (lit "errorProxlyNotRunning")).

End SafariContentScript.

(** ** The relay's other listeners *)

Module SafariRelayEvents.

(** [handleStorageChange(changes, namespace)] of the Safari relay: the
    new cache and the calls to [updateContextMenuVisibility] and
    [updateExtensionIcon]; [changes] maps each changed key to its new
    value. *)
Definition handleStorageChange (changes : JSObject) (namespace : jsstring)
    (settings : JSObject) : JSObject * list Effect :=
  if str_eqb namespace (lit "sync") then
    let upd (k : string) (eff : JSVal -> list Effect)
            (acc : JSObject * list Effect) : JSObject * list Effect :=
      match changes !! k with
      | Some newValue =>
          if negb (strict_eq newValue (get (fst acc) k))
          then (<[k := newValue]> (fst acc), snd acc ++ eff newValue)
          else acc
      | None => acc
      end in
    upd "soundFeedback" (fun _ => [])
      (upd "visualFeedback" (fun _ => [])
         (upd "enabled" (fun v => [SetBadge v])
            (upd "linkMode" (fun v => [UpdateMenuTitle v]) (settings, []))))
  else (settings, []).

(** [broadcastSettingsUpdate(settings)]: [tabs] is the result of
    [tabs.query], [delivered tab] tells whether [tabs.sendMessage]
    resolves for that tab.  The result lists the tabs the message was
    sent to with the outcome, and the two counters. *)
Definition broadcastSettingsUpdate (tabs : Outcome (list N))
    (delivered : N -> bool) : list (N * bool) * nat * nat :=
  match tabs with
  | Thrown _ => ([], O, O)
  | Returned ts =>
      fold_left
        (fun '(sent, successCount, errorCount) tab =>
           if delivered tab
           then (sent ++ [(tab, true)], S successCount, errorCount)
           else (sent ++ [(tab, false)], successCount, S errorCount))
        ts ([], O, O)
  end.

End SafariRelayEvents.

(** ** The options page ([ProxlyOptionsPage]) *)

Module OptionsPage.

(** The state of the settings form, which the page is taken to have:
    the value of the checked [linkMode] radio button of the form, if one
    is checked, and the two check boxes. *)
Record Form := mkForm {
  checked_linkMode : option jsstring;
  visual_checked : bool;
  sound_checked : bool
}.

Section WithManager.

(** [this.settingsManager], which the page creates and only uses through
    [loadSettings], [saveSettings] and [resetSettings]. *)
Context (settingsManager : SafariSettingsManager.Manager).

(** [loadCurrentSettings()] *)
Definition loadCurrentSettings (st : Storage) : JSObject :=
  fst (SafariSettingsManager.loadSettings settingsManager st).

(** [validateForm()]: a link mode must be selected. *)
Definition validateForm (form : Form) : bool :=
  match checked_linkMode form with
  | Some _ => true
  | None => false
  end.

(** The record [saveSettings()] gathers from the form and the current
    settings. *)
Definition gather (currentSettings : JSObject) (form : Form) : JSObject :=
  <["linkMode" := or_else (VStr (default [] (checked_linkMode form)))
                          (VStr (lit "all"))]>
  (<["enabled" := defined_or (get currentSettings "enabled") (VBool true)]>
  (<["visualFeedback" := VBool (visual_checked form)]>
  (<["soundFeedback" := VBool (sound_checked form)]>
  (<["version" := get currentSettings "version"]> ∅)))).

(** [saveSettings()]: the new current settings, the storage and the
    notification sent. *)
Definition saveSettings (currentSettings : JSObject) (form : Form)
    (st : Storage) : JSObject * Storage * list Effect :=
  if negb (validateForm form) then (currentSettings, st, [])
  else
    let newSettings := gather currentSettings form in
    let '(st', eff, success) :=
      SafariSettingsManager.saveSettings settingsManager newSettings st in
    if success then (newSettings, st', eff) else (currentSettings, st', eff).

(** [resetToDefaults()] once the user has confirmed. *)
Definition resetToDefaults (currentSettings : JSObject) (st : Storage)
  : JSObject * Storage * list Effect :=
  let '(st', eff, success) :=
    SafariSettingsManager.resetSettings settingsManager st in
  if success then (loadCurrentSettings st', st', eff)
  else (currentSettings, st', eff).

End WithManager.

End OptionsPage.

(** ** The popup's actions *)

Module PopupActions.
Import Relay.

(** What an action of the popup leaves behind: its own settings, the
    cache and the storage of the relay, the relay's effects, and whether
    the popup showed its failure status. *)
Record Run := mkRun {
  popup_settings : JSObject;
  relay_cache : JSObject;
  run_storage : Storage;
  relay_effects : list Effect;
  failure_shown : bool
}.

(** The [SETTINGS_UPDATED] message of the popup. *)
Definition settingsUpdated (settings : JSObject) : Message :=
  mkMessage (lit "SETTINGS_UPDATED") None VUndefined VUndefined settings.

(** The message of [testConnection()]. *)
Definition testRequest : Message :=
  mkMessage (lit "CAPTURE_LINK") (Some (lit "https://example.com/test"))
            (VBool true) VUndefined ∅.

Section WithRelay.

(** The relay answering [runtime.sendMessage], from its cache and the
    storage; [None] when no relay is listening and the call rejects. *)
Context (relay : option (JSObject -> Storage -> Message -> Handled)).

(** [handleMainToggle(enabled)] *)
Definition handleMainToggle (enabled : bool) (settings cache : JSObject)
    (st : Storage) : Run :=
  let settings1 := <["enabled" := VBool enabled]> settings in
  match storage_set settings1 st with
  | Thrown _ => mkRun settings1 cache st [] true
  | Returned st1 =>
      match relay with
      | None => mkRun settings1 cache st1 [] true
      | Some handle =>
          let h1 := handle cache st1 (SafariPopup.toggleRequest enabled) in
          let settings2 :=
            match get (response h1) "enabled" with
            | VUndefined => settings1
            | e => <["enabled" := e]> settings1
            end in
          let h2 := handle (new_settings h1) (new_storage h1)
                           (settingsUpdated settings2) in
          mkRun settings2 (new_settings h2) (new_storage h2)
                (effects h1 ++ effects h2) false
      end
  end.

(** [handleModeChange(newMode)] *)
Definition handleModeChange (newMode : jsstring) (settings cache : JSObject)
    (st : Storage) : Run :=
  let settings1 := <["linkMode" := VStr newMode]> settings in
  match storage_set settings1 st with
  | Thrown _ => mkRun settings1 cache st [] true
  | Returned st1 =>
      match relay with
      | None => mkRun settings1 cache st1 [] true
      | Some handle =>
          let h := handle cache st1 (settingsUpdated settings1) in
          mkRun settings1 (new_settings h) (new_storage h) (effects h) false
      end
  end.

(** [testConnection()]: whether the success status is shown, with what
    the relay did. *)
Definition testConnection (cache : JSObject) (st : Storage) : bool * Handled :=
  match relay with
  | None => (false, mkHandled cache st ∅ [])
  | Some handle =>
      let h := handle cache st testRequest in
      (truthy (get (response h) "success"), h)
  end.

End WithRelay.

End PopupActions.

(** ** Auxiliary notions used in the statements *)

(** The effects that are pure feedback to the user. *)
Definition is_feedback (e : Effect) : bool :=
  match e with
  | ShowVisualFeedback | PlayCaptureFeedback | ShowErrorIndicator => true
  | _ => false
  end.

(** What remains of a run when the feedback is left out. *)
Definition without_feedback (l : list Effect) : list Effect :=
  List.filter (fun e => negb (is_feedback e)) l.

(** The [k]-th ancestor of a node: [0] is the node itself, [1] its
    parent, and so on. *)
Fixpoint ancestor (d : ContentScript.DOM) (n : N) (k : nat) : option N :=
  match k with
  | O => Some n
  | S k' =>
      match ContentScript.parentNode d n with
      | Some p => ancestor d p k'
      | None => None
      end
  end.

(** The settings manager reads back what it writes: its reads and its
    writes both go to the synchronized area, or both go to the
    [localStorage] fallback. *)
Definition reads_own_writes (st : Storage) : bool :=
  match sync_get_error st, sync_set_error st with
  | None, None => true
  | Some _, Some _ =>
      match local_get_error st, local_set_error st with
      | None, None => true
      | _, _ => false
      end
  | _, _ => false
  end.

(** * Properties *)

(** ** Runs with actions *)

Section Runs_with_actions.

Lemma bind_fst {A B : Type} (m : Eff A) (k : A -> Eff B) :
  fst (bind m k)
  = fst m ++ match snd m with
             | Returned a => fst (k a)
             | Thrown _ => []
             end.
Proof.
  destruct m as [es [a|e]]; cbn [bind fst snd].
  - by destruct (k a).
  - by rewrite app_nil_r.
Qed.

Lemma bind_snd {A B : Type} (m : Eff A) (k : A -> Eff B) :
  snd (bind m k)
  = match snd m with
    | Returned a => snd (k a)
    | Thrown e => Thrown e
    end.
Proof.
  destruct m as [es [a|e]]; cbn [bind fst snd]; [|done]. by destruct (k a).
Qed.

Lemma try_catch_fst {A : Type} (m : Eff A) (h : jsstring -> Eff A) :
  fst (try_catch m h)
  = fst m ++ match snd m with
             | Returned _ => []
             | Thrown e => fst (h e)
             end.
Proof.
  destruct m as [es [a|e]]; cbn [try_catch fst snd].
  - by rewrite app_nil_r.
  - by destruct (h e).
Qed.

Lemma try_catch_snd {A : Type} (m : Eff A) (h : jsstring -> Eff A) :
  snd (try_catch m h)
  = match snd m with
    | Returned a => Returned a
    | Thrown e => snd (h e)
    end.
Proof.
  destruct m as [es [a|e]]; cbn [try_catch fst snd]; [done|]. by destruct (h e).
Qed.

End Runs_with_actions.

(** ** The capture predicate *)

Section CapturePredicate.
Import ContentScript Relay.
Context (P : Platform).

Lemma get_agree (s1 s2 : JSObject) (k : string) :
  s1 !! k = s2 !! k -> get s1 k = get s2 k.
Proof. unfold get. by intros ->. Qed.

(** The predicate throws exactly for an element that has an [href]
    attribute and whose [href] property is not a string. *)
Lemma shouldCaptureLink_throws (settings : JSObject) (page : Page)
    (anchor : Anchor) (e : jsstring) :
  shouldCaptureLink P settings page anchor = Thrown e
  <-> hasAttribute anchor "href" = true
      /\ (exists shown, href anchor = HrefOther shown)
      /\ e = TypeError.
Proof.
  unfold shouldCaptureLink.
  destruct (hasAttribute anchor "href"); cbn [negb].
  - destruct (href anchor) as [s|shown].
    + split; [|by intros (_ & [shown [=]] & _)].
      destruct (startsWith _ _ || startsWith _ _ || startsWith _ _); [done|].
      destruct (startsWith _ _); [done|].
      destruct (hasAttribute anchor "download"); [done|].
      destruct (negb (truthy (get settings "enabled"))); [done|].
      destruct (strict_eq _ _).
      * destruct (URL_new P s _); [|done]. by destruct (URL_new P _ None).
      * by destruct (strict_eq _ _).
    + split; [intros [= <-]; by eauto|]. by intros (_ & _ & ->).
  - split; [done|]. by intros ([=] & _).
Qed.

Lemma shouldCaptureLink_falsy_enabled (settings : JSObject) (page : Page)
    (anchor : Anchor) :
  truthy (get settings "enabled") = false ->
  shouldCaptureLink P settings page anchor <> Returned true
  /\ forall s, href anchor = HrefString s ->
               shouldCaptureLink P settings page anchor = Returned false.
Proof.
  intros Hen. unfold shouldCaptureLink.
  destruct (negb (hasAttribute anchor "href")); [by split|].
  destruct (href anchor) as [s|shown]; [|by split].
  destruct (startsWith _ _ || startsWith _ _ || startsWith _ _); [by split|].
  destruct (startsWith _ _); [by split|].
  destruct (hasAttribute anchor "download"); [by split|].
  rewrite Hen. by split.
Qed.

Lemma shouldCaptureLink_no_href (settings : JSObject) (page : Page)
    (anchor : Anchor) :
  hasAttribute anchor "href" = false ->
  shouldCaptureLink P settings page anchor = Returned false.
Proof. intros Hno. unfold shouldCaptureLink. by rewrite Hno. Qed.

Lemma shouldCaptureLink_not_string (settings : JSObject) (page : Page)
    (anchor : Anchor) (shown : jsstring) :
  hasAttribute anchor "href" = true ->
  href anchor = HrefOther shown ->
  shouldCaptureLink P settings page anchor = Thrown TypeError.
Proof. intros Hattr Hhref. unfold shouldCaptureLink. by rewrite Hattr, Hhref. Qed.

(** A click is handled without any action unless the predicate returns
    [true]; when the predicate throws, so does the handler. *)
Lemma handleLinkClick_not_captured (settings : JSObject) (page : Page)
    (anchor : Anchor) :
  shouldCaptureLink P settings page anchor <> Returned true ->
  handleLinkClick P settings page (Some anchor)
  = ([], match shouldCaptureLink P settings page anchor with
         | Returned _ => Returned ()
         | Thrown e => Thrown e
         end).
Proof.
  intros Hno. unfold handleLinkClick, lift.
  destruct (shouldCaptureLink P settings page anchor) as [[|]|e]; done.
Qed.

(** C1. With [settings.enabled] equal to [false] the predicate returns
    [false] for every HTML anchor, every page and every value of the
    other settings, and it never returns [true].  For an element whose
    [href] property is not a string, such as an SVG link, it does not
    return: [anchor.href.toLowerCase()] throws before [enabled] is read,
    and the click handler throws with it, without an action. *)
Theorem shouldCaptureLink_disabled (settings : JSObject) (page : Page)
    (anchor : Anchor) :
  get settings "enabled" = VBool false ->
  (forall s, href anchor = HrefString s ->
             shouldCaptureLink P settings page anchor = Returned false)
  /\ (hasAttribute anchor "href" = false ->
      shouldCaptureLink P settings page anchor = Returned false)
  /\ (forall shown,
        hasAttribute anchor "href" = true ->
        href anchor = HrefOther shown ->
        shouldCaptureLink P settings page anchor = Thrown TypeError
        /\ handleLinkClick P settings page (Some anchor) = ([], Thrown TypeError))
  /\ shouldCaptureLink P settings page anchor <> Returned true
  /\ fst (handleLinkClick P settings page (Some anchor)) = [].
Proof.
  intros Hen.
  assert (Hfalsy : truthy (get settings "enabled") = false) by (by rewrite Hen).
  destruct (shouldCaptureLink_falsy_enabled settings page anchor Hfalsy)
    as [Hnever Hstring].
  split; [exact Hstring|]. split; [apply shouldCaptureLink_no_href|].
  split; [|split; [exact Hnever|]].
  - intros shown Hattr Hhref.
    pose proof (shouldCaptureLink_not_string settings page anchor shown Hattr Hhref)
      as Hthrow.
    split; [exact Hthrow|].
    by rewrite handleLinkClick_not_captured, Hthrow.
  - by rewrite handleLinkClick_not_captured.
Qed.

(** C2. With [enabled = true] and [linkMode = 'all'], for an HTML
    anchor with an explicit [href] attribute that resolves to an http or
    https URL, whose [href] is not a [javascript:], [mailto:] or [tel:]
    link nor a fragment, without a [download] attribute, the predicate
    is [true] exactly when the resolved origin of the anchor differs
    from the origin of the page.  For an element with an [href]
    attribute whose [href] property is not a string, such as an SVG
    link, the predicate throws whatever the link is. *)
Theorem shouldCaptureLink_all_mode_cross_origin (settings : JSObject)
    (page : Page) (anchor : Anchor) :
  hasAttribute anchor "href" = true ->
  hasAttribute anchor "download" = false ->
  get settings "enabled" = VBool true ->
  get settings "linkMode" = VStr (lit "all") ->
  (forall s linkUrl currentUrl,
     href anchor = HrefString s ->
     URL_new P s (Some (baseURI page)) = Some linkUrl ->
     url_protocol linkUrl = lit "http:" \/ url_protocol linkUrl = lit "https:" ->
     startsWith (toLowerCase P s) (lit "javascript:") = false ->
     startsWith (toLowerCase P s) (lit "mailto:") = false ->
     startsWith (toLowerCase P s) (lit "tel:") = false ->
     startsWith (toLowerCase P s) (lit "#") = false ->
     URL_new P (location_href page) None = Some currentUrl ->
     (shouldCaptureLink P settings page anchor = Returned true
      <-> url_origin linkUrl ≠ url_origin currentUrl)
     /\ (shouldCaptureLink P settings page anchor = Returned false
         <-> url_origin linkUrl = url_origin currentUrl))
  /\ (forall shown,
        href anchor = HrefOther shown ->
        shouldCaptureLink P settings page anchor = Thrown TypeError
        /\ handleLinkClick P settings page (Some anchor) = ([], Thrown TypeError)).
Proof.
  intros Hhref Hdl Hen Hmode. split.
  - intros s linkUrl currentUrl Hs Hlink _ Hjs Hmail Htel Hfrag Hcur.
    unfold shouldCaptureLink.
    rewrite Hhref, Hs, Hjs, Hmail, Htel, Hfrag, Hdl, Hen, Hmode, Hlink, Hcur.
    cbn [negb orb truthy]. 
    replace (strict_eq (VStr (lit "all")) (VStr (lit "all"))) with true
      by (vm_compute; reflexivity).
    unfold str_eqb.
    destruct (bool_decide_reflect (url_origin linkUrl = url_origin currentUrl))
      as [Heq|Hne]; cbn [negb]; split; split; try done.
  - intros shown Hother.
    pose proof (shouldCaptureLink_not_string settings page anchor shown Hhref Hother)
      as Hthrow.
    split; [exact Hthrow|].
    rewrite handleLinkClick_not_captured by (by rewrite Hthrow).
    by rewrite Hthrow.
Qed.

Lemma shouldCaptureLink_context_mode (settings : JSObject) (page : Page)
    (anchor : Anchor) :
  get settings "linkMode" = VStr (lit "context") ->
  shouldCaptureLink P settings page anchor <> Returned true
  /\ forall s, href anchor = HrefString s ->
               shouldCaptureLink P settings page anchor = Returned false.
Proof.
  intros Hmode. unfold shouldCaptureLink. rewrite Hmode.
  destruct (negb (hasAttribute anchor "href")); [by split|].
  destruct (href anchor) as [s|shown]; [|by split].
  destruct (startsWith _ _ || startsWith _ _ || startsWith _ _); [by split|].
  destruct (startsWith _ _); [by split|].
  destruct (hasAttribute anchor "download"); [by split|].
  destruct (negb (truthy (get settings "enabled"))); [by split|].
  replace (strict_eq (VStr (lit "context")) (VStr (lit "all"))) with false
    by (vm_compute; reflexivity).
  by destruct (strict_eq _ _).
Qed.

(** C3. With [linkMode = 'context'] the predicate returns [false] for
    every HTML anchor and never returns [true]; for an element with an
    [href] attribute whose [href] property is not a string it throws
    instead.  A click on the extension's context-menu entry for a link
    invokes the forwarder exactly when the link passes the http/https
    validity check, without reading the settings, and the forwarder then
    calls [tabs.update] with [proxly://open/] followed by the encoded
    link. *)
Theorem context_mode_click_and_menu
    (update : N -> jsstring -> option jsstring) (settings : JSObject)
    (page : Page) (anchor : Anchor) (info : MenuInfo) (tabId : N)
    (linkUrl : jsstring) :
  get settings "linkMode" = VStr (lit "context") ->
  info_menuItemId info = menuItemId ->
  info_linkUrl info = Some linkUrl ->
  linkUrl ≠ [] ->
  (forall s, href anchor = HrefString s ->
             shouldCaptureLink P settings page anchor = Returned false)
  /\ (forall shown,
        hasAttribute anchor "href" = true ->
        href anchor = HrefOther shown ->
        shouldCaptureLink P settings page anchor = Thrown TypeError)
  /\ shouldCaptureLink P settings page anchor <> Returned true
  /\ fst (handleLinkClick P settings page (Some anchor)) = []
  /\ FirefoxBackground.handleContextMenuClick P update settings info tabId
     = (if isValidUrl P linkUrl
        then fst (FirefoxBackground.forwardToProxly update linkUrl tabId)
        else [])
  /\ (forall encodedUrl,
        isValidUrl P linkUrl = true ->
        Base64.btoa linkUrl = Returned encodedUrl ->
        FirefoxBackground.handleContextMenuClick P update settings info tabId
        = [TabsUpdate tabId (proxly_prefix ++ encodedUrl)]).
Proof.
  intros Hmode Hid Hurl Hne.
  assert (Hmenu : FirefoxBackground.handleContextMenuClick P update settings info tabId
     = (if isValidUrl P linkUrl
        then fst (FirefoxBackground.forwardToProxly update linkUrl tabId)
        else [])).
  { unfold FirefoxBackground.handleContextMenuClick.
    rewrite Hid, Hurl. unfold str_eqb. rewrite bool_decide_eq_true_2 by done.
    destruct linkUrl as [|c l]; [done|]. cbn [nonempty negb orb default from_option id].
    by destruct (isValidUrl P (c :: l)). }
  destruct (shouldCaptureLink_context_mode settings page anchor Hmode)
    as [Hnever Hstring].
  split; [exact Hstring|].
  split; [intros shown; apply shouldCaptureLink_not_string|].
  split; [exact Hnever|].
  split; [by rewrite handleLinkClick_not_captured|].
  split; [exact Hmenu|].
  intros e Hvalid Hb. rewrite Hmenu, Hvalid.
  unfold FirefoxBackground.forwardToProxly. rewrite Hb.
  by destruct (update tabId _).
Qed.

(** *** Feedback and capture *)

(** Whether [showVisualFeedback] can add its elements to the document. *)
Lemma showVisualFeedback_cases (page : Page) :
  showVisualFeedback page
  = if document_body page && (document_head page || capture_styles page)
    then ([ShowVisualFeedback], Returned ())
    else ([], Thrown TypeError).
Proof.
  unfold showVisualFeedback.
  by destruct (capture_styles page), (document_head page), (document_body page).
Qed.

Lemma showCaptureFeedback_cases (s : JSObject) (page : Page) :
  showCaptureFeedback s page
  = if truthy (get s "visualFeedback")
       && negb (document_body page && (document_head page || capture_styles page))
    then ([Announce (lit "accessibilityLinkCapture")], Thrown TypeError)
    else ([Announce (lit "accessibilityLinkCapture")]
          ++ (if truthy (get s "visualFeedback") then [ShowVisualFeedback] else [])
          ++ (if truthy (get s "soundFeedback") then [PlayCaptureFeedback] else []),
          Returned ()).
Proof.
  unfold showCaptureFeedback. rewrite showVisualFeedback_cases.
  by destruct (truthy (get s "visualFeedback")),
       (document_body page && (document_head page || capture_styles page)),
       (truthy (get s "soundFeedback")).
Qed.

Lemma showError_cases (s : JSObject) (page : Page) (k : jsstring) :
  showError s page k
  = if truthy (get s "visualFeedback") && negb (document_body page)
    then ([Announce k], Thrown TypeError)
    else ([Announce k]
          ++ (if truthy (get s "visualFeedback") then [ShowErrorIndicator] else []),
          Returned ()).
Proof.
  unfold showError.
  by destruct (truthy (get s "visualFeedback")), (document_body page).
Qed.

(** The click handler once the predicate has returned [true]. *)
Lemma handleLinkClick_captured (settings : JSObject) (page : Page)
    (anchor : Anchor) :
  shouldCaptureLink P settings page anchor = Returned true ->
  handleLinkClick P settings page (Some anchor)
  = match URL_new P (ToString (href anchor)) (Some (baseURI page)) with
    | None => showError settings page (lit "errorInvalidUrl")
    | Some u =>
        if ContentScript.isValidUrl P (url_href u)
        then (PreventDefault :: StopPropagation
                :: fst (captureLink settings page (url_href u)), Returned ())
        else ([], Returned ())
    end.
Proof.
  intros Hcapture. unfold handleLinkClick, lift. rewrite Hcapture.
  cbn [bind negb app].
  destruct (URL_new P _ _) as [u|].
  - destruct (ContentScript.isValidUrl P (url_href u)); cbn [negb].
    + unfold detached, emit.
      destruct (captureLink settings page (url_href u)) as [es r].
      by cbn [bind try_catch fst snd app].
    + done.
  - unfold throw. cbn [try_catch].
    by destruct (showError settings page (lit "errorInvalidUrl")).
Qed.

Lemma without_feedback_app (l1 l2 : list Effect) :
  without_feedback (l1 ++ l2) = without_feedback l1 ++ without_feedback l2.
Proof. apply List.filter_app. Qed.

(** Apart from the feedback, [captureLink] does the same for two
    settings with the same [visualFeedback], and for any two settings on
    a page that can show the feedback. *)
Lemma captureLink_without_feedback (s1 s2 : JSObject) (page : Page)
    (url : jsstring) :
  truthy (get s1 "visualFeedback") = truthy (get s2 "visualFeedback")
  \/ (document_body page = true
      /\ (document_head page = true \/ capture_styles page = true)) ->
  without_feedback (fst (captureLink s1 page url))
  = without_feedback (fst (captureLink s2 page url))
  /\ snd (captureLink s1 page url) = snd (captureLink s2 page url).
Proof.
  unfold captureLink. rewrite !showCaptureFeedback_cases, !showError_cases.
  unfold forwardToProxlyDirect, emit, throw.
  destruct (truthy (get s1 "visualFeedback")), (truthy (get s2 "visualFeedback")),
    (truthy (get s1 "soundFeedback")), (truthy (get s2 "soundFeedback")),
    (document_body page), (document_head page), (capture_styles page),
    (Base64.btoa url) as [enc|e];
    intros [Hv | [Hb [Hh | Hc]]]; try discriminate; by split.
Qed.

Lemma showError_without_feedback (s1 s2 : JSObject) (page : Page)
    (k : jsstring) :
  truthy (get s1 "visualFeedback") = truthy (get s2 "visualFeedback")
  \/ (document_body page = true
      /\ (document_head page = true \/ capture_styles page = true)) ->
  without_feedback (fst (showError s1 page k))
  = without_feedback (fst (showError s2 page k))
  /\ snd (showError s1 page k) = snd (showError s2 page k).
Proof.
  rewrite !showError_cases.
  destruct (truthy (get s1 "visualFeedback")), (truthy (get s2 "visualFeedback")),
    (document_body page);
    intros [Hv | [Hb _]]; try discriminate; by split.
Qed.

(** When the visual feedback is on and the page cannot show it, nothing
    is forwarded. *)
Lemma captureLink_feedback_throws (s : JSObject) (page : Page) (url : jsstring)
    (uri : jsstring) :
  truthy (get s "visualFeedback") = true ->
  document_body page = false
  \/ (document_head page = false /\ capture_styles page = false) ->
  Navigate uri ∉ fst (captureLink s page url).
Proof.
  intros Hv Hpage. unfold captureLink.
  rewrite showCaptureFeedback_cases, showError_cases, Hv.
  replace (document_body page && (document_head page || capture_styles page))
    with false
    by (destruct Hpage as [-> | [-> ->]]; [done|by rewrite andb_false_r]).
  cbn [andb negb bind try_catch fst].
  destruct (document_body page); cbn [negb fst app];
    rewrite !elem_of_cons, elem_of_nil; intros H;
    repeat destruct H as [H|H]; discriminate || done.
Qed.

(** Without the visual feedback the encoded URL is forwarded. *)
Lemma captureLink_forwards (s : JSObject) (page : Page) (url encodedUrl : jsstring) :
  truthy (get s "visualFeedback") = false
  \/ (document_body page = true
      /\ (document_head page = true \/ capture_styles page = true)) ->
  Base64.btoa url = Returned encodedUrl ->
  Navigate (proxly_prefix ++ encodedUrl) ∈ fst (captureLink s page url)
  /\ snd (captureLink s page url) = Returned ().
Proof.
  intros Hpage Hb. unfold captureLink.
  rewrite showCaptureFeedback_cases.
  replace (truthy (get s "visualFeedback")
           && negb (document_body page
                    && (document_head page || capture_styles page)))
    with false.
  2:{ destruct (truthy (get s "visualFeedback")), (document_body page),
        (document_head page), (capture_styles page);
        destruct Hpage as [? | [? [? | ?]]]; done. }
  unfold forwardToProxlyDirect, emit. rewrite Hb.
  cbn [bind try_catch fst snd]. split; [|done].
  rewrite !elem_of_app. right. by apply list_elem_of_singleton.
Qed.

(** C10. Two settings objects that differ only in [visualFeedback] and
    [soundFeedback] give the same result of the predicate for every
    element and page.  Handling the click then differs at most in the
    feedback shown when the two agree on [visualFeedback], or when the
    page has a body and a head (or the indicator's style element).  On a
    page without them the visual feedback throws inside [captureLink]
    before the link is forwarded: with [visualFeedback] on nothing is
    forwarded, with it off the link is. *)
Theorem shouldCaptureLink_ignores_feedback_settings (s1 s2 : JSObject)
    (page : Page) (anchor : Anchor) :
  (forall k : string,
      k ≠ "visualFeedback" -> k ≠ "soundFeedback" -> s1 !! k = s2 !! k) ->
  shouldCaptureLink P s1 page anchor = shouldCaptureLink P s2 page anchor
  /\ (truthy (get s1 "visualFeedback") = truthy (get s2 "visualFeedback")
      \/ (document_body page = true
          /\ (document_head page = true \/ capture_styles page = true)) ->
      without_feedback (fst (handleLinkClick P s1 page (Some anchor)))
      = without_feedback (fst (handleLinkClick P s2 page (Some anchor)))
      /\ snd (handleLinkClick P s1 page (Some anchor))
         = snd (handleLinkClick P s2 page (Some anchor)))
  /\ (truthy (get s1 "visualFeedback") = true ->
      truthy (get s2 "visualFeedback") = false ->
      document_body page = false
      \/ (document_head page = false /\ capture_styles page = false) ->
      (forall uri, Navigate uri ∉ fst (handleLinkClick P s1 page (Some anchor)))
      /\ (forall u encodedUrl,
            shouldCaptureLink P s2 page anchor = Returned true ->
            URL_new P (ToString (href anchor)) (Some (baseURI page)) = Some u ->
            ContentScript.isValidUrl P (url_href u) = true ->
            Base64.btoa (url_href u) = Returned encodedUrl ->
            Navigate (proxly_prefix ++ encodedUrl)
              ∈ fst (handleLinkClick P s2 page (Some anchor)))).
Proof.
  intros Hagree.
  assert (Hen : get s1 "enabled" = get s2 "enabled")
    by (apply get_agree, Hagree; done).
  assert (Hmode : get s1 "linkMode" = get s2 "linkMode")
    by (apply get_agree, Hagree; done).
  assert (Hsc : shouldCaptureLink P s1 page anchor
                = shouldCaptureLink P s2 page anchor).
  { unfold shouldCaptureLink. by rewrite Hen, Hmode. }
  split; [exact Hsc|]. split.
  - intros Hpage.
    destruct (shouldCaptureLink P s2 page anchor) as [[|]|e] eqn:Hs2.
    + rewrite !handleLinkClick_captured by congruence.
      destruct (URL_new P _ _) as [u|].
      * destruct (ContentScript.isValidUrl P (url_href u)); [|done].
        cbn [fst snd].
        destruct (captureLink_without_feedback s1 s2 page (url_href u) Hpage)
          as [Hfst _].
        split; [|done].
        change (without_feedback ([PreventDefault; StopPropagation]
                                  ++ fst (captureLink s1 page (url_href u)))
                = without_feedback ([PreventDefault; StopPropagation]
                                    ++ fst (captureLink s2 page (url_href u)))).
        by rewrite !without_feedback_app, Hfst.
      * by apply showError_without_feedback.
    + rewrite !handleLinkClick_not_captured by congruence. by rewrite Hsc, Hs2.
    + rewrite !handleLinkClick_not_captured by congruence. by rewrite Hsc, Hs2.
  - intros Hv1 Hv2 Hpage. split.
    + intros uri.
      destruct (shouldCaptureLink P s1 page anchor) as [[|]|e] eqn:Hs1.
      * rewrite handleLinkClick_captured by done.
        destruct (URL_new P _ _) as [u|].
        -- destruct (ContentScript.isValidUrl P (url_href u)); cbn [fst];
             [|apply not_elem_of_nil].
           rewrite !not_elem_of_cons. split; [done|]. split; [done|].
           by apply captureLink_feedback_throws.
        -- rewrite showError_cases.
           destruct (truthy (get s1 "visualFeedback") && negb (document_body page));
             cbn [fst].
           ++ rewrite not_elem_of_cons. split; [done|apply not_elem_of_nil].
           ++ rewrite Hv1. cbn [app].
              rewrite !not_elem_of_cons. split; [done|]. split; [done|].
              apply not_elem_of_nil.
      * rewrite handleLinkClick_not_captured by congruence. apply not_elem_of_nil.
      * rewrite handleLinkClick_not_captured by congruence. apply not_elem_of_nil.
    + intros u enc Hcap Hurl Hvalid Hb.
      rewrite handleLinkClick_captured, Hurl, Hvalid by done. cbn [fst].
      rewrite !elem_of_cons. right. right.
      by apply captureLink_forwards; [left|].
Qed.

(** [captureLink] navigates only to the URI built from [btoa(url)]. *)
Lemma captureLink_navigate (s : JSObject) (page : Page) (url uri : jsstring) :
  Navigate uri ∈ fst (captureLink s page url) ->
  exists encodedUrl,
    Base64.btoa url = Returned encodedUrl /\ uri = proxly_prefix ++ encodedUrl.
Proof.
  unfold captureLink. rewrite showCaptureFeedback_cases, showError_cases.
  unfold forwardToProxlyDirect, emit, throw.
  destruct (truthy (get s "visualFeedback")), (truthy (get s "soundFeedback")),
    (document_body page), (document_head page), (capture_styles page),
    (Base64.btoa url) as [enc|e];
    cbn [andb orb negb bind try_catch fst snd app];
    rewrite ?elem_of_cons, elem_of_nil; intros H;
    repeat (destruct H as [H|H]); try discriminate H; try done;
    injection H as ->; by eexists.
Qed.

(** The click handler navigates only for a captured link whose resolved
    URL passes the http/https check, and only to the URI built from
    [btoa] of the resolved [href]. *)
Lemma handleLinkClick_navigate (settings : JSObject) (page : Page)
    (anchor : Anchor) (uri : jsstring) :
  Navigate uri ∈ fst (handleLinkClick P settings page (Some anchor)) ->
  shouldCaptureLink P settings page anchor = Returned true
  /\ exists u encodedUrl,
       URL_new P (ToString (href anchor)) (Some (baseURI page)) = Some u
       /\ ContentScript.isValidUrl P (url_href u) = true
       /\ Base64.btoa (url_href u) = Returned encodedUrl
       /\ uri = proxly_prefix ++ encodedUrl.
Proof.
  destruct (shouldCaptureLink P settings page anchor) as [[|]|e] eqn:Hs.
  - rewrite handleLinkClick_captured by done.
    destruct (URL_new P _ _) as [u|].
    + destruct (ContentScript.isValidUrl P (url_href u)) eqn:Hvalid; cbn [fst].
      * rewrite !elem_of_cons. intros [H|[H|H]]; [discriminate H|discriminate H|].
        apply captureLink_navigate in H as (enc & Hb & ->).
        split; [done|]. by exists u, enc.
      * intros H. by apply elem_of_nil in H.
    + rewrite showError_cases.
      destruct (truthy (get settings "visualFeedback")), (document_body page);
        cbn [andb negb fst app]; rewrite ?elem_of_cons, elem_of_nil; intros H;
        repeat (destruct H as [H|H]); try discriminate H; done.
  - rewrite handleLinkClick_not_captured by (by rewrite Hs).
    intros H. by apply elem_of_nil in H.
  - rewrite handleLinkClick_not_captured by (by rewrite Hs).
    intros H. by apply elem_of_nil in H.
Qed.

End CapturePredicate.

(** ** The ancestor walk *)

Section AncestorWalk.
Import ContentScript.
Context (P : Platform).






End AncestorWalk.

(** ** The settings store *)

Section SettingsStore.

Lemma get_empty (k : string) : get ∅ k = VUndefined.
Proof. unfold get. by rewrite lookup_empty. Qed.

Lemma get_insert_eq (o : JSObject) (k : string) (v : JSVal) :
  get (<[k := v]> o) k = v.
Proof. unfold get. by rewrite lookup_insert_eq. Qed.

Lemma get_insert_ne (o : JSObject) (k k' : string) (v : JSVal) :
  k ≠ k' -> get (<[k := v]> o) k' = get o k'.
Proof. intros Hne. unfold get. by rewrite lookup_insert_ne. Qed.

Lemma get_union_l (a b : JSObject) (k : string) :
  is_Some (a !! k) -> get (a ∪ b) k = get a k.
Proof.
  intros [v Hv]. unfold get. by rewrite (lookup_union_Some_l a b k v Hv), Hv.
Qed.

Lemma safari_defaults_documented :
  SafariSettingsManager.defaultSettings SafariSettingsManager.constructor
  = Relay.defaultRecord.
Proof. reflexivity. Qed.

Lemma content_defaults_documented :
  ContentScript.defaultSettings = delete "version" Relay.defaultRecord.
Proof.
  unfold ContentScript.defaultSettings, Relay.defaultRecord.
  rewrite !delete_insert_ne by done.
  by rewrite delete_insert_eq, delete_empty.
Qed.

Lemma popup_defaults_documented :
  (<["enabled" := VBool true]>
   (<["linkMode" := VStr (lit "all")]>
   (<["visualFeedback" := VBool true]>
   (<["soundFeedback" := VBool false]> ∅))) : JSObject)
  = delete "version" Relay.defaultRecord.
Proof.
  rewrite <- content_defaults_documented. unfold ContentScript.defaultSettings.
  by rewrite insert_insert_ne.
Qed.

Lemma relay_loadSettings_empty (settings : JSObject) (st : Storage) :
  sync_items st = ∅ \/ is_Some (sync_get_error st) ->
  snd (Relay.loadSettings settings st) = Relay.defaultRecord.
Proof.
  intros Hst. unfold Relay.loadSettings, storage_get.
  destruct (sync_get_error st) as [e|]; [done|].
  destruct Hst as [->|[e He]]; [|done].
  simpl. by rewrite !get_empty.
Qed.

(** C5, as the code has it.  When the store is empty or cannot be read,
    [loadSettings] of the background relay returns exactly the documented
    default record, and so does the Safari settings manager as
    constructed (which reads the [localStorage] item instead when the
    store cannot be read, the item can be read and there is one); the
    content script gets the same values for
    its four fields and keeps no [version]; the Chrome settings manager
    returns its own default record, with [linkMode = 'alt'] and no
    [enabled] field. *)
Theorem loadSettings_empty_store (st : Storage) (settings : JSObject)
    (response : Outcome (option JSObject)) :
  sync_items st = ∅ \/ is_Some (sync_get_error st) ->
  (forall r, response = Returned (Some r) ->
             r = snd (Relay.loadSettings settings st)) ->
  snd (Relay.loadSettings settings st) = Relay.defaultRecord
  /\ (sync_get_error st = None \/ local_item st = None
      \/ is_Some (local_get_error st) ->
      fst (SafariSettingsManager.loadSettings SafariSettingsManager.constructor st)
      = Relay.defaultRecord)
  /\ ContentScript.loadSettings st response
     = delete "version" Relay.defaultRecord
  /\ SafariPopup.loadSettings st response
     = match response with
       | Returned (Some _) => Relay.defaultRecord
       | _ => delete "version" Relay.defaultRecord
       end
  /\ ChromeSettingsManager.loadSettings st
     = ChromeSettingsManager.defaultSettings
  /\ get ChromeSettingsManager.defaultSettings "linkMode" = VStr (lit "alt")
  /\ ChromeSettingsManager.defaultSettings !! "enabled" = None.
Proof.
  intros Hst Hresp.
  pose proof (relay_loadSettings_empty settings st Hst) as Hrelay.
  split; [exact Hrelay|]. split; [|split; [|split; [|split; [|split]]]].
  - intros Hsafari.
    unfold SafariSettingsManager.loadSettings, SafariSettingsManager.getStorage,
      storage_get, local_get, spread2.
    destruct (sync_get_error st) as [e|] eqn:He.
    + destruct (local_get_error st) as [e'|] eqn:He'; [done|].
      destruct Hsafari as [?| [-> | [? ?]]]; [done| |done].
      cbn [default from_option fst]. by rewrite (left_id_L ∅ (∪)).
    + destruct Hst as [->|[e He']]; [|done].
      cbn [fst]. by rewrite (left_id_L ∅ (∪)).
  - unfold ContentScript.loadSettings, storage_get.
    destruct (sync_get_error st) as [e|] eqn:He;
      [apply content_defaults_documented|].
    destruct Hst as [Hempty|[e He']]; [|done]. rewrite Hempty.
    rewrite !get_empty.
    change (or_else VUndefined (VStr (lit "all"))) with (VStr (lit "all")).
    change (or_else VUndefined (VBool false)) with (VBool false).
    change (defined_or VUndefined (VBool true)) with (VBool true).
    fold ContentScript.defaultSettings.
    destruct response as [[r|]|msg]; try apply content_defaults_documented.
    rewrite (Hresp r eq_refl), Hrelay.
    replace (negb (truthy (get Relay.defaultRecord "error"))) with true
      by (vm_compute; reflexivity).
    replace (negb (strict_eq (get Relay.defaultRecord "enabled")
                     (get ContentScript.defaultSettings "enabled"))
             || negb (strict_eq (get Relay.defaultRecord "linkMode")
                        (get ContentScript.defaultSettings "linkMode")))
      with false by (vm_compute; reflexivity).
    apply content_defaults_documented.
  - unfold SafariPopup.loadSettings, storage_get.
    destruct response as [[r|]|msg].
    + rewrite (Hresp r eq_refl), Hrelay.
      by replace (negb (truthy (get Relay.defaultRecord "error"))) with true
        by (vm_compute; reflexivity).
    + destruct (sync_get_error st) as [e|] eqn:He;
        [apply popup_defaults_documented|].
      destruct Hst as [Hempty|[e He']]; [|done]. rewrite Hempty.
      rewrite !get_empty. apply popup_defaults_documented.
    + apply popup_defaults_documented.
  - unfold ChromeSettingsManager.loadSettings, storage_get, spread2.
    destruct (sync_get_error st) as [e|]; [done|].
    destruct Hst as [->|[e He']]; [|done]. by rewrite (left_id_L ∅ (∪)).
  - reflexivity.
  - reflexivity.
Qed.

Lemma chrome_validateSettings_dom (settings : JSObject) :
  dom (ChromeSettingsManager.validateSettings settings)
  = ({["linkMode"; "visualFeedback"; "soundFeedback"; "version"]} : gset string).
Proof.
  unfold ChromeSettingsManager.validateSettings,
    ChromeSettingsManager.defaultSettings.
  destruct (includes _ _); rewrite !dom_insert_L, dom_empty_L;
    apply set_eq; intros k; rewrite !elem_of_union, !elem_of_singleton,
      elem_of_empty; tauto.
Qed.

Lemma chrome_validateSettings_no_enabled (settings : JSObject) :
  ChromeSettingsManager.validateSettings settings !! "enabled" = None.
Proof.
  apply not_elem_of_dom. rewrite chrome_validateSettings_dom.
  rewrite !elem_of_union, !elem_of_singleton.
  intros [[[?|?]|?]|?]; discriminate.
Qed.

(** C9. The record returned by [validateSettings] of the Chrome settings
    manager has exactly the fields [linkMode], [visualFeedback],
    [soundFeedback] and [version], whatever the input holds; saving
    through this manager writes that record and nothing else, so the
    stored [enabled] stays as it was. *)
Theorem chrome_validateSettings_drops_enabled (settings : JSObject)
    (st : Storage) :
  dom (ChromeSettingsManager.validateSettings settings)
  = ({["linkMode"; "visualFeedback"; "soundFeedback"; "version"]} : gset string)
  /\ ChromeSettingsManager.validateSettings settings !! "enabled" = None
  /\ (sync_items (ChromeSettingsManager.saveSettings settings st).1.1
      = sync_items st
      \/ sync_items (ChromeSettingsManager.saveSettings settings st).1.1
         = ChromeSettingsManager.validateSettings settings ∪ sync_items st)
  /\ sync_items (ChromeSettingsManager.saveSettings settings st).1.1 !! "enabled"
     = sync_items st !! "enabled".
Proof.
  pose proof (chrome_validateSettings_dom settings) as Hdom.
  pose proof (chrome_validateSettings_no_enabled settings) as Hnone.
  split; [exact Hdom|]. split; [exact Hnone|].
  unfold ChromeSettingsManager.saveSettings, storage_set.
  destruct (sync_set_error st) as [e|]; simpl.
  - split; [by left|done].
  - split; [by right|]. by rewrite lookup_union_r.
Qed.

Lemma truthy_nonempty_string (s : jsstring) : s ≠ [] -> truthy (VStr s) = true.
Proof.
  intros Hs. simpl. unfold str_eqb. by rewrite bool_decide_eq_false_2.
Qed.

(** C6, as the code has it.  Saving a record whose [linkMode] is not one
    the manager recognises, with boolean [enabled], [visualFeedback] and
    [soundFeedback] and a non-empty [version]: the Safari settings manager
    stores [linkMode = 'all'] and keeps the other four fields of the
    input; the Chrome settings manager stores its default [linkMode =
    'alt'], keeps the two feedback flags, stores [version = '1.0.0'] and
    leaves the stored [enabled] untouched. *)
Theorem saveSettings_unrecognized_linkMode (input : JSObject) (st : Storage)
    (e v s : bool) (ver : jsstring) :
  sync_set_error st = None ->
  get input "enabled" = VBool e ->
  get input "visualFeedback" = VBool v ->
  get input "soundFeedback" = VBool s ->
  get input "version" = VStr ver ->
  ver ≠ [] ->
  (includes [VStr (lit "all"); VStr (lit "context")] (get input "linkMode") = false ->
   let stored :=
     sync_items (SafariSettingsManager.saveSettings
                   SafariSettingsManager.constructor input st).1.1 in
   get stored "linkMode" = VStr (lit "all")
   /\ get stored "enabled" = VBool e
   /\ get stored "visualFeedback" = VBool v
   /\ get stored "soundFeedback" = VBool s
   /\ get stored "version" = VStr ver)
  /\ (includes [VStr (lit "all"); VStr (lit "alt")] (get input "linkMode") = false ->
      let stored := sync_items (ChromeSettingsManager.saveSettings input st).1.1 in
      get stored "linkMode" = VStr (lit "alt")
      /\ get stored "visualFeedback" = VBool v
      /\ get stored "soundFeedback" = VBool s
      /\ get stored "version" = VStr (lit "1.0.0")
      /\ stored !! "enabled" = sync_items st !! "enabled").
Proof.
  intros Hok He Hv Hs Hver Hne. split.
  - intros Hmode stored. subst stored.
    unfold SafariSettingsManager.saveSettings, SafariSettingsManager.setStorage,
      storage_set. rewrite Hok. simpl.
    unfold SafariSettingsManager.validateSettings.
    rewrite Hmode, He, Hv, Hs, Hver, (truthy_nonempty_string ver Hne).
    unfold SafariSettingsManager.constructor, Boolean. simpl.
    repeat split; rewrite get_union_l;
      try (unfold get; by simplify_map_eq);
      try (by simplify_map_eq).
  - intros Hmode stored. subst stored.
    unfold ChromeSettingsManager.saveSettings, storage_set. rewrite Hok. simpl.
    split; [|split; [|split; [|split]]].
    5: { rewrite lookup_union_r; [done|].
         apply chrome_validateSettings_no_enabled. }
    all: unfold ChromeSettingsManager.validateSettings;
      rewrite Hmode, Hv, Hs;
      unfold ChromeSettingsManager.defaultSettings, Boolean; simpl;
      rewrite get_union_l;
      try (unfold get; by simplify_map_eq);
      try (by simplify_map_eq).
Qed.

End SettingsStore.

(** ** The enabled toggle *)

Section Toggle.
Import Relay.
Context (P : Platform) (update : N -> jsstring -> option jsstring).

Lemma toggle_dispatch :
  str_eqb (lit "TOGGLE_EXTENSION") (lit "GET_SETTINGS") = false
  /\ str_eqb (lit "TOGGLE_EXTENSION") (lit "CAPTURE_LINK") = false
  /\ str_eqb (lit "TOGGLE_EXTENSION") (lit "SETTINGS_UPDATED") = false
  /\ str_eqb (lit "TOGGLE_EXTENSION") (lit "TOGGLE_EXTENSION") = true.
Proof. vm_compute. repeat split. Qed.

(** The Safari relay sets the carried value, or flips when none is
    carried; the value is stored and returned. *)
Lemma safari_toggle (native : Outcome (option NativeResponse))
    (settings : JSObject) (st : Storage) (message : Message) (tab : option N) :
  msg_type message = lit "TOGGLE_EXTENSION" ->
  sync_set_error st = None ->
  let newState := defined_or (msg_enabled message)
                    (VBool (negb (truthy (get settings "enabled")))) in
  let h :=
    SafariBackground.handleRuntimeMessage P native update settings st message tab in
  get (new_settings h) "enabled" = newState
  /\ sync_items (new_storage h) = <["enabled" := newState]> (sync_items st)
  /\ response h = <["enabled" := newState]> ∅.
Proof.
  intros Hty Hok newState h. subst h.
  unfold SafariBackground.handleRuntimeMessage. rewrite Hty.
  destruct toggle_dispatch as (Hg & Hc & Hs & Ht). rewrite Hg, Hc, Hs, Ht.
  unfold storage_set. rewrite Hok. simpl.
  split; [apply get_insert_eq|]. split; [|done].
  by rewrite <- insert_union_l, (left_id_L ∅ (∪)).
Qed.

(** The Firefox relay flips the cached flag, whatever the message
    carries. *)
Lemma firefox_toggle (settings : JSObject) (st : Storage) (message : Message)
    (tabId : N) :
  msg_type message = lit "TOGGLE_EXTENSION" ->
  sync_set_error st = None ->
  let newState := VBool (negb (truthy (get settings "enabled"))) in
  let h := FirefoxBackground.handleRuntimeMessage P update settings st message tabId in
  get (new_settings h) "enabled" = newState
  /\ sync_items (new_storage h) = <["enabled" := newState]> (sync_items st)
  /\ response h = <["enabled" := newState]> ∅.
Proof.
  intros Hty Hok newState h. subst h.
  unfold FirefoxBackground.handleRuntimeMessage. rewrite Hty.
  destruct toggle_dispatch as (Hg & Hc & Hs & Ht). rewrite Hg, Hc, Hs, Ht.
  unfold storage_set. rewrite Hok. simpl.
  split; [apply get_insert_eq|]. split; [|done].
  by rewrite <- insert_union_l, (left_id_L ∅ (∪)).
Qed.

(** The request of the popup asks for the value [b]; when the cached flag
    of the Firefox relay already is [b], the relay stores and returns the
    opposite value. *)
Lemma firefox_toggle_request_flipped (settings : JSObject) (st : Storage)
    (b : bool) (tabId : N) :
  sync_set_error st = None ->
  get settings "enabled" = VBool b ->
  let h := FirefoxBackground.handleRuntimeMessage P update settings st
             (SafariPopup.toggleRequest b) tabId in
  response h = <["enabled" := VBool (negb b)]> ∅
  /\ sync_items (new_storage h) !! "enabled" = Some (VBool (negb b)).
Proof.
  intros Hok Hen h.
  destruct (firefox_toggle settings st (SafariPopup.toggleRequest b) tabId
              eq_refl Hok) as (_ & Hst & Hresp).
  rewrite Hen in Hst, Hresp. subst h. rewrite Hst, Hresp.
  by rewrite lookup_insert_eq.
Qed.

(** A toggle without an [enabled] field while the flag is [true] stores
    [enabled = false] in both relays; for a content script that receives
    the storage change the predicate no longer returns [true] for any
    element. *)
Lemma toggle_off_stops_capture (native : Outcome (option NativeResponse))
    (settings cs_settings : JSObject) (st : Storage) (message : Message)
    (tabId : N) (page : ContentScript.Page) (anchor : ContentScript.Anchor) :
  msg_type message = lit "TOGGLE_EXTENSION" ->
  msg_enabled message = VUndefined ->
  sync_set_error st = None ->
  get settings "enabled" = VBool true ->
  let hf := FirefoxBackground.handleRuntimeMessage P update settings st message tabId in
  let hs :=
    SafariBackground.handleRuntimeMessage P native update settings st message (Some tabId) in
  sync_items (new_storage hf) !! "enabled" = Some (VBool false)
  /\ sync_items (new_storage hs) !! "enabled" = Some (VBool false)
  /\ response hf = <["enabled" := VBool false]> ∅
  /\ response hs = <["enabled" := VBool false]> ∅
  /\ ContentScript.shouldCaptureLink P
       (ContentScript.onStorageChanged (<["enabled" := VBool false]> ∅)
          (lit "sync") cs_settings) page anchor <> Returned true.
Proof.
  intros Hty Hnone Hok Hen hf hs.
  destruct (firefox_toggle settings st message tabId Hty Hok) as (_ & Hf & Hfr).
  destruct (safari_toggle native settings st message (Some tabId) Hty Hok)
    as (_ & Hs & Hsr).
  rewrite Hnone, Hen in *. simpl in *.
  subst hf hs. rewrite Hf, Hs, Hfr, Hsr, !lookup_insert_eq.
  repeat split.
  apply shouldCaptureLink_falsy_enabled.
  replace false with (truthy (VBool false)) by done. f_equal.
  unfold ContentScript.onStorageChanged.
  replace (str_eqb (lit "sync") (lit "sync")) with true by done.
  rewrite lookup_insert_eq.
  rewrite !lookup_insert_ne by done. rewrite !lookup_empty.
  unfold strict_eq.
  destruct (get cs_settings "enabled") as [| |[|]| | |] eqn:Hcs;
    try apply get_insert_eq.
  exact Hcs.
Qed.

End Toggle.

(** ** The forwarding URI *)

Section Encodings.

#[local] Arguments Base64.b64char : simpl never.
#[local] Arguments Base64.b64index : simpl never.
#[local] Arguments N.div : simpl never.
#[local] Arguments N.modulo : simpl never.
#[local] Arguments N.mul : simpl never.
#[local] Arguments N.add : simpl never.
#[local] Arguments N.sub : simpl never.
#[local] Arguments N.ltb : simpl never.
#[local] Arguments N.leb : simpl never.
#[local] Arguments N.eqb : simpl never.

(** Linear arithmetic with division and remainder by constants. *)
Ltac divlia := zify; Z.to_euclidean_division_equations; lia.

Lemma b64_table :
  forallb (fun n => bool_decide (Base64.b64index (Base64.b64char n) = Some n)
                    && negb (Base64.b64char n =? Base64.pad))
          (N.of_nat <$> seq 0 64) = true.
Proof. vm_compute. reflexivity. Qed.

Lemma b64_table_lookup (n : N) :
  n < 64 ->
  Base64.b64index (Base64.b64char n) = Some n
  /\ (Base64.b64char n =? Base64.pad) = false.
Proof.
  intros Hn.
  pose proof (proj1 (List.forallb_forall _ _) b64_table n) as Hrow.
  cbv beta in Hrow.
  rewrite andb_true_iff, bool_decide_eq_true, negb_true_iff in Hrow.
  apply Hrow. apply list_elem_of_In, list_elem_of_fmap.
  exists (N.to_nat n). split; [by rewrite N2Nat.id|].
  apply elem_of_seq. lia.
Qed.

Lemma b64index_b64char (n : N) :
  n < 64 -> Base64.b64index (Base64.b64char n) = Some n.
Proof. intros Hn. by apply b64_table_lookup. Qed.

Lemma b64char_not_pad (n : N) :
  n < 64 -> (Base64.b64char n =? Base64.pad) = false.
Proof. intros Hn. by apply b64_table_lookup. Qed.

Lemma base64_decode_group (a b c : N) (rest : list N) :
  a < 256 -> b < 256 -> c < 256 ->
  Base64.decode (Base64.encode (a :: b :: c :: rest))
  = (fun tl => a :: b :: c :: tl) <$> Base64.decode (Base64.encode rest).
Proof.
  intros Ha Hb Hc. cbn [Base64.encode Base64.decode].
  rewrite b64char_not_pad by divlia.
  rewrite !b64index_b64char by divlia. cbn [mbind option_bind].
  destruct (Base64.decode (Base64.encode rest)) as [tl|]; [|done].
  cbn. do 2 f_equal; [divlia|]. f_equal; [divlia|]. f_equal. divlia.
Qed.

Lemma base64_decode_one (a : N) :
  a < 256 -> Base64.decode (Base64.encode [a]) = Some [a].
Proof.
  intros Ha. cbn [Base64.encode Base64.decode].
  replace (Base64.pad =? Base64.pad) with true by done.
  rewrite !b64index_b64char by divlia. cbn [mbind option_bind].
  do 2 f_equal. divlia.
Qed.

Lemma base64_decode_two (a b : N) :
  a < 256 -> b < 256 -> Base64.decode (Base64.encode [a; b]) = Some [a; b].
Proof.
  intros Ha Hb. cbn [Base64.encode Base64.decode].
  replace (Base64.pad =? Base64.pad) with true by done.
  rewrite b64char_not_pad by divlia.
  rewrite !b64index_b64char by divlia. cbn [mbind option_bind].
  do 2 f_equal; [divlia|]. f_equal. divlia.
Qed.

Lemma base64_roundtrip_bounded (n : nat) (bs : list N) :
  (length bs <= n)%nat ->
  Forall (fun b => b < 256) bs ->
  Base64.decode (Base64.encode bs) = Some bs.
Proof.
  revert bs. induction n as [|n IH]; intros bs Hlen Hbs.
  - destruct bs; [done|simpl in Hlen; lia].
  - destruct bs as [|a [|b [|c rest]]].
    + done.
    + apply base64_decode_one. by inversion Hbs.
    + inversion Hbs as [|? ? Ha Hbs']. inversion Hbs'. by apply base64_decode_two.
    + inversion Hbs as [|? ? Ha Hbs1]. inversion Hbs1 as [|? ? Hb Hbs2].
      inversion Hbs2 as [|? ? Hc Hrest]. subst.
      rewrite base64_decode_group by done.
      rewrite IH; [done| simpl in Hlen; lia | done].
Qed.

(** Decoding what was encoded gives the bytes back. *)
Lemma base64_roundtrip (bs : list N) :
  Forall (fun b => b < 256) bs ->
  Base64.decode (Base64.encode bs) = Some bs.
Proof. by apply (base64_roundtrip_bounded (length bs)). Qed.

Ltac split_ltb :=
  repeat match goal with
  | |- context [?x <? ?y] =>
      destruct (N.ltb_spec x y); try (exfalso; divlia)
  | |- context [?x <=? ?y] =>
      destruct (N.leb_spec x y); try (exfalso; divlia)
  end.

Lemma utf8_decode_scalar (c : N) (rest : list N) :
  UTF8.is_scalar c = true ->
  UTF8.decode (UTF8.encode_scalar c ++ rest) = cons c <$> UTF8.decode rest.
Proof.
  intros Hc.
  assert (c < 0x110000).
  { unfold UTF8.is_scalar in Hc.
    destruct (N.ltb_spec c 0xD800); [lia|].
    destruct (N.ltb_spec c 0x110000); [done|].
    by rewrite andb_false_r in Hc. }
  unfold UTF8.encode_scalar.
  destruct (N.ltb_spec c 0x80);
    [|destruct (N.ltb_spec c 0x800); [|destruct (N.ltb_spec c 0x10000)]];
    cbn [app UTF8.decode]; unfold UTF8.is_cont; split_ltb;
    cbn [andb]; destruct (UTF8.decode rest); cbn; try done;
    do 2 f_equal; divlia.
Qed.

(** Decoding the UTF-8 bytes of a string of scalar values gives the
    string back. *)
Lemma utf8_roundtrip (s : list N) :
  Forall (fun c => UTF8.is_scalar c = true) s ->
  UTF8.decode (UTF8.encode s) = Some s.
Proof.
  induction 1 as [|c s Hc Hs IH]; [done|].
  unfold UTF8.encode in *. rewrite bind_cons, utf8_decode_scalar by done.
  by rewrite IH.
Qed.

Lemma utf8_encode_bytes (s : list N) :
  Forall (fun c => UTF8.is_scalar c = true) s ->
  Forall (fun b => b < 256) (UTF8.encode s).
Proof.
  induction 1 as [|c s Hc Hs IH]; [by constructor|].
  unfold UTF8.encode in *. rewrite bind_cons. apply Forall_app. split; [|done].
  assert (c < 0x110000).
  { unfold UTF8.is_scalar in Hc.
    destruct (N.ltb_spec c 0xD800); [lia|].
    destruct (N.ltb_spec c 0x110000); [done|].
    by rewrite andb_false_r in Hc. }
  unfold UTF8.encode_scalar.
  destruct (N.ltb_spec c 0x80);
    [|destruct (N.ltb_spec c 0x800); [|destruct (N.ltb_spec c 0x10000)]];
    repeat constructor; divlia.
Qed.

Lemma ascii_is_scalar (s : list N) :
  Forall (fun c => c < 128) s -> Forall (fun c => UTF8.is_scalar c = true) s.
Proof.
  intros Hs. eapply Forall_impl; [exact Hs|].
  intros c Hc. simpl in Hc. unfold UTF8.is_scalar.
  destruct (N.ltb_spec c 0xD800); [done|lia].
Qed.

(** On ASCII text the UTF-8 bytes are the code units. *)
Lemma utf8_encode_ascii (s : list N) :
  Forall (fun c => c < 128) s -> UTF8.encode s = s.
Proof.
  induction 1 as [|c s Hc Hs IH]; [done|].
  unfold UTF8.encode in *. rewrite bind_cons, IH.
  unfold UTF8.encode_scalar. by destruct (N.ltb_spec c 0x80); [|lia].
Qed.

Lemma btoa_ascii (s : list N) :
  Forall (fun c => c < 128) s ->
  Base64.btoa s = Returned (Base64.encode (UTF8.encode s)).
Proof.
  intros Hs. unfold Base64.btoa. rewrite (utf8_encode_ascii s Hs).
  replace (forallb (fun c => c <? 256) s) with true; [done|].
  symmetry. induction Hs as [|c s Hc Hs IH]; [done|].
  cbn [forallb]. rewrite IH, andb_true_r. apply N.ltb_lt. lia.
Qed.

Lemma startsWith_app (p x : list N) : startsWith (p ++ x) p = true.
Proof.
  induction p as [|c p IH]; [done|].
  cbn [app startsWith]. rewrite N.eqb_refl. exact IH.
Qed.

(** The receiver recovers a string of scalar values from the URI built
    on the base64 of its UTF-8 bytes. *)
Lemma receiver_decode_encoded (url : list N) :
  Forall (fun c => UTF8.is_scalar c = true) url ->
  receiver_decode (proxly_prefix ++ Base64.encode (UTF8.encode url)) = Some url.
Proof.
  intros Hs. unfold receiver_decode.
  rewrite startsWith_app, drop_app_length.
  rewrite base64_roundtrip by (by apply utf8_encode_bytes).
  simpl. by apply utf8_roundtrip.
Qed.

End Encodings.

Lemma Forall_of_forallb {A : Type} (f : A -> bool) (l : list A) :
  forallb f l = true -> Forall (fun x => f x = true) l.
Proof.
  induction l as [|x l IH]; [by constructor|].
  cbn [forallb]. intros [Hx Hl]%andb_true_iff. constructor; [done|by apply IH].
Qed.

Lemma ascii_of_forallb (s : list N) :
  forallb (fun c => c <? 128) s = true -> Forall (fun c => c < 128) s.
Proof.
  intros Hs. eapply Forall_impl; [exact (Forall_of_forallb _ _ Hs)|].
  intros c Hc. by apply N.ltb_lt.
Qed.

(** C4. The forwarding URI is [proxly://open/] followed by the standard
    base64 of the UTF-8 bytes of the target URL, and the receiver gets
    the URL back exactly, for every URL given as a string of Unicode
    scalar values, reserved characters and non-ASCII path segments
    included.  The Safari native handler builds that URI from the URL it
    is sent.  The content script forwards the [href] of the URL it
    parsed from the link, which the URL parser serialises in ASCII, a
    non-ASCII path segment being percent-encoded there: whatever the
    click handler navigates to is built from that [href], and for an
    ASCII [href] it is that URI and decodes to the [href].  The
    forwarders of the content script and of the two relays, which encode
    with [btoa], build the same URI for every ASCII URL. *)
Theorem forwarding_uri_roundtrip (P : Platform)
    (F : SafariWebExtensionHandler.Native)
    (update : N -> jsstring -> option jsstring) :
  let uri_of (url : jsstring) : jsstring :=
    proxly_prefix ++ Base64.encode (UTF8.encode url) in
  (forall url,
     Forall (fun c => UTF8.is_scalar c = true) url ->
     receiver_decode (uri_of url) = Some url)
  /\ (forall url ty scheme,
        SafariWebExtensionHandler.URL_string F url = Some (Some scheme) ->
        scheme = lit "http" \/ scheme = lit "https" ->
        is_Some (SafariWebExtensionHandler.URL_string F (uri_of url)) ->
        fst (SafariWebExtensionHandler.handleForwardUrl F
               (SafariWebExtensionHandler.mkMessageDict ty (Some url)))
        = [OpenWorkspaceURL (uri_of url)])
  /\ (forall settings page anchor uri,
        Navigate uri
          ∈ fst (ContentScript.handleLinkClick P settings page (Some anchor)) ->
        exists u,
          URL_new P (ContentScript.ToString (ContentScript.href anchor))
                  (Some (ContentScript.baseURI page)) = Some u
          /\ ContentScript.forwardToProxlyDirect (url_href u)
             = ([Navigate uri], Returned ())
          /\ (Forall (fun c => c < 128) (url_href u) ->
              uri = uri_of (url_href u)
              /\ receiver_decode uri = Some (url_href u)))
  /\ (forall url,
        Forall (fun c => c < 128) url ->
        ContentScript.forwardToProxlyDirect url
        = ([Navigate (uri_of url)], Returned ())
        /\ (forall tabId,
              fst (FirefoxBackground.forwardToProxly update url tabId)
              = [TabsUpdate tabId (uri_of url)])
        /\ (forall native tab t u,
              TabsUpdate t u
                ∈ fst (SafariBackground.forwardToProxly native update url tab) ->
              u = uri_of url)).
Proof.
  intros uri_of. split; [intros url Hs; by apply receiver_decode_encoded|].
  split; [|split].
  - intros url ty scheme Hurl Hscheme [u Hu].
    unfold SafariWebExtensionHandler.handleForwardUrl.
    cbn [SafariWebExtensionHandler.dict_url]. rewrite Hurl.
    replace (str_eqb scheme (lit "http") || str_eqb scheme (lit "https"))
      with true by (by destruct Hscheme as [-> | ->]).
    fold (uri_of url). rewrite Hu.
    by destruct (SafariWebExtensionHandler.workspace_open F (uri_of url)).
  - intros settings page anchor uri Hin.
    apply handleLinkClick_navigate in Hin as (_ & u & enc & Hu & _ & Hb & ->).
    exists u. split; [exact Hu|]. split.
    + unfold ContentScript.forwardToProxlyDirect. by rewrite Hb.
    + intros Hascii. rewrite (btoa_ascii _ Hascii) in Hb. injection Hb as <-.
      split; [done|]. by apply receiver_decode_encoded, ascii_is_scalar.
  - intros url Hascii. split; [|split].
    + unfold ContentScript.forwardToProxlyDirect. by rewrite (btoa_ascii url Hascii).
    + intros tabId. unfold FirefoxBackground.forwardToProxly.
      rewrite (btoa_ascii url Hascii). by destruct (update tabId _).
    + intros native tab t u. unfold SafariBackground.forwardToProxly.
      rewrite (btoa_ascii url Hascii). fold (uri_of url).
      assert (Hfailed : forall error,
        TabsUpdate t u
          ∈ fst (match tab with
                 | Some tabId =>
                     if negb (tabId =? 0)
                     then
                       match update tabId (uri_of url) with
                       | None =>
                           ([SendNativeMessage url; TabsUpdate tabId (uri_of url)],
                            Returned ())
                       | Some _ =>
                           ([SendNativeMessage url; TabsUpdate tabId (uri_of url)],
                            Thrown error)
                       end
                     else ([SendNativeMessage url], Thrown error)
                 | None => ([SendNativeMessage url], Thrown error)
                 end : Eff unit) ->
        u = uri_of url).
      { intros error. destruct tab as [tabId|].
        - destruct (negb (tabId =? 0)); [destruct (update tabId _)|];
            cbn [fst]; rewrite ?elem_of_cons, elem_of_nil; intros H;
            repeat (destruct H as [H|H]); try discriminate H; try done;
            by injection H as -> ->.
        - cbn [fst]. rewrite ?elem_of_cons, elem_of_nil. intros H.
          repeat (destruct H as [H|H]); try discriminate H; done. }
      destruct native as [[r|]|e].
      * destruct (Relay.nr_success r); [|apply Hfailed].
        cbn [fst]. rewrite ?elem_of_cons, elem_of_nil. intros H.
        repeat (destruct H as [H|H]); try discriminate H; done.
      * apply Hfailed.
      * apply Hfailed.
Qed.
(** * Concrete runs *)

Section Runs.
Import ContentScript Relay Demo.

(** A click on an SVG link to [https://other.example/x] while the
    extension is disabled: the predicate throws, where it returns
    [false] for the HTML link. *)
Lemma shouldCaptureLink_disabled_witness :
  shouldCaptureLink platform (settings false "all")
    (page "https://site.test/") (link "https://other.example/x") = Returned false
  /\ shouldCaptureLink platform (settings false "all")
       (page "https://site.test/") (svg_link "https://other.example/x")
     = Thrown TypeError
  /\ handleLinkClick platform (settings false "all")
       (page "https://site.test/") (Some (svg_link "https://other.example/x"))
     = ([], Thrown TypeError).
Proof.
  destruct (shouldCaptureLink_disabled platform (settings false "all")
              (page "https://site.test/") (link "https://other.example/x"))
    as (Hhtml & _); [vm_compute; reflexivity|].
  destruct (shouldCaptureLink_disabled platform (settings false "all")
              (page "https://site.test/") (svg_link "https://other.example/x"))
    as (_ & _ & Hsvg & _); [vm_compute; reflexivity|].
  split; [by apply (Hhtml (lit "https://other.example/x"))|].
  apply (Hsvg (lit "[object SVGAnimatedString]")); vm_compute; reflexivity.
Defined.

(** The cross-origin link in ['all'] mode: the HTML link is captured, for
    the SVG link the predicate throws. *)
Lemma shouldCaptureLink_all_mode_cross_origin_witness :
  (shouldCaptureLink platform (settings true "all")
     (page "https://site.test/") (link "https://other.example/x") = Returned true
   <-> lit "https://other.example" ≠ lit "https://site.test")
  /\ shouldCaptureLink platform (settings true "all")
       (page "https://site.test/") (svg_link "https://other.example/x")
     = Thrown TypeError
  /\ handleLinkClick platform (settings true "all")
       (page "https://site.test/") (Some (svg_link "https://other.example/x"))
     = ([], Thrown TypeError).
Proof.
  destruct (shouldCaptureLink_all_mode_cross_origin platform (settings true "all")
              (page "https://site.test/") (link "https://other.example/x"))
    as (Hhtml & _); try (vm_compute; reflexivity).
  destruct (shouldCaptureLink_all_mode_cross_origin platform (settings true "all")
              (page "https://site.test/") (svg_link "https://other.example/x"))
    as (_ & Hsvg); try (vm_compute; reflexivity).
  split; [|apply (Hsvg (lit "[object SVGAnimatedString]")); reflexivity].
  apply (Hhtml (lit "https://other.example/x")
           (mkURL (lit "https:") (lit "https://other.example")
                  (lit "https://other.example/x"))
           (mkURL (lit "https:") (lit "https://site.test")
                  (lit "https://site.test/")));
    try (vm_compute; reflexivity).
  right. vm_compute. reflexivity.
Defined.

(** The cross-origin link in ['context'] mode: the click on the HTML link
    is left alone, for the SVG link the predicate throws, and the menu
    entry forwards the link. *)
Lemma context_mode_click_and_menu_witness :
  shouldCaptureLink platform (settings true "context")
    (page "https://site.test/") (link "https://other.example/x") = Returned false
  /\ shouldCaptureLink platform (settings true "context")
       (page "https://site.test/") (svg_link "https://other.example/x")
     = Thrown TypeError
  /\ FirefoxBackground.handleContextMenuClick platform update
       (settings true "context")
       (mkMenuInfo menuItemId (Some (lit "https://other.example/x"))) 7
     = [TabsUpdate 7 (lit "proxly://open/aHR0cHM6Ly9vdGhlci5leGFtcGxlL3g=")].
Proof.
  destruct (context_mode_click_and_menu platform update (settings true "context")
              (page "https://site.test/") (link "https://other.example/x")
              (mkMenuInfo menuItemId (Some (lit "https://other.example/x"))) 7
              (lit "https://other.example/x"))
    as (Hclick & _ & _ & _ & _ & Hmenu); try (vm_compute; reflexivity).
  { discriminate. }
  destruct (context_mode_click_and_menu platform update (settings true "context")
              (page "https://site.test/") (svg_link "https://other.example/x")
              (mkMenuInfo menuItemId (Some (lit "https://other.example/x"))) 7
              (lit "https://other.example/x"))
    as (_ & Hsvg & _); try (vm_compute; reflexivity).
  { discriminate. }
  split; [by apply (Hclick (lit "https://other.example/x"))|].
  split; [apply (Hsvg (lit "[object SVGAnimatedString]")); vm_compute; reflexivity|].
  apply (Hmenu (lit "aHR0cHM6Ly9vdGhlci5leGFtcGxlL3g=")); vm_compute; reflexivity.
Defined.

(** A captured click in a document without a body: with the visual
    feedback on nothing is forwarded, with it off the link is. *)
Lemma shouldCaptureLink_ignores_feedback_settings_witness :
  let quiet : JSObject :=
    <["soundFeedback" := VBool true]>
      (<["visualFeedback" := VBool false]> (settings true "all")) in
  let doc := bare_page "https://site.test/" in
  let a := link "https://other.example/x" in
  shouldCaptureLink platform (settings true "all") doc a
  = shouldCaptureLink platform quiet doc a
  /\ (forall uri,
        Navigate uri ∉ fst (handleLinkClick platform (settings true "all") doc (Some a)))
  /\ Navigate (lit "proxly://open/aHR0cHM6Ly9vdGhlci5leGFtcGxlL3g=")
       ∈ fst (handleLinkClick platform quiet doc (Some a)).
Proof.
  intros quiet doc a.
  destruct (shouldCaptureLink_ignores_feedback_settings platform
              (settings true "all") quiet doc a)
    as (Hsame & _ & Hdiverge).
  { intros k Hv Hs. subst quiet. by rewrite !lookup_insert_ne. }
  destruct Hdiverge as [Hnone Hnav];
    [vm_compute; reflexivity|vm_compute; reflexivity|by left|].
  split; [exact Hsame|]. split; [exact Hnone|].
  apply (Hnav (mkURL (lit "https:") (lit "https://other.example")
                     (lit "https://other.example/x")));
    vm_compute; reflexivity.
Defined.

(** The two runs of that click. *)
Example click_without_body :
  let quiet : JSObject :=
    <["soundFeedback" := VBool true]>
      (<["visualFeedback" := VBool false]> (settings true "all")) in
  handleLinkClick platform (settings true "all") (bare_page "https://site.test/")
    (Some (link "https://other.example/x"))
  = ([PreventDefault; StopPropagation;
      Announce (lit "accessibilityLinkCapture");
      Announce (lit "errorProxlyNotRunning")], Returned ())
  /\ handleLinkClick platform quiet (bare_page "https://site.test/")
       (Some (link "https://other.example/x"))
     = ([PreventDefault; StopPropagation;
         Announce (lit "accessibilityLinkCapture"); PlayCaptureFeedback;
         Navigate (lit "proxly://open/aHR0cHM6Ly9vdGhlci5leGFtcGxlL3g=")],
        Returned ()).
Proof. vm_compute. split; reflexivity. Qed.

(** The first level beyond the limit: with five [span] elements between
    the click and the link the anchor is on level 5, and is not found. *)
Lemma findLinkElement_level_five_not_found :
  let d := chain ["SPAN"; "SPAN"; "SPAN"; "SPAN"; "SPAN"; "A"; "BODY"; "HTML"] in
  ancestor d 0 5 = Some 5
  /\ isAnchorTag platform d 5 = true
  /\ parentNode d 5 = Some 6
  /\ forallb (fun n => negb (isAnchorTag platform d n)) [0; 1; 2; 3; 4] = true
  /\ findLinkElement platform d 0 = None.
Proof. vm_compute. repeat split. Qed.

(** Even when the parent links form a cycle the walk stops after reading
    five tags. *)
Example findLinkElement_on_cycle :
  let d := mkDOM (fun n => Some n) (fun _ => Some (lit "SPAN")) in
  findLinkElement_loop platform d 100 (Some 0) 0 [] = Some (None, [0; 0; 0; 0; 0])
  /\ findLinkElement platform d 0 = None.
Proof. vm_compute. repeat split. Qed.


(** The Chrome settings manager on an empty store. *)
Lemma chrome_loadSettings_not_documented_default :
  ChromeSettingsManager.loadSettings (store ∅) ≠ defaultRecord
  /\ get (ChromeSettingsManager.loadSettings (store ∅)) "linkMode" = VStr (lit "alt")
  /\ get (ChromeSettingsManager.loadSettings (store ∅)) "enabled" = VUndefined.
Proof.
  split; [|vm_compute; repeat split].
  intros Heq. apply (f_equal (fun o => get o "enabled")) in Heq.
  vm_compute in Heq. discriminate Heq.
Qed.

Lemma loadSettings_empty_store_witness :
  snd (Relay.loadSettings initialSettings (store ∅)) = defaultRecord
  /\ ChromeSettingsManager.loadSettings (store ∅)
     = ChromeSettingsManager.defaultSettings.
Proof.
  destruct (loadSettings_empty_store (store ∅) initialSettings (Returned None))
    as (Hrelay & _ & _ & _ & Hchrome & _).
  - by left.
  - intros r Hr. discriminate Hr.
  - by split.
Defined.

(** The Chrome settings manager saving a record with an unknown mode. *)
Lemma chrome_saveSettings_drops_enabled_and_version :
  let input : JSObject :=
    <["linkMode" := VStr (lit "bogus")]>
    (<["enabled" := VBool false]>
    (<["visualFeedback" := VBool false]>
    (<["soundFeedback" := VBool true]>
    (<["version" := VStr (lit "2.0.0")]> ∅)))) in
  let stored := sync_items (ChromeSettingsManager.saveSettings input (store ∅)).1.1 in
  get input "enabled" = VBool false
  /\ get input "version" = VStr (lit "2.0.0")
  /\ get stored "linkMode" = VStr (lit "alt")
  /\ get stored "enabled" = VUndefined
  /\ get stored "version" = VStr (lit "1.0.0").
Proof. vm_compute. repeat split. Qed.

Lemma saveSettings_unrecognized_linkMode_witness :
  let input : JSObject :=
    <["linkMode" := VStr (lit "bogus")]>
    (<["enabled" := VBool false]>
    (<["visualFeedback" := VBool false]>
    (<["soundFeedback" := VBool true]>
    (<["version" := VStr (lit "2.0.0")]> ∅)))) in
  let stored :=
    sync_items (SafariSettingsManager.saveSettings
                  SafariSettingsManager.constructor input (store ∅)).1.1 in
  get stored "linkMode" = VStr (lit "all")
  /\ get stored "enabled" = VBool false
  /\ get stored "visualFeedback" = VBool false
  /\ get stored "soundFeedback" = VBool true
  /\ get stored "version" = VStr (lit "2.0.0").
Proof.
  intros input.
  destruct (saveSettings_unrecognized_linkMode input (store ∅) false false true
              (lit "2.0.0")) as [Hsafari _]; try (vm_compute; reflexivity).
  { discriminate. }
  apply Hsafari. vm_compute. reflexivity.
Defined.

(** C7.  The Firefox relay receiving [TOGGLE_EXTENSION] with
    [enabled: true] while the flag is already [true]: the flag is flipped to [false],
    stored and returned; the Safari relay keeps [true]. *)
Theorem firefox_toggle_ignores_carried_value :
  let message := SafariPopup.toggleRequest true in
  let hf := FirefoxBackground.handleRuntimeMessage platform update
              (settings true "all") (store (settings true "all")) message 1 in
  let hs := SafariBackground.handleRuntimeMessage platform (Returned None) update
              (settings true "all") (store (settings true "all")) message (Some 1) in
  get (new_settings hf) "enabled" = VBool false
  /\ get (sync_items (new_storage hf)) "enabled" = VBool false
  /\ get (response hf) "enabled" = VBool false
  /\ get (new_settings hs) "enabled" = VBool true
  /\ get (sync_items (new_storage hs)) "enabled" = VBool true
  /\ get (response hs) "enabled" = VBool true.
Proof. vm_compute. repeat split. Qed.

(** The forwarder of the content script on strings that are not ASCII,
    which the click handler never passes, since it forwards the [href]
    of a parsed URL: [btoa] on a code unit outside Latin-1 throws, and on
    a Latin-1 letter it encodes one byte where UTF-8 has two. *)
Example forwardToProxlyDirect_not_ascii :
  let url := lit "https://example.com/" ++ [0x65E5; 0x672C] in
  let url' := lit "https://example.com/caf" ++ [0xE9] in
  forallb UTF8.is_scalar url = true
  /\ forwardToProxlyDirect url = ([], Thrown (lit "InvalidCharacterError"))
  /\ forallb UTF8.is_scalar url' = true
  /\ forwardToProxlyDirect url'
     = ([Navigate (lit "proxly://open/aHR0cHM6Ly9leGFtcGxlLmNvbS9jYWbp")], Returned ())
  /\ Base64.encode (UTF8.encode url') = lit "aHR0cHM6Ly9leGFtcGxlLmNvbS9jYWbDqQ=="
  /\ receiver_decode (lit "proxly://open/aHR0cHM6Ly9leGFtcGxlLmNvbS9jYWbp") = None.
Proof. vm_compute. repeat split. Qed.

(** A URL with reserved characters and a percent-encoded path segment,
    and a URL with a path segment that is not ASCII, which only the
    native handler is sent as it is. *)
Lemma forwarding_uri_roundtrip_witness :
  let url := lit "https://other.example/%E6%97%A5?a=1&b=%20" in
  let uri := proxly_prefix ++ Base64.encode (UTF8.encode url) in
  let url' := lit "https://other.example/" ++ [0x65E5; 0x672C] in
  let uri' := proxly_prefix ++ Base64.encode (UTF8.encode url') in
  receiver_decode uri = Some url
  /\ fst (SafariWebExtensionHandler.handleForwardUrl native
            (SafariWebExtensionHandler.mkMessageDict
               (Some (lit "FORWARD_URL")) (Some url)))
     = [OpenWorkspaceURL uri]
  /\ forwardToProxlyDirect url = ([Navigate uri], Returned ())
  /\ receiver_decode uri' = Some url'
  /\ fst (SafariWebExtensionHandler.handleForwardUrl native
            (SafariWebExtensionHandler.mkMessageDict
               (Some (lit "FORWARD_URL")) (Some url')))
     = [OpenWorkspaceURL uri'].
Proof.
  intros url uri url' uri'.
  destruct (forwarding_uri_roundtrip platform native update)
    as (Hrt & Hswift & _ & Hjs).
  split; [apply Hrt, Forall_of_forallb; vm_compute; reflexivity|].
  split; [|split; [|split]].
  - apply (Hswift url _ (lit "https")).
    + vm_compute. reflexivity.
    + by right.
    + eexists. vm_compute. reflexivity.
  - apply (Hjs url). apply ascii_of_forallb. vm_compute. reflexivity.
  - apply Hrt, Forall_of_forallb. vm_compute. reflexivity.
  - apply (Hswift url' _ (lit "https")).
    + vm_compute. reflexivity.
    + by right.
    + eexists. vm_compute. reflexivity.
Defined.

(** The encoders on the test vectors of RFC 4648 and on one, two, three
    and four byte UTF-8 sequences. *)
Example base64_rfc4648_vectors :
  Base64.encode (lit "") = lit ""
  /\ Base64.encode (lit "f") = lit "Zg=="
  /\ Base64.encode (lit "fo") = lit "Zm8="
  /\ Base64.encode (lit "foo") = lit "Zm9v"
  /\ Base64.encode (lit "foob") = lit "Zm9vYg=="
  /\ Base64.encode (lit "fooba") = lit "Zm9vYmE="
  /\ Base64.encode (lit "foobar") = lit "Zm9vYmFy".
Proof. vm_compute. repeat split. Qed.

Example utf8_vectors :
  UTF8.encode [0x41] = [0x41]
  /\ UTF8.encode [0xE9] = [0xC3; 0xA9]
  /\ UTF8.encode [0x65E5] = [0xE6; 0x97; 0xA5]
  /\ UTF8.encode [0x1F600] = [0xF0; 0x9F; 0x98; 0x80].
Proof. vm_compute. repeat split. Qed.

(** The scenario of the specification: a click on a link to
    [https://other.example/x] on the page [https://site.test/] with
    [{enabled: true, linkMode: 'all'}] is captured and the tab is sent to
    [proxly://open/] followed by the base64 of the link. *)
Example scenario_cross_origin_click :
  handleLinkClick platform (settings true "all") (page "https://site.test/")
    (Some (link "https://other.example/x"))
  = ([PreventDefault; StopPropagation;
      Announce (lit "accessibilityLinkCapture"); ShowVisualFeedback;
      Navigate (lit "proxly://open/aHR0cHM6Ly9vdGhlci5leGFtcGxlL3g=")],
     Returned ()).
Proof. vm_compute. reflexivity. Qed.

(** The same click on a link of the page's own origin is left alone. *)
Example scenario_same_origin_click :
  handleLinkClick platform (settings true "all") (page "https://site.test/")
    (Some (link "https://site.test/about")) = ([], Returned ()).
Proof. vm_compute. reflexivity. Qed.

End Runs.

(** * Further properties of the code *)

(** ** Retrying a message *)

Section RetryProperties.
Import Messaging.
Context {R : Type}.
Context (sendMessage : nat -> Outcome R).
Context (is_transient : jsstring -> bool).

Lemma retry_loop_spec (remaining i calls : nat) (r : Outcome R) :
  retry_loop sendMessage is_transient remaining i = (r, calls) ->
  (i <= calls <= i + remaining)%nat
  /\ (forall j, (i <= j)%nat -> (S j < calls)%nat ->
        exists e, sendMessage j = Thrown e /\ is_transient e = true)
  /\ match r with
     | Returned x => (i < calls)%nat /\ sendMessage (pred calls) = Returned x
     | Thrown e =>
         (calls = (i + remaining)%nat
          /\ e = lit "All message attempts failed"
          /\ forall j, (i <= j < calls)%nat ->
               exists e', sendMessage j = Thrown e' /\ is_transient e' = true)
         \/ ((i < calls)%nat
             /\ sendMessage (pred calls) = Thrown e
             /\ is_transient e = false)
     end.
Proof.
  revert i. induction remaining as [|n IH]; intros i Hrun; simpl in Hrun.
  - injection Hrun as <- <-. split; [lia|]. split; [intros; lia|].
    left. split; [lia|]. split; [done|]. intros; lia.
  - destruct (sendMessage i) as [x|e] eqn:Hi.
    + injection Hrun as <- <-. split; [lia|]. split; [intros; lia|].
      simpl. split; [lia|done].
    + destruct (is_transient e) eqn:He.
      * apply IH in Hrun as (Hb & Hbefore & Hres).
        split; [lia|]. split.
        { intros j Hj Hlt. destruct (decide (j = i)) as [-> | Hne]; [by eexists|].
          apply Hbefore; lia. }
        destruct r as [x|e'].
        { destruct Hres as [Hlt Hlast]. split; [lia|done]. }
        destruct Hres as [(Hc & Hmsg & Hall)|(Hlt & Hlast & Hnt)].
        -- left. split; [lia|]. split; [done|].
           intros j Hj. destruct (decide (j = i)) as [-> | Hne]; [by eexists|].
           apply Hall; lia.
        -- right. split; [lia|done].
      * injection Hrun as <- <-. split; [lia|]. split; [intros; lia|].
        right. simpl. split; [lia|done].
Qed.

End RetryProperties.

(** X1. [sendMessageWithRetry] calls [sendMessage] at most [maxRetries]
    times, in both content scripts.  Every call but the last one failed
    with an error the script treats as transient.  The result is the
    response of the last call, or its error when that error is not
    transient, or [All message attempts failed], and this only when
    [maxRetries] calls were made and every one of them, the last one
    included, failed transiently; when the Safari runtime is gone no
    call is made. *)
Theorem sendMessageWithRetry_bounded {R : Type} (sendMessage : nat -> Outcome R)
    (maxRetries : nat) (alive : bool) :
  (let '(r, calls) := Messaging.sendMessageWithRetry sendMessage maxRetries in
   (calls <= maxRetries)%nat
   /\ (forall j, (S j < calls)%nat ->
         exists e, sendMessage j = Thrown e /\ Messaging.transient e = true)
   /\ match r with
      | Returned x => (0 < calls)%nat /\ sendMessage (pred calls) = Returned x
      | Thrown e =>
          (calls = maxRetries /\ e = lit "All message attempts failed"
           /\ forall j, (j < calls)%nat ->
                 exists e', sendMessage j = Thrown e'
                            /\ Messaging.transient e' = true)
          \/ ((0 < calls)%nat /\ sendMessage (pred calls) = Thrown e
              /\ Messaging.transient e = false)
      end)
  /\ (let '(r, calls) :=
        Messaging.sendMessageWithRetry_safari alive sendMessage maxRetries in
      (calls <= maxRetries)%nat
      /\ (alive = false ->
          calls = O /\ r = Thrown (lit "Extension context invalidated"))
      /\ (forall j, (S j < calls)%nat ->
            exists e, sendMessage j = Thrown e
                      /\ Messaging.transient_safari e = true)
      /\ (alive = true ->
          match r with
          | Returned x => (0 < calls)%nat /\ sendMessage (pred calls) = Returned x
          | Thrown e =>
              (calls = maxRetries /\ e = lit "All message attempts failed"
               /\ forall j, (j < calls)%nat ->
                     exists e', sendMessage j = Thrown e'
                                /\ Messaging.transient_safari e' = true)
              \/ ((0 < calls)%nat /\ sendMessage (pred calls) = Thrown e
                  /\ Messaging.transient_safari e = false)
          end)).
Proof.
  split.
  - unfold Messaging.sendMessageWithRetry.
    destruct (Messaging.retry_loop sendMessage Messaging.transient maxRetries 0)
      as [r calls] eqn:Hrun.
    apply retry_loop_spec in Hrun as (Hb & Hbefore & Hres).
    split; [lia|]. split; [intros j Hj; apply Hbefore; lia|].
    destruct r as [x|e]; [done|].
    destruct Hres as [(Hc & Hmsg & Hall)|Hlast]; [left|right; done].
    split; [done|]. split; [done|]. intros j Hj. apply Hall. lia.
  - unfold Messaging.sendMessageWithRetry_safari. destruct alive.
    + destruct (Messaging.retry_loop sendMessage Messaging.transient_safari
                  maxRetries 0) as [r calls] eqn:Hrun.
      apply retry_loop_spec in Hrun as (Hb & Hbefore & Hres).
      split; [lia|]. split; [done|].
      split; [intros j Hj; apply Hbefore; lia|]. intros _.
      destruct r as [x|e]; [done|].
      destruct Hres as [(Hc & Hmsg & Hall)|Hlast]; [left|right; done].
      split; [done|]. split; [done|]. intros j Hj. apply Hall. lia.
    + split; [lia|]. split; [done|]. split; [intros; lia|done].
Qed.

(** ** The content script's settings *)

Section ContentSettings.
Import ContentScript.

Lemma strict_eq_true (a b : JSVal) : strict_eq a b = true -> a = b.
Proof.
  destruct a, b; simpl; try done; by intros ?%bool_decide_eq_true.
Qed.

Lemma storage_update_same (changes s : JSObject) (k : string) (v : JSVal) :
  changes !! k = Some v ->
  get (match changes !! k with
       | Some newValue =>
           if negb (strict_eq newValue (get s k)) then <[k := newValue]> s else s
       | None => s
       end) k = v.
Proof.
  intros ->. destruct (strict_eq v (get s k)) eqn:Heq; simpl.
  - symmetry. by apply strict_eq_true.
  - apply get_insert_eq.
Qed.

Lemma storage_update_other (changes s : JSObject) (k k' : string) :
  k ≠ k' ->
  (match changes !! k with
   | Some newValue =>
       if negb (strict_eq newValue (get s k)) then <[k := newValue]> s else s
   | None => s
   end) !! k' = s !! k'.
Proof.
  intros Hne. destruct (changes !! k) as [v|]; [|done].
  destruct (negb _); [|done]. by rewrite lookup_insert_ne.
Qed.

Lemma storage_update_other_get (changes s : JSObject) (k k' : string) :
  k ≠ k' ->
  get (match changes !! k with
       | Some newValue =>
           if negb (strict_eq newValue (get s k)) then <[k := newValue]> s else s
       | None => s
       end) k' = get s k'.
Proof. intros Hne. apply get_agree. by apply storage_update_other. Qed.

Lemma storage_update_absent (changes s : JSObject) (k : string) :
  changes !! k = None ->
  (match changes !! k with
   | Some newValue =>
       if negb (strict_eq newValue (get s k)) then <[k := newValue]> s else s
   | None => s
   end) = s.
Proof. by intros ->. Qed.

Lemma storage_update_unchanged (changes s : JSObject) (k k' : string) :
  changes !! k' = None ->
  (match changes !! k with
   | Some newValue =>
       if negb (strict_eq newValue (get s k)) then <[k := newValue]> s else s
   | None => s
   end) !! k' = s !! k'.
Proof.
  intros Hnone. destruct (decide (k = k')) as [-> | Hne].
  - by rewrite storage_update_absent.
  - by apply storage_update_other.
Qed.

(** X2. The storage listener of the content script: for a change in the
    [sync] area, each of [enabled], [linkMode], [visualFeedback] and
    [soundFeedback] that changed holds its new value afterwards, and
    every other property of the settings is left as it was; a change in
    another area changes nothing. *)
Theorem onStorageChanged_converges (changes settings : JSObject)
    (namespace : jsstring) :
  let tracked : list string :=
    ["enabled"; "linkMode"; "visualFeedback"; "soundFeedback"] in
  let settings' := onStorageChanged changes namespace settings in
  (namespace ≠ lit "sync" -> settings' = settings)
  /\ (namespace = lit "sync" ->
      (forall k v, k ∈ tracked -> changes !! k = Some v -> get settings' k = v)
      /\ (forall k, k ∉ tracked \/ changes !! k = None ->
                    settings' !! k = settings !! k)).
Proof.
  intros tracked settings'. subst settings'. unfold onStorageChanged, str_eqb.
  cbv zeta beta. split.
  - intros Hns. by rewrite bool_decide_eq_false_2.
  - intros ->. rewrite bool_decide_eq_true_2 by done.
    split.
    + intros k v Hk Hv. subst tracked.
      repeat (apply elem_of_cons in Hk as [-> | Hk]);
        [| | | |by apply elem_of_nil in Hk].
      * rewrite !storage_update_other_get by done.
        by apply storage_update_same.
      * rewrite !storage_update_other_get by done.
        by apply storage_update_same.
      * rewrite !storage_update_other_get by done.
        by apply storage_update_same.
      * by apply storage_update_same.
    + intros k [Hk|Hk].
      * assert (k ≠ "enabled" /\ k ≠ "linkMode" /\ k ≠ "visualFeedback"
                /\ k ≠ "soundFeedback") as (? & ? & ? & ?).
        { subst tracked. repeat split; intros ->; apply Hk; set_solver. }
        by rewrite !storage_update_other.
      * by rewrite !storage_update_unchanged.
Qed.

(** X3. When the storage can be read and the relay answers
    [GET_SETTINGS] without an error, the content script ends up with the
    relay's [enabled] and [linkMode], whatever the storage held; when
    the relay does not answer it keeps exactly its four fields, with
    [enabled] and [visualFeedback] defined and [linkMode] not empty. *)
Theorem content_loadSettings_follows_relay (st : Storage) (r : JSObject) :
  sync_get_error st = None ->
  (truthy (get r "error") = false ->
   get (loadSettings st (Returned (Some r))) "enabled" = get r "enabled"
   /\ get (loadSettings st (Returned (Some r))) "linkMode" = get r "linkMode")
  /\ (forall response,
        response = Returned None \/ (exists e, response = Thrown e) ->
        dom (loadSettings st response)
        = ({["linkMode"; "enabled"; "visualFeedback"; "soundFeedback"]} : gset string)
        /\ get (loadSettings st response) "enabled" ≠ VUndefined
        /\ get (loadSettings st response) "visualFeedback" ≠ VUndefined
        /\ truthy (get (loadSettings st response) "linkMode") = true).
Proof.
  intros Hok. unfold loadSettings, storage_get. rewrite Hok. split.
  - intros Herr. rewrite Herr. cbn [negb].
    match goal with
    | |- context [if ?c then r else ?s] =>
        destruct c eqn:Hdiff; [done|]
    end.
    apply orb_false_iff in Hdiff as [H1 H2].
    apply negb_false_iff, strict_eq_true in H1.
    apply negb_false_iff, strict_eq_true in H2.
    by rewrite <- H1, <- H2.
  - intros response Hresp.
    assert (Hsame : forall s : JSObject,
              match response with
              | Returned (Some r0) =>
                  if negb (truthy (get r0 "error")) then
                    if negb (strict_eq (get r0 "enabled") (get s "enabled"))
                       || negb (strict_eq (get r0 "linkMode") (get s "linkMode"))
                    then r0 else s
                  else s
              | _ => s
              end = s).
    { intros s. by destruct Hresp as [->|[e ->]]. }
    rewrite Hsame. split; [|split; [|split]].
    + rewrite !dom_insert_L, dom_empty_L.
      apply set_eq; intros k; rewrite !elem_of_union, !elem_of_singleton,
        elem_of_empty; tauto.
    + rewrite get_insert_ne, get_insert_eq by done.
      by destruct (get (sync_items st) "enabled").
    + rewrite !get_insert_ne, get_insert_eq by done.
      by destruct (get (sync_items st) "visualFeedback").
    + rewrite get_insert_eq. unfold or_else.
      by destruct (truthy (get (sync_items st) "linkMode")) eqn:Ht.
Qed.

End ContentSettings.

(** ** Handling a click *)

Section ClickHandling.
Import ContentScript.
Context (P : Platform).

(** Taking a list of actions apart at a navigation. *)
Ltac split_at_navigation :=
  repeat match goal with
         | H : [] = ?pre ++ Navigate _ :: _ |- _ => destruct pre; discriminate H
         | H : _ :: _ = ?pre ++ Navigate _ :: _ |- _ =>
             destruct pre as [|? pre]; cbn [app] in H; simplify_eq
         end.

(** [captureLink] navigates at most once, and does nothing else than
    announce and show feedback. *)
Lemma captureLink_order (s : JSObject) (page : Page) (url : jsstring)
    (pre post : list Effect) (uri : jsstring) :
  fst (captureLink s page url) = pre ++ Navigate uri :: post ->
  Forall (fun e => (exists k, e = Announce k) \/ is_feedback e = true) (pre ++ post).
Proof.
  unfold captureLink. rewrite showCaptureFeedback_cases, showError_cases.
  unfold forwardToProxlyDirect, emit, throw.
  destruct (truthy (get s "visualFeedback")), (truthy (get s "soundFeedback")),
    (document_body page), (document_head page), (capture_styles page),
    (Base64.btoa url) as [enc|e];
    cbn [andb orb negb bind try_catch fst snd app];
    intros H; split_at_navigation;
    cbn [app]; repeat (apply Forall_cons; split; [by eauto|]); apply Forall_nil_2.
Qed.

(** X4. The content script stops the page's own navigation only for a
    link that the predicate captures, that resolves, and whose resolved
    URL passes the http/https check.  Whenever it navigates, the calls
    of [preventDefault] and [stopPropagation] are the first two actions
    and come before it, it navigates once, and the target is a
    [proxly://open/] URI.  For a click that is not captured it does
    nothing at all. *)
Theorem handleLinkClick_blocks_only_captured (settings : JSObject)
    (page : Page) (found : option Anchor) :
  let eff := fst (handleLinkClick P settings page found) in
  (PreventDefault ∈ eff ->
   exists anchor u rest,
     found = Some anchor
     /\ shouldCaptureLink P settings page anchor = Returned true
     /\ URL_new P (ToString (href anchor)) (Some (baseURI page)) = Some u
     /\ isValidUrl P (url_href u) = true
     /\ eff = PreventDefault :: StopPropagation :: rest)
  /\ (forall pre uri post,
        eff = pre ++ Navigate uri :: post ->
        exists pre' encodedUrl,
          pre = PreventDefault :: StopPropagation :: pre'
          /\ uri = proxly_prefix ++ encodedUrl
          /\ forall uri', Navigate uri' ∉ pre' ++ post)
  /\ ((forall anchor, found = Some anchor ->
         shouldCaptureLink P settings page anchor <> Returned true) ->
      eff = []).
Proof.
  intros eff. subst eff.
  destruct found as [anchor|].
  2: { cbn [handleLinkClick pure fst]. split; [intros H; by apply elem_of_nil in H|].
       split; [|done]. intros pre uri post H. by destruct pre. }
  destruct (shouldCaptureLink P settings page anchor) as [[|]|e] eqn:Hsc.
  2,3: rewrite handleLinkClick_not_captured by (by rewrite Hsc); cbn [fst];
       (split; [intros H; by apply elem_of_nil in H|]);
       (split; [|done]); intros pre uri post H; by destruct pre.
  rewrite handleLinkClick_captured by done.
  destruct (URL_new P (ToString (href anchor)) (Some (baseURI page)))
    as [u|] eqn:Hu.
  2: { rewrite showError_cases.
       split; [|split].
       - destruct (truthy (get settings "visualFeedback")), (document_body page);
           cbn [andb negb fst app]; rewrite ?elem_of_cons, elem_of_nil; intros H;
           repeat (destruct H as [H|H]); try discriminate H; done.
       - intros pre uri post.
         destruct (truthy (get settings "visualFeedback")), (document_body page);
           cbn [andb negb fst app]; intros H; split_at_navigation.
       - intros Hno. by destruct (Hno anchor eq_refl). }
  destruct (ContentScript.isValidUrl P (url_href u)) eqn:Hv; cbn [fst].
  2: { split; [intros H; by apply elem_of_nil in H|].
       split; [|done]. intros pre uri post H. by destruct pre. }
  split; [|split].
  - intros _. by exists anchor, u, (fst (captureLink settings page (url_href u))).
  - intros pre uri post H.
    destruct pre as [|e1 pre]; [discriminate H|]. injection H as <- H.
    destruct pre as [|e2 pre]; [discriminate H|]. injection H as <- H.
    assert (Hin : Navigate uri ∈ fst (captureLink settings page (url_href u))).
    { rewrite H. apply elem_of_app. right. apply elem_of_cons. by left. }
    apply captureLink_navigate in Hin as (enc & _ & ->).
    exists pre, enc. split; [done|]. split; [done|].
    intros uri' Hin. apply captureLink_order in H.
    rewrite Forall_forall in H. destruct (H _ Hin) as [[k Hk]|Hk]; discriminate Hk.
  - intros Hno. by destruct (Hno anchor eq_refl).
Qed.

End ClickHandling.
(** ** The relay's settings and storage *)

Section RelaySettings.
Import Relay.

Lemma or_else_truthy (a b : JSVal) : truthy b = true -> truthy (or_else a b) = true.
Proof. intros Hb. unfold or_else. by destruct (truthy a) eqn:Ha. Qed.

Lemma defined_or_defined (a b : JSVal) :
  b ≠ VUndefined -> defined_or a b ≠ VUndefined.
Proof. intros Hb. by destruct a. Qed.

(** X5. Whatever the store holds, the record returned by [loadSettings]
    of the relay has exactly the five fields; [enabled],
    [visualFeedback] and [soundFeedback] are never [undefined], and
    [linkMode] and [version] are never empty.  A stored [enabled] or
    [visualFeedback] other than [undefined] (also [false]) is returned
    as stored, and so is a non-empty stored [linkMode]. *)
Theorem relay_loadSettings_complete (settings : JSObject) (st : Storage) :
  let loaded := snd (loadSettings settings st) in
  dom loaded
  = ({["linkMode"; "enabled"; "visualFeedback"; "soundFeedback"; "version"]}
     : gset string)
  /\ get loaded "enabled" ≠ VUndefined
  /\ get loaded "visualFeedback" ≠ VUndefined
  /\ get loaded "soundFeedback" ≠ VUndefined
  /\ truthy (get loaded "linkMode") = true
  /\ truthy (get loaded "version") = true
  /\ (sync_get_error st = None ->
      fst (loadSettings settings st) = loaded
      /\ (get (sync_items st) "enabled" ≠ VUndefined ->
          get loaded "enabled" = get (sync_items st) "enabled")
      /\ (get (sync_items st) "visualFeedback" ≠ VUndefined ->
          get loaded "visualFeedback" = get (sync_items st) "visualFeedback")
      /\ (truthy (get (sync_items st) "linkMode") = true ->
          get loaded "linkMode" = get (sync_items st) "linkMode")).
Proof.
  intros loaded. subst loaded. unfold loadSettings, storage_get.
  destruct (sync_get_error st) as [e|]; cbn [snd fst].
  - split; [|repeat split; try done].
    unfold defaultRecord. rewrite !dom_insert_L, dom_empty_L.
    apply set_eq; intros k; rewrite !elem_of_union, !elem_of_singleton,
      elem_of_empty; tauto.
  - split.
    { rewrite !dom_insert_L, dom_empty_L.
      apply set_eq; intros k; rewrite !elem_of_union, !elem_of_singleton,
        elem_of_empty; tauto. }
    rewrite !get_insert_eq.
    rewrite !(get_insert_ne _ "linkMode") by done. rewrite !get_insert_eq.
    rewrite !(get_insert_ne _ "enabled") by done. rewrite !get_insert_eq.
    rewrite !(get_insert_ne _ "visualFeedback") by done. rewrite !get_insert_eq.
    rewrite !(get_insert_ne _ "soundFeedback") by done. rewrite !get_insert_eq.
    split; [by apply defined_or_defined|].
    split; [by apply defined_or_defined|].
    split; [unfold or_else; by destruct (truthy _) eqn:Ht, (get _ "soundFeedback")|].
    split; [by apply or_else_truthy|].
    split; [by apply or_else_truthy|].
    intros _. split; [done|].
    split; [by destruct (get (sync_items st) "enabled")|].
    split; [by destruct (get (sync_items st) "visualFeedback")|].
    unfold or_else. by intros ->.
Qed.

Lemma get_defaultRecord_union (items : JSObject) (k : string) :
  k ∈ ["linkMode"; "enabled"; "visualFeedback"; "soundFeedback"; "version"] ->
  get (defaultRecord ∪ items) k = get defaultRecord k.
Proof.
  intros Hk. apply get_union_l.
  repeat (apply elem_of_cons in Hk as [-> | Hk]); try (by eexists).
  by apply elem_of_nil in Hk.
Qed.

(** X6. After the installation handler has run on a writable store,
    [loadSettings] returns exactly the default record, whatever the
    store held before and whether or not it can be read, and the
    installation touches no other key; when the store rejects the write
    it is left as it was. *)
Theorem install_then_load (settings : JSObject) (st : Storage) :
  (sync_set_error st = None ->
   snd (loadSettings settings (handleInstallation st)) = defaultRecord
   /\ forall k,
        k ∉ ["linkMode"; "enabled"; "visualFeedback"; "soundFeedback"; "version"] ->
        sync_items (handleInstallation st) !! k = sync_items st !! k)
  /\ (is_Some (sync_set_error st) -> handleInstallation st = st).
Proof.
  unfold handleInstallation, storage_set. split.
  - intros Hok. rewrite Hok. split.
    + unfold loadSettings, storage_get, with_sync_items.
      cbn [sync_get_error sync_items].
      destruct (sync_get_error st); cbn [snd]; [done|].
      rewrite !get_defaultRecord_union by set_solver.
      reflexivity.
    + intros k Hk. cbn [sync_items]. apply lookup_union_r.
      unfold defaultRecord.
      rewrite !lookup_insert_ne; [apply lookup_empty|..];
        intros <-; apply Hk; set_solver.
  - intros [e ->]. done.
Qed.

End RelaySettings.

(** ** What the relay does with a message *)

Section RelayMessages.
Import Relay.
Context (P : Platform) (update : N -> jsstring -> option jsstring).

Lemma storage_set_frame (items : JSObject) (st st' : Storage) (k : string) :
  storage_set items st = Returned st' ->
  items !! k = None ->
  sync_items st' !! k = sync_items st !! k.
Proof.
  unfold storage_set. destruct (sync_set_error st); [done|].
  intros [= <-] Hk. cbn [sync_items]. by apply lookup_union_r.
Qed.

Lemma firefox_forward_effects (url : jsstring) (tabId : N) (e : Effect) :
  e ∈ fst (FirefoxBackground.forwardToProxly update url tabId) ->
  exists encodedUrl,
    Base64.btoa url = Returned encodedUrl
    /\ e = TabsUpdate tabId (proxly_prefix ++ encodedUrl).
Proof.
  unfold FirefoxBackground.forwardToProxly.
  destruct (Base64.btoa url) as [enc|msg]; cbn [fst].
  - destruct (update tabId _); cbn [fst];
      intros ->%list_elem_of_singleton; by eexists.
  - intros H. by apply elem_of_nil in H.
Qed.

Lemma safari_forward_effects (native : Outcome (option NativeResponse))
    (url : jsstring) (tab : option N) (e : Effect) :
  e ∈ fst (SafariBackground.forwardToProxly native update url tab) ->
  e = SendNativeMessage url
  \/ (exists tabId encodedUrl,
        tab = Some tabId
        /\ Base64.btoa url = Returned encodedUrl
        /\ e = TabsUpdate tabId (proxly_prefix ++ encodedUrl)
        /\ forall r, native = Returned (Some r) -> nr_success r = false).
Proof.
  unfold SafariBackground.forwardToProxly.
  assert (Hfailed : forall error,
    (forall r, native = Returned (Some r) -> nr_success r = false) ->
    e ∈ fst (match Base64.btoa url with
             | Returned encodedUrl =>
                 match tab with
                 | Some tabId =>
                     if negb (tabId =? 0)
                     then
                       match update tabId (proxly_prefix ++ encodedUrl) with
                       | None =>
                           ([SendNativeMessage url;
                             TabsUpdate tabId (proxly_prefix ++ encodedUrl)],
                            Returned ())
                       | Some _ =>
                           ([SendNativeMessage url;
                             TabsUpdate tabId (proxly_prefix ++ encodedUrl)],
                            Thrown error)
                       end
                     else ([SendNativeMessage url], Thrown error)
                 | None => ([SendNativeMessage url], Thrown error)
                 end
             | Thrown _ => ([SendNativeMessage url], Thrown error)
             end : Eff unit) ->
    e = SendNativeMessage url
    \/ (exists tabId encodedUrl,
          tab = Some tabId
          /\ Base64.btoa url = Returned encodedUrl
          /\ e = TabsUpdate tabId (proxly_prefix ++ encodedUrl)
          /\ forall r, native = Returned (Some r) -> nr_success r = false)).
  { intros error Hnative.
    destruct (Base64.btoa url) as [enc|msg]; [|by intros ->%list_elem_of_singleton; left].
    destruct tab as [tabId|]; [|by intros ->%list_elem_of_singleton; left].
    destruct (negb (tabId =? 0)); [|by intros ->%list_elem_of_singleton; left].
    destruct (update tabId _); cbn [fst];
      (intros [-> | He]%elem_of_cons; [by left|]);
      apply list_elem_of_singleton in He as ->; right; by exists tabId, enc. }
  destruct native as [[r|]|msg].
  - destruct (nr_success r) eqn:Hr.
    + cbn [fst]. intros ->%list_elem_of_singleton. by left.
    + apply Hfailed. intros r' [= <-]. done.
  - apply Hfailed. intros r' [=].
  - apply Hfailed. intros r' [=].
Qed.

(** X7. Handling a message writes the store only for
    [TOGGLE_EXTENSION], in the Firefox and in the Safari relay, and
    then only the key [enabled]: every other key, and for every other
    message the whole store, is left as it was. *)
Theorem relay_store_frame (native : Outcome (option NativeResponse))
    (settings : JSObject) (st : Storage) (message : Message) (tabId : N)
    (tab : option N) :
  let hf := FirefoxBackground.handleRuntimeMessage P update settings st message tabId in
  let hs :=
    SafariBackground.handleRuntimeMessage P native update settings st message tab in
  (forall k, k ≠ "enabled" ->
     sync_items (new_storage hf) !! k = sync_items st !! k
     /\ sync_items (new_storage hs) !! k = sync_items st !! k)
  /\ (msg_type message ≠ lit "TOGGLE_EXTENSION" ->
      new_storage hf = st /\ new_storage hs = st).
Proof.
  intros hf hs. subst hf hs.
  unfold FirefoxBackground.handleRuntimeMessage,
    SafariBackground.handleRuntimeMessage.
  destruct (loadSettings settings st) as [settings' loaded].
  destruct (str_eqb (msg_type message) (lit "GET_SETTINGS")); [done|].
  destruct (str_eqb (msg_type message) (lit "CAPTURE_LINK")).
  { destruct (nonempty _ && isValidUrl P _); [|done].
    destruct (truthy (msg_isTest message)); [done|].
    by destruct (SafariBackground.forwardToProxly _ _ _ _) as [eff [u|e]]. }
  destruct (str_eqb (msg_type message) (lit "SETTINGS_UPDATED")); [done|].
  destruct (str_eqb (msg_type message) (lit "TOGGLE_EXTENSION")) eqn:Ht;
    [|done].
  apply bool_decide_eq_true in Ht. split; [|done].
  intros k Hk. split.
  - destruct (storage_set _ st) as [st'|e] eqn:Hset; [|done].
    cbn [new_storage]. apply (storage_set_frame _ _ _ _ Hset).
    by rewrite lookup_insert_ne.
  - destruct (storage_set _ st) as [st'|e] eqn:Hset; [|done].
    cbn [new_storage]. apply (storage_set_frame _ _ _ _ Hset).
    by rewrite lookup_insert_ne.
Qed.

(** X8. The relay navigates a tab only for a [CAPTURE_LINK] message that
    is not a test and whose URL passes the http/https check, or for a
    click on its menu entry with such a link; the tab is the sender's
    and the target is [proxly://open/] followed by the encoded URL.  The
    Safari relay also sends the native message only for such a URL. *)
Theorem relay_navigates_only_to_proxly (native : Outcome (option NativeResponse))
    (settings : JSObject) (st : Storage) (message : Message) (info : MenuInfo)
    (tabId : N) (tab : option N) :
  (forall t u,
     TabsUpdate t u ∈ effects (FirefoxBackground.handleRuntimeMessage P update settings
                                 st message tabId)
     \/ TabsUpdate t u ∈ effects (SafariBackground.handleRuntimeMessage P native update
                                    settings st message tab) ->
     msg_type message = lit "CAPTURE_LINK"
     /\ truthy (msg_isTest message) = false
     /\ exists url encodedUrl,
          msg_url message = Some url
          /\ isValidUrl P url = true
          /\ Base64.btoa url = Returned encodedUrl
          /\ u = proxly_prefix ++ encodedUrl)
  /\ (forall t u,
        TabsUpdate t u ∈ FirefoxBackground.handleContextMenuClick P update settings
                           info tabId ->
        t = tabId
        /\ exists url encodedUrl,
             info_linkUrl info = Some url
             /\ isValidUrl P url = true
             /\ Base64.btoa url = Returned encodedUrl
             /\ u = proxly_prefix ++ encodedUrl)
  /\ (forall url,
        SendNativeMessage url
          ∈ effects (SafariBackground.handleRuntimeMessage P native update settings st
                       message tab) ->
        msg_url message = Some url
        /\ isValidUrl P url = true
        /\ truthy (msg_isTest message) = false).
Proof.
  split; [|split].
  - intros t u.
    unfold FirefoxBackground.handleRuntimeMessage,
      SafariBackground.handleRuntimeMessage.
    destruct (loadSettings settings st) as [settings' loaded].
    destruct (str_eqb (msg_type message) (lit "GET_SETTINGS"));
      [intros [H|H]; by apply elem_of_nil in H|].
    destruct (str_eqb (msg_type message) (lit "CAPTURE_LINK")) eqn:Hty.
    + apply bool_decide_eq_true in Hty.
      destruct (msg_url message) as [[|c url]|] eqn:Hurl;
        try (intros [H|H]; by apply elem_of_nil in H).
      cbn [nonempty default from_option id andb].
      destruct (isValidUrl P (c :: url)) eqn:Hv;
        [|intros [H|H]; by apply elem_of_nil in H].
      destruct (truthy (msg_isTest message)) eqn:Htest;
        [intros [H|H]; by apply elem_of_nil in H|].
      intros [H|H].
      * apply firefox_forward_effects in H as (enc & Hb & [= -> ->]).
        split; [done|]. split; [done|]. by exists (c :: url), enc.
      * assert (TabsUpdate t u
                  ∈ fst (SafariBackground.forwardToProxly native update (c :: url) tab))
          as [?|(t' & enc & _ & Hb & [= -> ->] & _)]%safari_forward_effects;
          [|done|].
        { by destruct (SafariBackground.forwardToProxly native update (c :: url) tab)
            as [eff [x|e]]. }
        split; [done|]. split; [done|]. by exists (c :: url), enc.
    + destruct (str_eqb (msg_type message) (lit "SETTINGS_UPDATED")).
      { intros [H|H].
        - apply list_elem_of_singleton in H. done.
        - cbn [effects] in H. rewrite !elem_of_app in H.
          destruct H as [H|[H|H]].
          + destruct (get (msg_settings message) "enabled");
              try (by apply elem_of_nil in H);
              by apply list_elem_of_singleton in H.
          + destruct (get (msg_settings message) "linkMode");
              try (by apply elem_of_nil in H);
              by apply list_elem_of_singleton in H.
          + by apply list_elem_of_singleton in H. }
      destruct (str_eqb (msg_type message) (lit "TOGGLE_EXTENSION")).
      * intros [H|H];
          (destruct (storage_set _ st) in H; cbn [effects] in H;
           [apply list_elem_of_singleton in H; discriminate H
           |by apply elem_of_nil in H]).
      * intros [H|H]; by apply elem_of_nil in H.
  - intros t u. unfold FirefoxBackground.handleContextMenuClick.
    destruct (negb (str_eqb (info_menuItemId info) menuItemId));
      [intros H; by apply elem_of_nil in H|].
    destruct (info_linkUrl info) as [[|c url]|];
      try (intros H; by apply elem_of_nil in H).
    cbn [nonempty negb orb default from_option id].
    destruct (isValidUrl P (c :: url)) eqn:Hv;
      [|intros H; by apply elem_of_nil in H].
    cbn [negb]. intros (enc & Hb & [= -> ->])%firefox_forward_effects.
    split; [done|]. by exists (c :: url), enc.
  - intros url. unfold SafariBackground.handleRuntimeMessage.
    destruct (loadSettings settings st) as [settings' loaded].
    destruct (str_eqb (msg_type message) (lit "GET_SETTINGS"));
      [intros H; by apply elem_of_nil in H|].
    destruct (str_eqb (msg_type message) (lit "CAPTURE_LINK")).
    + destruct (msg_url message) as [[|c url']|] eqn:Hurl;
        try (intros H; by apply elem_of_nil in H).
      cbn [nonempty default from_option id andb].
      destruct (isValidUrl P (c :: url')) eqn:Hv;
        [|intros H; by apply elem_of_nil in H].
      destruct (truthy (msg_isTest message)) eqn:Htest;
        [intros H; by apply elem_of_nil in H|].
      intros H.
      assert (SendNativeMessage url
                ∈ fst (SafariBackground.forwardToProxly native update (c :: url') tab))
        as [[= ->]|(t' & enc & _ & _ & ? & _)]%safari_forward_effects;
        [|done|done].
      by destruct (SafariBackground.forwardToProxly native update (c :: url') tab)
        as [eff [x|e]].
    + destruct (str_eqb (msg_type message) (lit "SETTINGS_UPDATED")).
      { intros H. cbn [effects] in H. rewrite !elem_of_app in H.
        destruct H as [H|[H|H]].
        - destruct (get (msg_settings message) "enabled");
            try (by apply elem_of_nil in H);
            by apply list_elem_of_singleton in H.
        - destruct (get (msg_settings message) "linkMode");
            try (by apply elem_of_nil in H);
            by apply list_elem_of_singleton in H.
        - by apply list_elem_of_singleton in H. }
      destruct (str_eqb (msg_type message) (lit "TOGGLE_EXTENSION")).
      * intros H. destruct (storage_set _ st) in H; cbn [effects] in H;
          [apply list_elem_of_singleton in H; discriminate H
          |by apply elem_of_nil in H].
      * intros H; by apply elem_of_nil in H.
Qed.

End RelayMessages.

(** ** Acknowledging a capture *)

Section CaptureAcknowledgement.
Import Relay.
Context (P : Platform) (update : N -> jsstring -> option jsstring).


End CaptureAcknowledgement.

(** ** Toggling twice *)

Section DoubleToggle.
Import Relay.
Context (P : Platform) (update : N -> jsstring -> option jsstring).

(** X10. Two [TOGGLE_EXTENSION] messages without an [enabled] field, on
    a writable store, bring the cached flag and the stored flag back to
    the boolean value the cache had, in both relays; after the first one
    both hold the opposite value. *)
Theorem toggle_twice_restores (native : Outcome (option NativeResponse))
    (settings : JSObject) (st : Storage) (message : Message) (b : bool)
    (tabId : N) (tab : option N) :
  msg_type message = lit "TOGGLE_EXTENSION" ->
  msg_enabled message = VUndefined ->
  sync_set_error st = None ->
  get settings "enabled" = VBool b ->
  let hf1 :=
    FirefoxBackground.handleRuntimeMessage P update settings st message tabId in
  let hf2 := FirefoxBackground.handleRuntimeMessage P update (new_settings hf1)
               (new_storage hf1) message tabId in
  let hs1 :=
    SafariBackground.handleRuntimeMessage P native update settings st message tab in
  let hs2 := SafariBackground.handleRuntimeMessage P native update (new_settings hs1)
               (new_storage hs1) message tab in
  get (new_settings hf1) "enabled" = VBool (negb b)
  /\ get (sync_items (new_storage hf1)) "enabled" = VBool (negb b)
  /\ get (new_settings hf2) "enabled" = VBool b
  /\ get (sync_items (new_storage hf2)) "enabled" = VBool b
  /\ get (new_settings hs1) "enabled" = VBool (negb b)
  /\ get (sync_items (new_storage hs1)) "enabled" = VBool (negb b)
  /\ get (new_settings hs2) "enabled" = VBool b
  /\ get (sync_items (new_storage hs2)) "enabled" = VBool b.
Proof.
  intros Hty Hnone Hok Hen hf1 hf2 hs1 hs2.
  destruct (firefox_toggle P update settings st message tabId Hty Hok)
    as (Hf1 & Hf1s & _).
  destruct (safari_toggle P update native settings st message tab Hty Hok)
    as (Hs1 & Hs1s & _).
  rewrite Hen in Hf1, Hf1s. rewrite Hnone, Hen in Hs1, Hs1s.
  cbn [truthy defined_or] in Hf1, Hf1s, Hs1, Hs1s.
  fold hf1 in Hf1, Hf1s. fold hs1 in Hs1, Hs1s.
  assert (Hokf : sync_set_error (new_storage hf1) = None).
  { subst hf1. unfold FirefoxBackground.handleRuntimeMessage. rewrite Hty.
    destruct toggle_dispatch as (Hg & Hc & Hs & Ht). rewrite Hg, Hc, Hs, Ht.
    unfold storage_set. by rewrite Hok. }
  assert (Hoks : sync_set_error (new_storage hs1) = None).
  { subst hs1. unfold SafariBackground.handleRuntimeMessage. rewrite Hty.
    destruct toggle_dispatch as (Hg & Hc & Hs & Ht). rewrite Hg, Hc, Hs, Ht.
    unfold storage_set. by rewrite Hok. }
  destruct (firefox_toggle P update (new_settings hf1) (new_storage hf1) message tabId
              Hty Hokf) as (Hf2 & Hf2s & _).
  destruct (safari_toggle P update native (new_settings hs1) (new_storage hs1) message
              tab Hty Hoks) as (Hs2 & Hs2s & _).
  rewrite Hf1 in Hf2, Hf2s. rewrite Hnone, Hs1 in Hs2, Hs2s.
  cbn [truthy defined_or] in Hf2, Hf2s, Hs2, Hs2s.
  rewrite negb_involutive in Hf2, Hf2s, Hs2, Hs2s.
  fold hf2 in Hf2, Hf2s. fold hs2 in Hs2, Hs2s.
  rewrite Hf1s, Hf2s, Hs1s, Hs2s, !get_insert_eq.
  by repeat split.
Qed.

End DoubleToggle.

(** ** The relay's storage listener and broadcast *)

Section RelayListeners.
Import Relay SafariRelayEvents.

Lemma relay_update_fst (changes : JSObject) (k : string)
    (eff : JSVal -> list Effect) (acc : JSObject * list Effect) :
  fst (match changes !! k with
       | Some newValue =>
           if negb (strict_eq newValue (get (fst acc) k))
           then (<[k := newValue]> (fst acc), snd acc ++ eff newValue)
           else acc
       | None => acc
       end)
  = match changes !! k with
    | Some newValue =>
        if negb (strict_eq newValue (get (fst acc) k))
        then <[k := newValue]> (fst acc) else fst acc
    | None => fst acc
    end.
Proof. destruct (changes !! k); [|done]. by destruct (negb _). Qed.

Lemma relay_update_snd (changes : JSObject) (k : string)
    (eff : JSVal -> list Effect) (acc : JSObject * list Effect) (e : Effect) :
  e ∈ snd (match changes !! k with
           | Some newValue =>
               if negb (strict_eq newValue (get (fst acc) k))
               then (<[k := newValue]> (fst acc), snd acc ++ eff newValue)
               else acc
           | None => acc
           end)
  <-> e ∈ snd acc
      \/ exists v, changes !! k = Some v
                   /\ strict_eq v (get (fst acc) k) = false
                   /\ e ∈ eff v.
Proof.
  destruct (changes !! k) as [v|].
  - destruct (strict_eq v (get (fst acc) k)) eqn:Heq; cbn [negb snd].
    + split; [by left|]. intros [?|(v' & [= <-] & Hv & _)]; [done|congruence].
    + rewrite elem_of_app. split.
      * intros [?|?]; [by left|right; by exists v].
      * intros [?|(v' & [= <-] & _ & ?)]; [by left|by right].
  - split; [by left|]. intros [?|(v' & Hv & _)]; [done|discriminate Hv].
Qed.

(** X11. The storage listener of the Safari relay: for a change in the
    [sync] area each of the four cached fields that changed holds its
    new value afterwards and nothing else in the cache changes; the badge
    is updated exactly when [enabled] changed to a value other than the
    cached one, and the menu title exactly when [linkMode] did; a change
    in another area does nothing. *)
Theorem relay_handleStorageChange_converges (changes settings : JSObject)
    (namespace : jsstring) :
  let tracked : list string :=
    ["enabled"; "linkMode"; "visualFeedback"; "soundFeedback"] in
  let settings' := fst (handleStorageChange changes namespace settings) in
  let eff := snd (handleStorageChange changes namespace settings) in
  (namespace ≠ lit "sync" -> settings' = settings /\ eff = [])
  /\ (namespace = lit "sync" ->
      (forall k v, k ∈ tracked -> changes !! k = Some v -> get settings' k = v)
      /\ (forall k, k ∉ tracked \/ changes !! k = None ->
                    settings' !! k = settings !! k)
      /\ (forall e, e ∈ eff <->
            (exists v, e = SetBadge v
                       /\ changes !! "enabled" = Some v
                       /\ strict_eq v (get settings "enabled") = false)
            \/ (exists v, e = UpdateMenuTitle v
                          /\ changes !! "linkMode" = Some v
                          /\ strict_eq v (get settings "linkMode") = false))).
Proof.
  intros tracked settings' eff. subst settings' eff.
  unfold handleStorageChange, str_eqb. cbv zeta beta. split.
  - intros Hns. by rewrite bool_decide_eq_false_2.
  - intros ->. rewrite bool_decide_eq_true_2 by done.
    split; [|split].
    + intros k v Hk Hv. subst tracked. rewrite !relay_update_fst. cbn [fst].
      repeat (apply elem_of_cons in Hk as [-> | Hk]);
        [| | | |by apply elem_of_nil in Hk].
      * rewrite !storage_update_other_get by done.
        by apply storage_update_same.
      * rewrite !storage_update_other_get by done.
        by apply storage_update_same.
      * rewrite !storage_update_other_get by done.
        by apply storage_update_same.
      * by apply storage_update_same.
    + rewrite !relay_update_fst. cbn [fst]. intros k [Hk|Hk].
      * assert (k ≠ "enabled" /\ k ≠ "linkMode" /\ k ≠ "visualFeedback"
                /\ k ≠ "soundFeedback") as (? & ? & ? & ?).
        { subst tracked. repeat split; intros ->; apply Hk; set_solver. }
        by rewrite !storage_update_other.
      * by rewrite !storage_update_unchanged.
    + intros e. rewrite !relay_update_snd. rewrite !relay_update_fst.
      cbn [fst snd]. rewrite storage_update_other_get by done.
      split.
      * intros [[[[H|(v & Hv & Hne & H)]|(v & Hv & Hne & H)]
                 |(v & _ & _ & H)]|(v & _ & _ & H)];
          try (by apply elem_of_nil in H).
        -- apply list_elem_of_singleton in H as ->. right. by exists v.
        -- apply list_elem_of_singleton in H as ->. left. by exists v.
      * intros [(v & -> & Hv & Hne)|(v & -> & Hv & Hne)].
        -- left. left. right. exists v. split; [done|]. split; [done|].
           by apply list_elem_of_singleton.
        -- left. left. left. right. exists v. split; [done|]. split; [done|].
           by apply list_elem_of_singleton.
Qed.

Lemma broadcast_fold (delivered : N -> bool) (ts : list N)
    (sent : list (N * bool)) (a b : nat) :
  fold_left
    (fun '(sent, successCount, errorCount) tab =>
       if delivered tab
       then (sent ++ [(tab, true)], S successCount, errorCount)
       else (sent ++ [(tab, false)], successCount, S errorCount))
    ts (sent, a, b)
  = (sent ++ ((fun t => (t, delivered t)) <$> ts),
     (a + length (List.filter delivered ts))%nat,
     (b + length (List.filter (fun t => negb (delivered t)) ts))%nat).
Proof.
  revert sent a b. induction ts as [|t ts IH]; intros sent a b.
  - cbn. by rewrite app_nil_r, !Nat.add_0_r.
  - cbn [fold_left fmap list_fmap List.filter]. destruct (delivered t) eqn:Ht;
      rewrite IH; cbn [negb length]; rewrite <- app_assoc; cbn [app];
      repeat (f_equal; try lia).
Qed.

(** X12. The broadcast sends the update to every open tab, in order,
    also after a tab failed to receive it; the success counter is the
    number of tabs that received it and the two counters add up to the
    number of tabs.  When the tabs cannot be listed nothing is sent. *)
Theorem broadcast_reaches_every_tab (ts : list N) (delivered : N -> bool)
    (message : jsstring) :
  let '(sent, successCount, errorCount) :=
    broadcastSettingsUpdate (Returned ts) delivered in
  sent.*1 = ts
  /\ (forall t d, (t, d) ∈ sent -> d = delivered t)
  /\ successCount = length (List.filter delivered ts)
  /\ (successCount + errorCount = length ts)%nat
  /\ broadcastSettingsUpdate (Thrown message) delivered = ([], O, O).
Proof.
  unfold broadcastSettingsUpdate. rewrite broadcast_fold. cbn [app Nat.add].
  split; [|split; [|split; [done|split; [|done]]]].
  - rewrite <- list_fmap_compose. apply list_fmap_id.
  - intros t d (t' & [= -> ->] & _)%list_elem_of_fmap. done.
  - induction ts as [|t ts IH]; [done|]. cbn [List.filter].
    destruct (delivered t); cbn [negb length]; lia.
Qed.

End RelayListeners.

(** ** Validating, saving and loading settings *)

Section SettingsManagers.

Lemma includes_two (a b : jsstring) (x : JSVal) :
  includes [VStr a; VStr b] x = true -> x = VStr a \/ x = VStr b.
Proof.
  unfold includes. cbn [existsb]. rewrite orb_false_r.
  intros [H|H]%orb_true_iff; apply strict_eq_true in H; auto.
Qed.

Lemma includes_two_l (a b : jsstring) : includes [VStr a; VStr b] (VStr a) = true.
Proof.
  unfold includes. cbn [existsb]. apply orb_true_iff. left.
  cbn. by apply bool_decide_eq_true.
Qed.

Lemma includes_two_r (a b : jsstring) : includes [VStr a; VStr b] (VStr b) = true.
Proof.
  unfold includes. cbn [existsb]. apply orb_true_iff. right.
  rewrite orb_false_r. cbn. by apply bool_decide_eq_true.
Qed.

Lemma map_eq_dom_get (a b : JSObject) :
  dom a = dom b ->
  (forall k, k ∈ dom a -> get a k = get b k) ->
  a = b.
Proof.
  intros Hdom Hget. apply map_eq. intros k.
  destruct (a !! k) as [x|] eqn:Ha.
  - assert (Hk : k ∈ dom a) by (apply elem_of_dom; by eexists).
    assert (Hkb : k ∈ dom b) by (by rewrite <- Hdom).
    apply elem_of_dom in Hkb as [y Hb].
    specialize (Hget k Hk). unfold get in Hget. rewrite Ha, Hb in Hget.
    cbn in Hget. by rewrite Hb, Hget.
  - symmetry. apply not_elem_of_dom. rewrite <- Hdom. by apply not_elem_of_dom.
Qed.

Lemma five_keys (k : string) :
  k ∈ ({["linkMode"; "enabled"; "visualFeedback"; "soundFeedback"; "version"]}
       : gset string)
  <-> k ∈ ["linkMode"; "enabled"; "visualFeedback"; "soundFeedback"; "version"].
Proof.
  rewrite !elem_of_union, !elem_of_singleton, !elem_of_cons, elem_of_nil. tauto.
Qed.

Lemma not_five_keys (k : string) :
  k ∉ ["linkMode"; "enabled"; "visualFeedback"; "soundFeedback"; "version"] ->
  k <> "linkMode" /\ k <> "enabled" /\ k <> "visualFeedback"
  /\ k <> "soundFeedback" /\ k <> "version".
Proof.
  intros Hk. repeat split; intros ->; apply Hk; rewrite !elem_of_cons; tauto.
Qed.

Lemma safari_validate_lookup (this : SafariSettingsManager.Manager)
    (s : JSObject) (k : string) :
  k ∉ ["linkMode"; "enabled"; "visualFeedback"; "soundFeedback"; "version"] ->
  SafariSettingsManager.validateSettings this s !! k
  = SafariSettingsManager.defaultSettings this !! k.
Proof.
  intros (? & ? & ? & ? & ?)%not_five_keys.
  unfold SafariSettingsManager.validateSettings.
  destruct (includes _ _), (truthy (get s "version"));
    by repeat (rewrite lookup_insert_ne by done).
Qed.

Lemma safari_validate_keeps (this : SafariSettingsManager.Manager)
    (s : JSObject) (k : string) :
  is_Some (SafariSettingsManager.defaultSettings this !! k) ->
  is_Some (SafariSettingsManager.validateSettings this s !! k).
Proof.
  intros Hk. unfold SafariSettingsManager.validateSettings.
  destruct (includes _ _), (truthy (get s "version"));
    rewrite !lookup_insert_is_Some'; tauto.
Qed.

Lemma safari_validate_get (this : SafariSettingsManager.Manager) (s : JSObject) :
  let v := SafariSettingsManager.validateSettings this s in
  get v "linkMode"
  = (if includes [VStr (lit "all"); VStr (lit "context")] (get s "linkMode")
     then get s "linkMode"
     else get (SafariSettingsManager.defaultSettings this) "linkMode")
  /\ get v "enabled" = Boolean (get s "enabled")
  /\ get v "visualFeedback" = Boolean (get s "visualFeedback")
  /\ get v "soundFeedback" = Boolean (get s "soundFeedback")
  /\ get v "version"
     = (if truthy (get s "version") then get s "version"
        else get (SafariSettingsManager.defaultSettings this) "version").
Proof.
  unfold SafariSettingsManager.validateSettings.
  destruct (includes _ _), (truthy (get s "version"));
    repeat split;
    repeat first [rewrite get_insert_eq | rewrite get_insert_ne by done];
    done.
Qed.

Lemma safari_validate_dom (s : JSObject) :
  dom (SafariSettingsManager.validateSettings SafariSettingsManager.constructor s)
  = ({["linkMode"; "enabled"; "visualFeedback"; "soundFeedback"; "version"]}
     : gset string).
Proof.
  unfold SafariSettingsManager.validateSettings,
    SafariSettingsManager.constructor.
  cbn [SafariSettingsManager.defaultSettings].
  destruct (includes _ _), (truthy _); rewrite !dom_insert_L, dom_empty_L;
    apply set_eq; intros k; rewrite !elem_of_union, !elem_of_singleton,
      elem_of_empty; tauto.
Qed.

Lemma safari_validate_fixed (s : JSObject) (be bv bs : bool) :
  dom s = ({["linkMode"; "enabled"; "visualFeedback"; "soundFeedback"; "version"]}
           : gset string) ->
  get s "linkMode" = VStr (lit "all") \/ get s "linkMode" = VStr (lit "context") ->
  get s "enabled" = VBool be ->
  get s "visualFeedback" = VBool bv ->
  get s "soundFeedback" = VBool bs ->
  truthy (get s "version") = true ->
  SafariSettingsManager.validateSettings SafariSettingsManager.constructor s = s.
Proof.
  intros Hdom Hmode He Hv Hs Hver.
  apply map_eq_dom_get; [by rewrite safari_validate_dom|].
  intros k Hk. rewrite safari_validate_dom in Hk. apply five_keys in Hk.
  destruct (safari_validate_get SafariSettingsManager.constructor s)
    as (Gm & Ge & Gv & Gs & Gver).
  repeat (apply elem_of_cons in Hk as [-> | Hk]);
    [| | | | |by apply elem_of_nil in Hk].
  - rewrite Gm. destruct Hmode as [-> | ->];
      [by rewrite includes_two_l|by rewrite includes_two_r].
  - by rewrite Ge, He.
  - by rewrite Gv, Hv.
  - by rewrite Gs, Hs.
  - by rewrite Gver, Hver.
Qed.

(** X13. [validateSettings] of the Safari settings manager starts from
    the [defaultSettings] object of the instance.  For every instance the
    three flags of the result are booleans, [linkMode] is that of the
    input when it is ['all'] or ['context'] and that of the instance
    otherwise, [version] that of the input when it is truthy and that of
    the instance otherwise, and every other property is that of the
    instance.  For an instance whose [defaultSettings] is as the
    constructor sets it, the result has exactly the five fields, a
    [linkMode] that is ['all'] or ['context'] and a truthy [version];
    validating it again changes nothing, and a record that already has
    this form is returned unchanged. *)
Theorem safari_validateSettings_valid (this : SafariSettingsManager.Manager)
    (s : JSObject) :
  let v := SafariSettingsManager.validateSettings this s in
  let defaults := SafariSettingsManager.defaultSettings this in
  get v "enabled" = VBool (truthy (get s "enabled"))
  /\ get v "visualFeedback" = VBool (truthy (get s "visualFeedback"))
  /\ get v "soundFeedback" = VBool (truthy (get s "soundFeedback"))
  /\ get v "linkMode"
     = (if includes [VStr (lit "all"); VStr (lit "context")] (get s "linkMode")
        then get s "linkMode" else get defaults "linkMode")
  /\ get v "version"
     = (if truthy (get s "version") then get s "version"
        else get defaults "version")
  /\ (forall k,
        k ∉ ["linkMode"; "enabled"; "visualFeedback"; "soundFeedback"; "version"] ->
        v !! k = defaults !! k)
  /\ (this = SafariSettingsManager.constructor ->
      dom v = ({["linkMode"; "enabled"; "visualFeedback"; "soundFeedback"; "version"]}
               : gset string)
      /\ (get v "linkMode" = VStr (lit "all")
          \/ get v "linkMode" = VStr (lit "context"))
      /\ truthy (get v "version") = true
      /\ SafariSettingsManager.validateSettings this v = v
      /\ (dom s = dom v ->
          (get s "linkMode" = VStr (lit "all")
           \/ get s "linkMode" = VStr (lit "context")) ->
          (exists b, get s "enabled" = VBool b) ->
          (exists b, get s "visualFeedback" = VBool b) ->
          (exists b, get s "soundFeedback" = VBool b) ->
          truthy (get s "version") = true ->
          v = s)).
Proof.
  intros v defaults. subst v defaults.
  destruct (safari_validate_get this s) as (Gm & Ge & Gv & Gs & Gver).
  split; [exact Ge|]. split; [exact Gv|]. split; [exact Gs|].
  split; [exact Gm|]. split; [exact Gver|].
  split; [intros k Hk; by apply safari_validate_lookup|].
  intros ->.
  assert (Hmode : get (SafariSettingsManager.validateSettings
                         SafariSettingsManager.constructor s) "linkMode"
                  = VStr (lit "all")
                  \/ get (SafariSettingsManager.validateSettings
                            SafariSettingsManager.constructor s) "linkMode"
                     = VStr (lit "context")).
  { rewrite Gm. destruct (includes _ _) eqn:Hin; [|by left].
    by apply includes_two in Hin. }
  assert (Hver : truthy (get (SafariSettingsManager.validateSettings
                                SafariSettingsManager.constructor s) "version")
                 = true).
  { rewrite Gver. by destruct (truthy (get s "version")) eqn:Ht. }
  split; [apply safari_validate_dom|]. split; [exact Hmode|].
  split; [exact Hver|]. split.
  - by apply (safari_validate_fixed _ (truthy (get s "enabled"))
                (truthy (get s "visualFeedback")) (truthy (get s "soundFeedback")));
      [apply safari_validate_dom| | | | |].
  - rewrite safari_validate_dom.
    intros Hdom Hm [be He] [bv Hv] [bs Hs] Ht.
    by apply (safari_validate_fixed s be bv bs).
Qed.

Lemma chrome_validate_get (s : JSObject) :
  let v := ChromeSettingsManager.validateSettings s in
  get v "linkMode"
  = (if includes [VStr (lit "all"); VStr (lit "alt")] (get s "linkMode")
     then get s "linkMode" else VStr (lit "alt"))
  /\ get v "visualFeedback" = Boolean (get s "visualFeedback")
  /\ get v "soundFeedback" = Boolean (get s "soundFeedback")
  /\ get v "version" = VStr (lit "1.0.0").
Proof.
  unfold ChromeSettingsManager.validateSettings,
    ChromeSettingsManager.defaultSettings.
  destruct (includes _ _);
    repeat split;
    repeat first [rewrite get_insert_eq | rewrite get_insert_ne by done];
    done.
Qed.

(** X14. The record returned by [validateSettings] of the Chrome
    settings manager always has a [linkMode] that is ['all'] or ['alt'],
    two boolean feedback flags and the version ['1.0.0'], whatever
    version the input carries; validating it again changes nothing. *)
Theorem chrome_validateSettings_valid (s : JSObject) :
  let v := ChromeSettingsManager.validateSettings s in
  (get v "linkMode" = VStr (lit "all") \/ get v "linkMode" = VStr (lit "alt"))
  /\ get v "visualFeedback" = VBool (truthy (get s "visualFeedback"))
  /\ get v "soundFeedback" = VBool (truthy (get s "soundFeedback"))
  /\ get v "version" = VStr (lit "1.0.0")
  /\ ChromeSettingsManager.validateSettings v = v.
Proof.
  intros v. subst v.
  destruct (chrome_validate_get s) as (Gm & Gv & Gs & Gver).
  assert (Hmode : get (ChromeSettingsManager.validateSettings s) "linkMode"
                  = VStr (lit "all")
                  \/ get (ChromeSettingsManager.validateSettings s) "linkMode"
                     = VStr (lit "alt")).
  { rewrite Gm. destruct (includes _ _) eqn:Hin; [|by right].
    by apply includes_two in Hin. }
  split; [exact Hmode|]. split; [exact Gv|]. split; [exact Gs|].
  split; [exact Gver|].
  apply map_eq_dom_get; [by rewrite !chrome_validateSettings_dom|].
  intros k Hk. rewrite chrome_validateSettings_dom in Hk.
  destruct (chrome_validate_get (ChromeSettingsManager.validateSettings s))
    as (Gm' & Gv' & Gs' & Gver').
  rewrite !elem_of_union, !elem_of_singleton in Hk.
  destruct Hk as [[[-> | ->] | ->] | ->].
  - rewrite Gm'. destruct Hmode as [-> | ->];
      [by rewrite includes_two_l|by rewrite includes_two_r].
  - by rewrite Gv', Gv.
  - by rewrite Gs', Gs.
  - by rewrite Gver', Gver.
Qed.

Lemma safari_loaded_get (this : SafariSettingsManager.Manager)
    (items : JSObject) (k : string) :
  is_Some (items !! k) ->
  get (spread2 (SafariSettingsManager.defaultSettings this) items) k = get items k.
Proof. intros Hk. unfold spread2. by apply get_union_l. Qed.

Lemma safari_validate_has (s : JSObject) (k : string) :
  k ∈ ["linkMode"; "enabled"; "visualFeedback"; "soundFeedback"; "version"] ->
  is_Some (SafariSettingsManager.validateSettings
             SafariSettingsManager.constructor s !! k).
Proof.
  intros Hk. apply elem_of_dom. rewrite safari_validate_dom. by apply five_keys.
Qed.

(** A property of the validated record that is [undefined] comes from
    the [defaultSettings] of the instance. *)
Lemma safari_validate_undefined (this : SafariSettingsManager.Manager)
    (s : JSObject) (k : string) :
  SafariSettingsManager.validateSettings this s !! k = Some VUndefined ->
  SafariSettingsManager.defaultSettings this !! k = Some VUndefined.
Proof.
  destruct (decide (k ∈ ["linkMode"; "enabled"; "visualFeedback";
                         "soundFeedback"; "version"])) as [Hk|Hk];
    [|by rewrite safari_validate_lookup].
  unfold SafariSettingsManager.validateSettings.
  repeat (apply elem_of_cons in Hk as [-> | Hk]);
    [| | | | |by apply elem_of_nil in Hk];
    destruct (includes _ _) eqn:Hin, (truthy (get s "version")) eqn:Hver;
    repeat first [rewrite lookup_insert_eq | rewrite lookup_insert_ne by done];
    try done;
    intros [= Hu]; try (by rewrite Hu in Hver);
    apply includes_two in Hin as [Hin | Hin]; congruence.
Qed.

(** Read back from the fallback, over the defaults of the instance, the
    validated record is itself. *)
Lemma safari_spread_validated (this : SafariSettingsManager.Manager)
    (s : JSObject) :
  spread2 (SafariSettingsManager.defaultSettings this)
          (JSON_roundtrip (SafariSettingsManager.validateSettings this s))
  = SafariSettingsManager.validateSettings this s.
Proof.
  unfold spread2, JSON_roundtrip. apply map_eq. intros k. rewrite lookup_union.
  pose proof (safari_validate_keeps this s k) as Hkeep.
  pose proof (safari_validate_undefined this s k) as Hundef.
  destruct (SafariSettingsManager.validateSettings this s !! k) as [x|] eqn:Hv.
  - destruct (decide (x = VUndefined)) as [-> | Hx].
    + rewrite map_lookup_filter_None_2.
      * by rewrite Hundef.
      * right. intros y Hy HP. apply HP. cbn. congruence.
    + rewrite (map_lookup_filter_Some_2 _ _ k x) by done.
      by destruct (SafariSettingsManager.defaultSettings this !! k).
  - rewrite map_lookup_filter_None_2 by (by left).
    destruct (SafariSettingsManager.defaultSettings this !! k) as [y|] eqn:Hd;
      [|done].
    destruct Hkeep as [z Hz]; [by eexists|discriminate Hz].
Qed.


(** What a save leaves in the store, by the calls that fail. *)
Lemma safari_save_cases (this : SafariSettingsManager.Manager)
    (s : JSObject) (st : Storage) :
  let v := SafariSettingsManager.validateSettings this s in
  SafariSettingsManager.saveSettings this s st
  = match sync_set_error st, local_set_error st with
    | None, _ =>
        (with_sync_items (v ∪ sync_items st) st, [SendRuntimeMessage v], true)
    | Some _, None =>
        (with_local_item (JSON_roundtrip v) st, [SendRuntimeMessage v], true)
    | Some _, Some _ => (st, [], false)
    end.
Proof.
  unfold SafariSettingsManager.saveSettings, SafariSettingsManager.setStorage,
    storage_set, local_set.
  by destruct (sync_set_error st), (local_set_error st).
Qed.

(** What a load gives, by the calls that fail. *)
Lemma safari_load_cases (this : SafariSettingsManager.Manager) (st : Storage) :
  SafariSettingsManager.loadSettings this st
  = match sync_get_error st, local_get_error st with
    | None, _ =>
        (spread2 (SafariSettingsManager.defaultSettings this) (sync_items st),
         false)
    | Some _, None =>
        (spread2 (SafariSettingsManager.defaultSettings this)
                 (default ∅ (local_item st)), false)
    | Some _, Some _ => (SafariSettingsManager.defaultSettings this, true)
    end.
Proof.
  unfold SafariSettingsManager.loadSettings, SafariSettingsManager.getStorage,
    storage_get, local_get.
  by destruct (sync_get_error st), (local_get_error st).
Qed.

Lemma safari_save_load_get (this : SafariSettingsManager.Manager)
    (s : JSObject) (st : Storage) (k : string) :
  reads_own_writes st = true ->
  is_Some (SafariSettingsManager.validateSettings this s !! k) ->
  get (SafariSettingsManager.loadSettings this
         (SafariSettingsManager.saveSettings this s st).1.1).1 k
  = get (SafariSettingsManager.validateSettings this s) k.
Proof.
  intros Hrw Hhas. rewrite safari_save_cases, safari_load_cases.
  unfold reads_own_writes in Hrw.
  destruct (sync_get_error st) as [eg|] eqn:Hg,
           (sync_set_error st) as [es|] eqn:Hs; try done.
  - destruct (local_get_error st) as [el|] eqn:Hlg,
             (local_set_error st) as [ew|] eqn:Hls; try done.
    cbn [fst with_local_item sync_get_error local_get_error local_item].
    rewrite Hg, Hlg. cbn [fst default from_option id].
    by rewrite safari_spread_validated.
  - cbn [fst with_sync_items sync_get_error sync_items]. rewrite Hg.
    cbn [fst]. rewrite safari_loaded_get.
    + by apply get_union_l.
    + destruct Hhas as [x Hx]. exists x. by apply lookup_union_Some_l.
Qed.

Lemma safari_save_load_before (this : SafariSettingsManager.Manager)
    (s : JSObject) (st : Storage) :
  reads_own_writes st = false ->
  SafariSettingsManager.loadSettings this
    (SafariSettingsManager.saveSettings this s st).1.1
  = SafariSettingsManager.loadSettings this st.
Proof.
  intros Hrw. rewrite safari_save_cases, !safari_load_cases.
  unfold reads_own_writes in Hrw.
  destruct (sync_get_error st) as [eg|] eqn:Hg,
           (sync_set_error st) as [es|] eqn:Hs,
           (local_get_error st) as [el|] eqn:Hlg,
           (local_set_error st) as [ew|] eqn:Hls; try done;
    cbn [fst with_sync_items with_local_item sync_get_error local_get_error
         sync_items local_item];
    by rewrite ?Hg, ?Hlg.
Qed.

(** X15. [saveSettings] followed by [loadSettings] of the Safari
    settings manager, on the same instance.  When the reads go where the
    writes go (both to the synchronized store, or both to the
    [localStorage] fallback), the loaded record has the validated value
    of every property of the validated record; otherwise the load gives
    what it gave before the save.  The call reports success and sends the
    validated record when one of the two writes works, also when the
    record cannot be read back, and it returns [false] without a
    notification when both fail.  When the write goes to the fallback the
    synchronized store is left as it was, the item holds the validated
    record as JSON keeps it, and a load that reads the fallback gives
    exactly the validated record. *)
Theorem safari_save_then_load (this : SafariSettingsManager.Manager)
    (s : JSObject) (st : Storage) :
  let v := SafariSettingsManager.validateSettings this s in
  let before := (SafariSettingsManager.loadSettings this st).1 in
  let saved := SafariSettingsManager.saveSettings this s st in
  let after := (SafariSettingsManager.loadSettings this saved.1.1).1 in
  (reads_own_writes st = true ->
   forall k, is_Some (v !! k) -> get after k = get v k)
  /\ (reads_own_writes st = false -> after = before)
  /\ (sync_set_error st = None \/ local_set_error st = None ->
      saved.2 = true /\ saved.1.2 = [SendRuntimeMessage v])
  /\ (is_Some (sync_set_error st) -> is_Some (local_set_error st) ->
      saved = (st, [], false))
  /\ (is_Some (sync_set_error st) -> local_set_error st = None ->
      sync_items saved.1.1 = sync_items st
      /\ local_item saved.1.1 = Some (JSON_roundtrip v)
      /\ (is_Some (sync_get_error st) -> local_get_error st = None ->
          after = v)).
Proof.
  intros v before saved after. subst v before saved after.
  split; [intros Hrw k Hk; by apply safari_save_load_get|].
  split; [intros Hrw; by rewrite safari_save_load_before|].
  rewrite safari_save_cases. split; [|split].
  - intros [Hs | Hl].
    + by rewrite Hs.
    + rewrite Hl. by destruct (sync_set_error st).
  - by intros [es ->] [el ->].
  - intros [es ->] ->. cbn [fst snd with_local_item sync_items local_item].
    split; [done|]. split; [done|].
    intros [eg Hg] Hlg. rewrite safari_load_cases.
    cbn [sync_get_error local_get_error local_item with_local_item].
    rewrite Hg, Hlg.
    cbn [fst default from_option id]. apply safari_spread_validated.
Qed.

Lemma safari_defaults_fixed :
  SafariSettingsManager.validateSettings SafariSettingsManager.constructor
    (SafariSettingsManager.defaultSettings SafariSettingsManager.constructor)
  = SafariSettingsManager.defaultSettings SafariSettingsManager.constructor.
Proof.
  apply (safari_validate_fixed _ true true false).
  - unfold SafariSettingsManager.constructor.
    cbn [SafariSettingsManager.defaultSettings].
    rewrite !dom_insert_L, dom_empty_L.
    apply set_eq; intros k; rewrite !elem_of_union, !elem_of_singleton,
      elem_of_empty; tauto.
  - by left.
  - done.
  - done.
  - done.
  - done.
Qed.

(** X16. [resetSettings] followed by [loadSettings], on an instance as
    the constructor makes it.  When the reads go where the writes go,
    the loaded record has the default value of every one of the five
    fields, whatever was stored before; otherwise the load gives what it
    gave before the reset.  The reset returns [false] exactly when both
    writes fail. *)
Theorem safari_reset_then_load (st : Storage) :
  let this := SafariSettingsManager.constructor in
  let before := (SafariSettingsManager.loadSettings this st).1 in
  let reset := SafariSettingsManager.resetSettings this st in
  let loaded := (SafariSettingsManager.loadSettings this reset.1.1).1 in
  (reads_own_writes st = true ->
   get loaded "linkMode" = VStr (lit "all")
   /\ get loaded "enabled" = VBool true
   /\ get loaded "visualFeedback" = VBool true
   /\ get loaded "soundFeedback" = VBool false
   /\ get loaded "version" = VStr (lit "1.0.0"))
  /\ (reads_own_writes st = false -> loaded = before)
  /\ (reset.2 = false
      <-> is_Some (sync_set_error st) /\ is_Some (local_set_error st)).
Proof.
  intros this before reset loaded. subst this before reset loaded.
  unfold SafariSettingsManager.resetSettings.
  split; [|split].
  - intros Hrw.
    repeat split;
      (rewrite safari_save_load_get;
       [rewrite safari_defaults_fixed; reflexivity
       |exact Hrw
       |apply safari_validate_has; rewrite !elem_of_cons; tauto]).
  - intros Hrw. by rewrite safari_save_load_before.
  - rewrite safari_save_cases.
    destruct (sync_set_error st) as [es|], (local_set_error st) as [el|];
      cbn [snd]; split; try done.
    + intros [_ [x [=]]].
    + intros [[x [=]] _].
    + intros [[x [=]] _].
Qed.

End SettingsManagers.

(** ** Single settings, the options page and the popup *)

Section SingleSetting.








End SingleSetting.

Section OptionsForm.

Lemma includes_two_other (a b m : jsstring) :
  m <> a -> m <> b -> includes [VStr a; VStr b] (VStr m) = false.
Proof.
  intros Ha Hb. destruct (includes _ _) eqn:Hin; [|done].
  apply includes_two in Hin as [[= ->] | [= ->]]; done.
Qed.

Lemma gather_get (current : JSObject) (form : OptionsPage.Form) :
  get (OptionsPage.gather current form) "linkMode"
  = or_else (VStr (default [] (OptionsPage.checked_linkMode form)))
            (VStr (lit "all"))
  /\ get (OptionsPage.gather current form) "enabled"
     = defined_or (get current "enabled") (VBool true)
  /\ get (OptionsPage.gather current form) "visualFeedback"
     = VBool (OptionsPage.visual_checked form)
  /\ get (OptionsPage.gather current form) "soundFeedback"
     = VBool (OptionsPage.sound_checked form).
Proof.
  unfold OptionsPage.gather. repeat split;
    repeat first [rewrite get_insert_eq | rewrite get_insert_ne by done]; done.
Qed.

(** With a link mode checked, the store after [saveSettings()] of the
    page is the one the settings manager leaves. *)
Lemma options_save_storage (manager : SafariSettingsManager.Manager)
    (current : JSObject) (form : OptionsPage.Form) (st : Storage) :
  is_Some (OptionsPage.checked_linkMode form) ->
  (OptionsPage.saveSettings manager current form st).1.2
  = (SafariSettingsManager.saveSettings manager
       (OptionsPage.gather current form) st).1.1.
Proof.
  intros [m Hm]. unfold OptionsPage.saveSettings, OptionsPage.validateForm.
  rewrite Hm. cbn [negb].
  by destruct (SafariSettingsManager.saveSettings manager
                 (OptionsPage.gather current form) st) as [[st' eff] [|]].
Qed.

(** X19. Saving the options form, with the settings manager as the
    constructor makes it.  With a link mode checked and reads that go
    where the writes go, what [loadSettings] returns afterwards has the
    two feedback flags of the check boxes, the checked link mode when it
    is ['all'] or ['context'] and ['all'] otherwise, and the [enabled]
    flag the page had loaded, which the form never changes.  When the
    reads do not go where the writes go, [loadSettings] returns
    afterwards what the page had loaded, although the page keeps the
    gathered record whenever one of the two writes works.  When both
    writes fail, and when no link mode is checked, nothing is written
    and nothing is sent. *)
Theorem options_save_keeps_enabled (form : OptionsPage.Form) (st : Storage) :
  let manager := SafariSettingsManager.constructor in
  let current := OptionsPage.loadCurrentSettings manager st in
  let saved := OptionsPage.saveSettings manager current form st in
  let after := (SafariSettingsManager.loadSettings manager saved.1.2).1 in
  (forall m, OptionsPage.checked_linkMode form = Some m ->
     (reads_own_writes st = true ->
      get after "visualFeedback" = VBool (OptionsPage.visual_checked form)
      /\ get after "soundFeedback" = VBool (OptionsPage.sound_checked form)
      /\ (m = lit "all" \/ m = lit "context" -> get after "linkMode" = VStr m)
      /\ (m <> lit "all" -> m <> lit "context" ->
          get after "linkMode" = VStr (lit "all"))
      /\ (forall b, get current "enabled" = VBool b ->
                    get after "enabled" = VBool b))
     /\ (reads_own_writes st = false -> after = current)
     /\ (sync_set_error st = None \/ local_set_error st = None ->
         saved.1.1 = OptionsPage.gather current form)
     /\ (is_Some (sync_set_error st) -> is_Some (local_set_error st) ->
         saved = (current, st, [])))
  /\ (OptionsPage.checked_linkMode form = None -> saved = (current, st, [])).
Proof.
  intros manager current saved after. subst saved after. split.
  - intros m Hm.
    rewrite options_save_storage by (by rewrite Hm).
    destruct (safari_validate_get manager (OptionsPage.gather current form))
      as (Gm & Ge & Gv & Gs & _).
    destruct (gather_get current form) as (Fm & Fe & Fv & Fs).
    rewrite Fm, Hm in Gm. cbn [default from_option id] in Gm.
    rewrite Fe in Ge. rewrite Fv in Gv. rewrite Fs in Gs.
    split; [|split; [|split]].
    + intros Hrw. repeat split.
      * rewrite safari_save_load_get;
          [|exact Hrw|apply safari_validate_has; rewrite !elem_of_cons; tauto].
        by rewrite Gv.
      * rewrite safari_save_load_get;
          [|exact Hrw|apply safari_validate_has; rewrite !elem_of_cons; tauto].
        by rewrite Gs.
      * intros Hrec.
        rewrite safari_save_load_get;
          [|exact Hrw|apply safari_validate_has; rewrite !elem_of_cons; tauto].
        rewrite Gm. destruct Hrec as [-> | ->].
        -- replace (or_else (VStr (lit "all")) (VStr (lit "all")))
             with (VStr (lit "all")) by (vm_compute; reflexivity).
           by rewrite includes_two_l.
        -- replace (or_else (VStr (lit "context")) (VStr (lit "all")))
             with (VStr (lit "context")) by (vm_compute; reflexivity).
           by rewrite includes_two_r.
      * intros Ha Hc.
        rewrite safari_save_load_get;
          [|exact Hrw|apply safari_validate_has; rewrite !elem_of_cons; tauto].
        rewrite Gm. unfold or_else. destruct (truthy (VStr m)).
        -- by rewrite includes_two_other.
        -- by rewrite includes_two_l.
      * intros b Hb.
        rewrite safari_save_load_get;
          [|exact Hrw|apply safari_validate_has; rewrite !elem_of_cons; tauto].
        by rewrite Ge, Hb.
    + intros Hrw. by rewrite safari_save_load_before.
    + intros Hw. unfold OptionsPage.saveSettings, OptionsPage.validateForm.
      rewrite Hm. cbn [negb]. rewrite safari_save_cases.
      destruct Hw as [-> | ->]; [done|]. by destruct (sync_set_error st).
    + intros [es Hs] [el Hl].
      unfold OptionsPage.saveSettings, OptionsPage.validateForm.
      rewrite Hm. cbn [negb]. rewrite safari_save_cases. by rewrite Hs, Hl.
  - intros Hm. unfold OptionsPage.saveSettings, OptionsPage.validateForm.
    by rewrite Hm.
Qed.

End OptionsForm.
Section PopupAndRelay.
Context (P : Platform) (update : N -> jsstring -> option jsstring).
Import Relay.

Lemma settings_updated_dispatch :
  str_eqb (lit "SETTINGS_UPDATED") (lit "GET_SETTINGS") = false
  /\ str_eqb (lit "SETTINGS_UPDATED") (lit "CAPTURE_LINK") = false
  /\ str_eqb (lit "SETTINGS_UPDATED") (lit "SETTINGS_UPDATED") = true.
Proof. vm_compute. repeat split. Qed.

(** The Safari relay merges the carried settings over its cache, leaves
    the storage alone and broadcasts what it was given. *)
Lemma safari_settings_updated (native : Outcome (option NativeResponse))
    (cache s : JSObject) (st : Storage) (tab : option N) :
  let h := SafariBackground.handleRuntimeMessage P native update cache st
             (PopupActions.settingsUpdated s) tab in
  new_settings h = spread2 cache s
  /\ new_storage h = st
  /\ effects h
     = (match get s "enabled" with VUndefined => [] | e => [SetBadge e] end)
       ++ (match get s "linkMode" with VUndefined => [] | m => [UpdateMenuTitle m] end)
       ++ [Broadcast s].
Proof.
  unfold SafariBackground.handleRuntimeMessage, PopupActions.settingsUpdated.
  cbn [msg_type msg_settings].
  destruct settings_updated_dispatch as (Hg & Hc & Hs). rewrite Hg, Hc, Hs.
  by cbn [new_settings new_storage effects].
Qed.

Lemma get_spread2_l (cache s : JSObject) (k : string) :
  is_Some (s !! k) -> get (spread2 cache s) k = get s k.
Proof. intros Hk. unfold spread2. by apply get_union_l. Qed.

(** X20. [handleMainToggle(enabled)] of the popup against the Safari
    relay, with a writable store: afterwards the popup, the cache of the
    relay and the store all hold the requested value; the relay's cache
    and the store agree with the popup on every field the popup holds;
    the popup's settings are what the relay broadcasts, and the badge is
    set for the requested value.  When the store rejects the write, the
    popup has changed its own flag but the relay is never contacted and
    the failure is shown. *)
Theorem popup_toggle_reaches_relay (native : Outcome (option NativeResponse))
    (tab : option N) (enabled : bool) (settings cache : JSObject) (st : Storage) :
  let relay :=
    fun c s m => SafariBackground.handleRuntimeMessage P native update c s m tab in
  let run := PopupActions.handleMainToggle (Some relay) enabled settings cache st in
  get (PopupActions.popup_settings run) "enabled" = VBool enabled
  /\ (sync_set_error st = None ->
      PopupActions.popup_settings run = <["enabled" := VBool enabled]> settings
      /\ (forall k, is_Some (PopupActions.popup_settings run !! k) ->
            get (PopupActions.relay_cache run) k
            = get (PopupActions.popup_settings run) k
            /\ get (sync_items (PopupActions.run_storage run)) k
               = get (PopupActions.popup_settings run) k)
      /\ Broadcast (PopupActions.popup_settings run) ∈ PopupActions.relay_effects run
      /\ SetBadge (VBool enabled) ∈ PopupActions.relay_effects run
      /\ PopupActions.failure_shown run = false)
  /\ (is_Some (sync_set_error st) ->
      PopupActions.relay_effects run = []
      /\ PopupActions.relay_cache run = cache
      /\ PopupActions.run_storage run = st
      /\ PopupActions.failure_shown run = true).
Proof.
  intros relay run. subst run. unfold PopupActions.handleMainToggle, storage_set.
  destruct (sync_set_error st) as [e|] eqn:Hok.
  { cbn [PopupActions.popup_settings PopupActions.relay_effects
         PopupActions.relay_cache PopupActions.run_storage
         PopupActions.failure_shown].
    split; [apply get_insert_eq|]. split; [intros [=]|done]. }
  cbv zeta.
  set (settings1 := <["enabled" := VBool enabled]> settings).
  set (st1 := with_sync_items (settings1 ∪ sync_items st) st).
  destruct (safari_toggle P update native cache st1
              (SafariPopup.toggleRequest enabled) tab eq_refl Hok)
    as (Hc1 & Hs1 & Hr1).
  cbn [SafariPopup.toggleRequest msg_enabled defined_or] in Hc1, Hs1, Hr1.
  fold (relay cache st1 (SafariPopup.toggleRequest enabled)) in Hc1, Hs1, Hr1.
  set (h1 := relay cache st1 (SafariPopup.toggleRequest enabled)) in *.
  rewrite Hr1, get_insert_eq.
  assert (H12 : <["enabled" := VBool enabled]> settings1 = settings1).
  { subst settings1. apply insert_insert_eq. }
  rewrite H12.
  destruct (safari_settings_updated native (new_settings h1) settings1
              (new_storage h1) tab) as (Hc2 & Hs2 & He2).
  fold (relay (new_settings h1) (new_storage h1)
          (PopupActions.settingsUpdated settings1)) in Hc2, Hs2, He2.
  set (h2 := relay (new_settings h1) (new_storage h1)
               (PopupActions.settingsUpdated settings1)) in *.
  cbn [PopupActions.popup_settings PopupActions.relay_effects
       PopupActions.relay_cache PopupActions.run_storage
       PopupActions.failure_shown].
  assert (He : get settings1 "enabled" = VBool enabled)
    by (subst settings1; apply get_insert_eq).
  split; [exact He|]. split; [|intros [? [=]]]. intros _.
  split; [done|]. split; [|split; [|split; [|done]]].
  - intros k Hk. split.
    + rewrite Hc2. by apply get_spread2_l.
    + rewrite Hs2, Hs1. subst st1. cbn [sync_items with_sync_items].
      destruct (decide (k = "enabled")) as [-> | Hne].
      * by rewrite get_insert_eq, He.
      * rewrite get_insert_ne by done. by apply get_union_l.
  - rewrite elem_of_app, He2, !elem_of_app. right. right. right.
    by apply list_elem_of_singleton.
  - rewrite elem_of_app, He2, !elem_of_app, He. right. left.
    by apply list_elem_of_singleton.
Qed.

(** X21. [handleModeChange(newMode)] of the popup against the Safari
    relay, with a writable store: the store and the relay's cache hold
    the new mode, the menu title is updated for it, and the popup's
    settings are broadcast.  A content script that takes the broadcast
    record captures no click once the mode is ['context']: the predicate
    never returns [true], and returns [false] for every element whose
    [href] is a string; nothing but the popup's record is broadcast. *)
Theorem popup_mode_change_reaches_pages (native : Outcome (option NativeResponse))
    (tab : option N) (newMode : jsstring) (settings cache : JSObject)
    (st : Storage) :
  sync_set_error st = None ->
  let relay :=
    fun c s m => SafariBackground.handleRuntimeMessage P native update c s m tab in
  let run := PopupActions.handleModeChange (Some relay) newMode settings cache st in
  get (sync_items (PopupActions.run_storage run)) "linkMode" = VStr newMode
  /\ get (PopupActions.relay_cache run) "linkMode" = VStr newMode
  /\ UpdateMenuTitle (VStr newMode) ∈ PopupActions.relay_effects run
  /\ (forall s, Broadcast s ∈ PopupActions.relay_effects run ->
        s = <["linkMode" := VStr newMode]> settings)
  /\ (newMode = lit "context" ->
      forall page anchor,
        ContentScript.shouldCaptureLink P
          (ContentScript.onSettingsUpdated (PopupActions.popup_settings run))
          page anchor <> Returned true
        /\ forall s, ContentScript.href anchor = ContentScript.HrefString s ->
             ContentScript.shouldCaptureLink P
               (ContentScript.onSettingsUpdated (PopupActions.popup_settings run))
               page anchor = Returned false)
  /\ Broadcast (PopupActions.popup_settings run) ∈ PopupActions.relay_effects run.
Proof.
  intros Hok relay run. subst run.
  unfold PopupActions.handleModeChange, storage_set. rewrite Hok. cbv zeta.
  set (settings1 := <["linkMode" := VStr newMode]> settings).
  set (st1 := with_sync_items (settings1 ∪ sync_items st) st).
  destruct (safari_settings_updated native cache settings1 st1 tab)
    as (Hc & Hs & He).
  fold (relay cache st1 (PopupActions.settingsUpdated settings1)) in Hc, Hs, He.
  set (h := relay cache st1 (PopupActions.settingsUpdated settings1)) in *.
  cbn [PopupActions.popup_settings PopupActions.relay_effects
       PopupActions.relay_cache PopupActions.run_storage].
  assert (Hm : get settings1 "linkMode" = VStr newMode)
    by (subst settings1; apply get_insert_eq).
  assert (Hhas : is_Some (settings1 !! "linkMode")).
  { subst settings1. rewrite lookup_insert_eq. by eexists. }
  split; [|split; [|split; [|split; [|split]]]].
  - rewrite Hs. subst st1. cbn [sync_items with_sync_items].
    by rewrite get_union_l.
  - rewrite Hc. by rewrite get_spread2_l.
  - rewrite He, !elem_of_app, Hm. right. left. by apply list_elem_of_singleton.
  - intros s Hin. rewrite He, !elem_of_app in Hin.
    assert (Hs' : s = settings1).
    { destruct Hin as [Hin | [Hin | Hin]].
      - destruct (get settings1 "enabled");
          first [by apply elem_of_nil in Hin
                | apply list_elem_of_singleton in Hin; discriminate Hin].
      - destruct (get settings1 "linkMode");
          first [by apply elem_of_nil in Hin
                | apply list_elem_of_singleton in Hin; discriminate Hin].
      - apply list_elem_of_singleton in Hin. by injection Hin. }
    exact Hs'.
  - intros -> page anchor. apply shouldCaptureLink_context_mode.
    unfold ContentScript.onSettingsUpdated. exact Hm.
  - rewrite He, !elem_of_app. right. right. by apply list_elem_of_singleton.
Qed.

End PopupAndRelay.

(** ** The native handler and the Safari capture path *)

Section NativeHandler.
Import Relay SafariWebExtensionHandler.
Context (F : Native).

Lemma str_eqb_true (a b : jsstring) : str_eqb a b = true -> a = b.
Proof. unfold str_eqb. apply bool_decide_eq_true. Qed.

Lemma handleForwardUrl_outcome (d : MessageDict) :
  let out := handleForwardUrl F d in
  (nr_success out.2 = true <-> nr_error out.2 = None)
  /\ (forall e, e ∈ out.1 ->
        exists url scheme,
          dict_url d = Some url
          /\ URL_string F url = Some (Some scheme)
          /\ (scheme = lit "http" \/ scheme = lit "https")
          /\ e = OpenWorkspaceURL (proxly_prefix ++ Base64.encode (UTF8.encode url))
          /\ nr_success out.2
             = workspace_open F (proxly_prefix ++ Base64.encode (UTF8.encode url)))
  /\ (nr_success out.2 = true -> out.1 <> [])
  /\ (length out.1 <= 1)%nat.
Proof.
  unfold handleForwardUrl.
  destruct (dict_url d) as [url|]; cbn [fst snd nr_success nr_error length];
    [|by (split; [|split; [intros e He; by apply elem_of_nil in He|split; [|lia]]])].
  destruct (URL_string F url) as [[scheme|]|] eqn:Hurl;
    cbn [fst snd nr_success nr_error length];
    try by (split; [|split; [intros e He; by apply elem_of_nil in He|split; [|lia]]]).
  destruct (str_eqb scheme (lit "http") || str_eqb scheme (lit "https")) eqn:Hs;
    cbn [fst snd nr_success nr_error length];
    [|by (split; [|split; [intros e He; by apply elem_of_nil in He|split; [|lia]]])].
  assert (Hscheme : scheme = lit "http" \/ scheme = lit "https").
  { apply orb_true_iff in Hs as [Hs|Hs]; apply str_eqb_true in Hs; auto. }
  destruct (URL_string F (proxly_prefix ++ _));
    cbn [fst snd nr_success nr_error length];
    [|by (split; [|split; [intros e He; by apply elem_of_nil in He|split; [|lia]]])].
  destruct (workspace_open F _) eqn:Hopen;
    cbn [fst snd nr_success nr_error length].
  - split; [done|]. split; [|split; [done|lia]].
    intros e ->%list_elem_of_singleton. exists url, scheme. by rewrite Hopen.
  - split; [done|]. split; [|split; [done|lia]].
    intros e ->%list_elem_of_singleton. exists url, scheme. by rewrite Hopen.
Qed.

(** X22. The native handler answers every message with either success
    and no error or failure and an error.  It opens at most one URI, and
    only for a [FORWARD_URL] message whose [url] parses with the scheme
    [http] or [https]; the URI is [proxly://open/] followed by the
    base64 of the UTF-8 bytes of that [url], and the answer is the
    result of opening it.  Success is never reported without an open. *)
Theorem native_handler_outcome (message : option MessageDict) :
  let out := handleExtensionMessage F message in
  (nr_success out.2 = true <-> nr_error out.2 = None)
  /\ (forall e, e ∈ out.1 ->
        exists d url scheme,
          message = Some d
          /\ dict_type d = Some (lit "FORWARD_URL")
          /\ dict_url d = Some url
          /\ URL_string F url = Some (Some scheme)
          /\ (scheme = lit "http" \/ scheme = lit "https")
          /\ e = OpenWorkspaceURL (proxly_prefix ++ Base64.encode (UTF8.encode url))
          /\ nr_success out.2
             = workspace_open F (proxly_prefix ++ Base64.encode (UTF8.encode url)))
  /\ (nr_success out.2 = true -> out.1 <> [])
  /\ (length out.1 <= 1)%nat.
Proof.
  unfold handleExtensionMessage.
  destruct message as [d|]; cbn [fst snd nr_success nr_error length];
    [|by (split; [|split; [intros e He; by apply elem_of_nil in He|split; [|lia]]])].
  destruct (dict_type d) as [ty|] eqn:Hty;
    cbn [fst snd nr_success nr_error length];
    [|by (split; [|split; [intros e He; by apply elem_of_nil in He|split; [|lia]]])].
  destruct (str_eqb ty (lit "FORWARD_URL")) eqn:Heq;
    cbn [fst snd nr_success nr_error length];
    [|by (split; [|split; [intros e He; by apply elem_of_nil in He|split; [|lia]]])].
  apply str_eqb_true in Heq as ->.
  destruct (handleForwardUrl_outcome d) as (H1 & H2 & H3 & H4).
  split; [exact H1|]. split; [|by split].
  intros e He. destruct (H2 e He) as (url & scheme & Hu & Hp & Hs & -> & Hopen).
  by exists d, url, scheme.
Qed.

End NativeHandler.

Section SafariCapturePath.
Import Relay SafariWebExtensionHandler.
Context (P : Platform) (F : Native) (update : N -> jsstring -> option jsstring).

(** What the Safari relay does with a capture request for an ASCII URL
    that passes the http/https check, by the answer of the native side,
    the sender's tab and the result of [tabs.update]. *)
Lemma safari_capture_handled (r : NativeResponse) (settings : JSObject)
    (st : Storage) (url : jsstring) (tab : option N) :
  url <> [] ->
  isValidUrl P url = true ->
  Forall (fun c => c < 128) url ->
  let target := proxly_prefix ++ Base64.encode (UTF8.encode url) in
  let h := SafariBackground.handleRuntimeMessage P (Returned (Some r)) update
             settings st (SafariContentScript.captureRequest url) tab in
  effects h
  = [SendNativeMessage url]
    ++ (if nr_success r then []
        else match tab with
             | Some t => if negb (t =? 0) then [TabsUpdate t target] else []
             | None => []
             end)
  /\ get (response h) "success"
     = (if nr_success r then VBool true
        else match tab with
             | Some t =>
                 if negb (t =? 0)
                 then match update t target with
                      | None => VBool true
                      | Some _ => VUndefined
                      end
                 else VUndefined
             | None => VUndefined
             end).
Proof.
  intros Hne Hvalid Hascii target h. subst h.
  unfold SafariBackground.handleRuntimeMessage, SafariContentScript.captureRequest.
  cbn [msg_type msg_url msg_isTest].
  replace (str_eqb (lit "CAPTURE_LINK") (lit "GET_SETTINGS")) with false
    by (vm_compute; reflexivity).
  replace (str_eqb (lit "CAPTURE_LINK") (lit "CAPTURE_LINK")) with true
    by (vm_compute; reflexivity).
  destruct url as [|c url]; [done|].
  cbn [nonempty default from_option id andb truthy].
  rewrite Hvalid. unfold SafariBackground.forwardToProxly.
  rewrite (btoa_ascii (c :: url) Hascii). fold target.
  destruct (nr_success r).
  { cbn [effects response app]. by rewrite get_insert_eq. }
  destruct tab as [t|]; [|cbn [effects response app];
                          by rewrite get_insert_ne, get_empty].
  destruct (negb (t =? 0)); [|cbn [effects response app];
                              by rewrite get_insert_ne, get_empty].
  destruct (update t target); cbn [effects response app].
  - by rewrite get_insert_ne, get_empty.
  - by rewrite get_insert_eq.
Qed.

(** X23. The Safari capture path for an ASCII URL that passes the
    http/https check: the page shows its feedback and sends
    [CAPTURE_LINK], the relay sends [FORWARD_URL] to the native handler
    and falls back to navigating the sender's tab.  Whatever is opened by
    the handler or navigated to by the relay is the one URI
    [proxly://open/<b64>], from which the receiver recovers the URL; the
    relay sends the native message first and calls [tabs.update] only
    after the handler failed, and then always when the sender has a tab
    with a non-zero id.  The relay
    answers with success exactly when the link was delivered: the handler
    succeeded, or there is such a tab and [tabs.update] resolved.  When
    the page can show its feedback, the relay's actions all happen and
    the page shows its error exactly when the link was not delivered.
    When the visual feedback is on and the page has no body, or neither
    a head nor the style element, the feedback throws: the error is
    shown and no message reaches the relay. *)
Theorem safari_capture_pipeline (settings page_settings : JSObject)
    (page : ContentScript.Page) (st : Storage) (url : jsstring)
    (tab : option N) :
  url <> [] ->
  isValidUrl P url = true ->
  Forall (fun c => c < 128) url ->
  let target := proxly_prefix ++ Base64.encode (UTF8.encode url) in
  let native :=
    handleExtensionMessage F
      (Some (mkMessageDict (Some (lit "FORWARD_URL")) (Some url))) in
  let relay := fun message =>
    SafariBackground.handleRuntimeMessage P (Returned (Some native.2)) update
      settings st message tab in
  let h := relay (SafariContentScript.captureRequest url) in
  let send := fun message =>
    (effects (relay message), Returned (Some (response (relay message)))) in
  let run := SafariContentScript.captureLink page_settings page send url in
  let delivered :=
    nr_success native.2 = true
    \/ exists t, tab = Some t /\ t <> 0 /\ update t target = None in
  let feedback_throws :=
    truthy (get page_settings "visualFeedback")
    && negb (ContentScript.document_body page
             && (ContentScript.document_head page
                 || ContentScript.capture_styles page)) in
  receiver_decode target = Some url
  /\ (forall u, OpenWorkspaceURL u ∈ native.1 -> u = target)
  /\ effects h
     = [SendNativeMessage url]
       ++ (if nr_success native.2 then []
           else match tab with
                | Some t => if negb (t =? 0) then [TabsUpdate t target] else []
                | None => []
                end)
  /\ (forall t u, TabsUpdate t u ∈ effects h ->
        u = target /\ tab = Some t /\ t <> 0 /\ nr_success native.2 = false)
  /\ (nr_success native.2 = false ->
      forall t, tab = Some t -> t <> 0 -> TabsUpdate t target ∈ effects h)
  /\ (get (response h) "success" = VBool true <-> delivered)
  /\ (feedback_throws = false ->
      (forall e, e ∈ effects h -> e ∈ run.1)
      /\ (Announce (lit "errorProxlyNotRunning") ∈ run.1 <-> (~ delivered)))
  /\ (feedback_throws = true ->
      Announce (lit "errorProxlyNotRunning") ∈ run.1
      /\ (SendNativeMessage url ∉ run.1)
      /\ (forall t u, TabsUpdate t u ∉ run.1)).
Proof.
  intros Hne Hvalid Hascii target native relay h send run delivered
    feedback_throws.
  assert (Hopen : forall u, OpenWorkspaceURL u ∈ native.1 -> u = target).
  { subst native. unfold handleExtensionMessage. cbn [dict_type].
    replace (str_eqb (lit "FORWARD_URL") (lit "FORWARD_URL")) with true
      by (vm_compute; reflexivity).
    intros u Hu.
    destruct (handleForwardUrl_outcome F
                (mkMessageDict (Some (lit "FORWARD_URL")) (Some url)))
      as (_ & H2 & _).
    destruct (H2 _ Hu) as (url' & scheme & Hurl & _ & _ & Heq & _).
    cbn [dict_url] in Hurl. injection Hurl as <-. by injection Heq. }
  split; [apply receiver_decode_encoded; by apply ascii_is_scalar|].
  split; [exact Hopen|]. clear Hopen.
  destruct (safari_capture_handled native.2 settings st url tab Hne Hvalid Hascii)
    as [Heff Hresp].
  fold target in Heff, Hresp.
  change (effects h = [SendNativeMessage url]
            ++ (if nr_success native.2 then []
                else match tab with
                     | Some t => if negb (t =? 0) then [TabsUpdate t target] else []
                     | None => []
                     end)) in Heff.
  change (get (response h) "success"
          = (if nr_success native.2 then VBool true
             else match tab with
                  | Some t =>
                      if negb (t =? 0)
                      then match update t target with
                           | None => VBool true
                           | Some _ => VUndefined
                           end
                      else VUndefined
                  | None => VUndefined
                  end)) in Hresp.
  assert (Hrun : run.1
    = (ContentScript.showCaptureFeedback page_settings page).1
      ++ match (ContentScript.showCaptureFeedback page_settings page).2 with
         | Thrown _ =>
             (ContentScript.showError page_settings page
                (lit "errorProxlyNotRunning")).1
         | Returned _ =>
             effects h
             ++ (if truthy (get (response h) "success") then []
                 else (ContentScript.showError page_settings page
                         (lit "errorProxlyNotRunning")).1)
         end).
  { subst run. unfold SafariContentScript.captureLink.
    rewrite try_catch_fst, bind_fst, bind_snd.
    destruct (ContentScript.showCaptureFeedback page_settings page) as [fb [[]|e]];
      cbn [fst snd]; [|by rewrite app_nil_r].
    rewrite bind_fst, bind_snd. subst send. cbn [fst snd].
    fold h. rewrite <- !app_assoc. f_equal. f_equal.
    by destruct (truthy (get (response h) "success")). }
  subst delivered. clearbody h run. subst relay send.
  generalize dependent (native.2). clear native. intros r Heff Hresp.
  rewrite Hrun. clear Hrun.
  rewrite showCaptureFeedback_cases, showError_cases.
  fold feedback_throws. clearbody feedback_throws.
  assert (Hdelivered :
            get (response h) "success" = VBool true
            <-> (nr_success r = true
                 \/ exists t, tab = Some t /\ t <> 0 /\ update t target = None)).
  { rewrite Hresp. destruct (nr_success r); [split; [by left|done]|].
    destruct tab as [t|].
    - destruct (N.eqb_spec t 0) as [-> | Hnz]; cbn [negb].
      + split; [done|]. intros [[=] | (t & [= <-] & Ht & _)]. done.
      + destruct (update t target) as [e|] eqn:Hu.
        * split; [done|]. intros [[=] | (t' & [= <-] & _ & Hu')]. congruence.
        * split; [|done]. intros _. right. by exists t.
    - split; [done|]. by intros [[=] | (t & [=] & _)]. }
  assert (Hsuccess : truthy (get (response h) "success") = true
                     <-> get (response h) "success" = VBool true).
  { rewrite Hresp. destruct (nr_success r); [done|].
    destruct tab as [t|]; [|done].
    destruct (negb (t =? 0)); [|done]. by destruct (update t target). }
  split; [exact Heff|].
  split; [|split; [|split; [exact Hdelivered|split]]].
  - intros t u. rewrite Heff. destruct (nr_success r).
    { intros Hin. apply list_elem_of_singleton in Hin. discriminate Hin. }
    destruct tab as [t'|]; cbn [app].
    + destruct (N.eqb_spec t' 0) as [-> | Hnz]; cbn [negb].
      * intros Hin. apply list_elem_of_singleton in Hin. discriminate Hin.
      * intros Hin. apply elem_of_cons in Hin as [Hin|Hin]; [discriminate Hin|].
        apply list_elem_of_singleton in Hin. by injection Hin as -> ->.
    + intros Hin. apply list_elem_of_singleton in Hin. discriminate Hin.
  - intros Hr t -> Ht. rewrite Heff, Hr.
    destruct (N.eqb_spec t 0) as [-> | Hnz]; [done|]. cbn [negb app].
    apply elem_of_cons. right. by apply list_elem_of_singleton.
  - intros ->. cbn [fst snd]. split.
    + intros e He. rewrite !elem_of_app. right. by left.
    + rewrite <- Hdelivered, <- Hsuccess.
      assert (Hno : Announce (lit "errorProxlyNotRunning") ∉ effects h).
      { rewrite Heff. destruct (nr_success r), tab as [t|];
          try destruct (negb (t =? 0)); cbn [app];
          rewrite ?elem_of_cons, elem_of_nil; intros H;
          repeat destruct H as [H|H]; discriminate || done. }
      destruct (truthy (get (response h) "success")).
      * split; [|done]. rewrite app_nil_r, !elem_of_app. intros [Hin | Hin]; [|done].
        destruct (truthy (get page_settings "visualFeedback")),
          (truthy (get page_settings "soundFeedback")); cbn [app] in Hin;
          revert Hin; rewrite ?elem_of_cons, elem_of_nil; intros H;
          repeat destruct H as [H|H]; discriminate || done.
      * split; [done|]. intros _. rewrite !elem_of_app. right. right.
        destruct (truthy (get page_settings "visualFeedback")
                  && negb (ContentScript.document_body page));
          cbn [fst]; [by apply list_elem_of_singleton|].
        rewrite elem_of_app. left. by apply list_elem_of_singleton.
  - intros ->. cbn [fst snd].
    destruct (truthy (get page_settings "visualFeedback")
              && negb (ContentScript.document_body page));
      destruct (truthy (get page_settings "visualFeedback"));
      cbn [fst app]; (split; [|split; [|intros t u]]);
      rewrite ?elem_of_cons, elem_of_nil;
      try (intros H; repeat destruct H as [H|H]; discriminate || done);
      tauto.
Qed.

End SafariCapturePath.

(** ** Saving with the Chrome settings manager *)

Section ChromeSave.

Lemma chrome_validate_has (s : JSObject) (k : string) :
  k ∈ ["linkMode"; "visualFeedback"; "soundFeedback"; "version"] ->
  is_Some (ChromeSettingsManager.validateSettings s !! k).
Proof.
  intros Hk. apply elem_of_dom. rewrite chrome_validateSettings_dom.
  revert Hk. rewrite !elem_of_cons, elem_of_nil, !elem_of_union, !elem_of_singleton.
  tauto.
Qed.

Lemma chrome_validate_lacks (s : JSObject) (k : string) :
  k ∉ ["linkMode"; "visualFeedback"; "soundFeedback"; "version"] ->
  ChromeSettingsManager.validateSettings s !! k = None.
Proof.
  intros Hk. apply not_elem_of_dom. rewrite chrome_validateSettings_dom.
  revert Hk. rewrite !elem_of_cons, elem_of_nil, !elem_of_union, !elem_of_singleton.
  tauto.
Qed.

(** X24. [saveSettings] of the Chrome settings manager.  With a
    writable store it reports success, and [loadSettings] afterwards
    returns the validated record in the four fields it knows and, for
    every other key such as [enabled], what it returned before.  When
    the store rejects the write there is no fallback: the call reports
    failure, the storage is left as it was and no notification is
    sent.  When the store cannot be read, [loadSettings] returns the
    defaults. *)
Theorem chrome_save_then_load (s : JSObject) (st : Storage) :
  let saved := ChromeSettingsManager.saveSettings s st in
  (sync_set_error st = None ->
     saved.2 = true
     /\ saved.1.2 = [SendRuntimeMessage (ChromeSettingsManager.validateSettings s)]
     /\ (sync_get_error st = None ->
         forall k,
           get (ChromeSettingsManager.loadSettings saved.1.1) k
           = if bool_decide
                  (k ∈ ["linkMode"; "visualFeedback"; "soundFeedback"; "version"])
             then get (ChromeSettingsManager.validateSettings s) k
             else get (ChromeSettingsManager.loadSettings st) k))
  /\ (is_Some (sync_set_error st) -> saved = (st, [], false))
  /\ (is_Some (sync_get_error st) ->
      ChromeSettingsManager.loadSettings saved.1.1
      = ChromeSettingsManager.defaultSettings).
Proof.
  intros saved. subst saved.
  unfold ChromeSettingsManager.saveSettings, ChromeSettingsManager.loadSettings,
    storage_set, storage_get.
  split; [|split].
  2:{ by intros [e ->]. }
  2:{ intros [e He].
      destruct (sync_set_error st);
        cbn [fst snd with_sync_items sync_get_error]; by rewrite He. }
  intros Hok. rewrite Hok. cbn [fst snd with_sync_items sync_get_error sync_items].
  split; [done|]. split; [done|]. intros Hget. rewrite Hget.
  intros k. unfold spread2.
  destruct (bool_decide_reflect
              (k ∈ ["linkMode"; "visualFeedback"; "soundFeedback"; "version"]))
    as [Hk|Hk].
  - destruct (chrome_validate_has s k Hk) as [x Hx].
    rewrite get_union_l.
    + by apply get_union_l.
    + exists x. by apply lookup_union_Some_l.
  - apply get_agree.
    rewrite (lookup_union (_ ∪ sync_items st)), lookup_union_r
      by (by apply chrome_validate_lacks).
    by rewrite <- lookup_union.
Qed.

End ChromeSave.

(** ** The popup's connection test *)

Section ConnectionTest.
Import Relay.
Context (P : Platform) (update : N -> jsstring -> option jsstring).

(** X25. [testConnection()] of the popup sends a [CAPTURE_LINK] message
    marked as a test.  Both relays answer it without forwarding
    anything, without touching their cache or the storage, and, in the
    Safari relay, without sending the native message, whatever the
    native side would answer; the popup shows success exactly when the
    URL constructor accepts the test URL as http or https.  With no
    relay listening the popup shows failure. *)
Theorem testConnection_never_forwards (native : Outcome (option NativeResponse))
    (cache : JSObject) (st : Storage) (tabId : N) (tab : option N) :
  let firefox :=
    fun c s m => FirefoxBackground.handleRuntimeMessage P update c s m tabId in
  let safari :=
    fun c s m => SafariBackground.handleRuntimeMessage P native update c s m tab in
  let accepted := isValidUrl P (lit "https://example.com/test") in
  (forall relay, relay = firefox \/ relay = safari ->
     let result := PopupActions.testConnection (Some relay) cache st in
     result.1 = accepted
     /\ effects result.2 = []
     /\ new_settings result.2 = cache
     /\ new_storage result.2 = st)
  /\ (PopupActions.testConnection None cache st).1 = false.
Proof.
  intros firefox safari accepted. split; [|done].
  intros relay Hrelay result. subst result accepted.
  unfold PopupActions.testConnection. cbn [fst snd].
  assert (Hmsg : msg_type PopupActions.testRequest = lit "CAPTURE_LINK"
                 /\ msg_url PopupActions.testRequest
                    = Some (lit "https://example.com/test")
                 /\ msg_isTest PopupActions.testRequest = VBool true) by done.
  destruct Hmsg as (Hty & Hurl & Htest).
  destruct Hrelay as [-> | ->]; subst firefox safari; cbv beta;
    unfold FirefoxBackground.handleRuntimeMessage,
      SafariBackground.handleRuntimeMessage;
    rewrite Hty, Hurl, Htest;
    replace (str_eqb (lit "CAPTURE_LINK") (lit "GET_SETTINGS")) with false
      by (vm_compute; reflexivity);
    replace (str_eqb (lit "CAPTURE_LINK") (lit "CAPTURE_LINK")) with true
      by (vm_compute; reflexivity);
    replace (nonempty (Some (lit "https://example.com/test"))) with true
      by (vm_compute; reflexivity);
    cbn [default from_option id andb truthy];
    destruct (isValidUrl P (lit "https://example.com/test"));
    cbn [response effects new_settings new_storage];
    rewrite get_insert_eq; done.
Qed.

End ConnectionTest.

(** ** Runs of the further properties on concrete inputs *)

Section FurtherRuns.
Import Relay.

(** The relay answers with [enabled: false] and ['context']; the
    content script adopts both. *)
Lemma content_loadSettings_follows_relay_witness :
  let r := Demo.settings false "context" in
  get (ContentScript.loadSettings (Demo.store ∅) (Returned (Some r))) "enabled"
  = get r "enabled"
  /\ get (ContentScript.loadSettings (Demo.store ∅) (Returned (Some r))) "linkMode"
     = get r "linkMode".
Proof.
  intros r.
  destruct (content_loadSettings_follows_relay (Demo.store ∅) r eq_refl) as [H _].
  apply H. vm_compute. reflexivity.
Defined.


(** Two toggles without a carried value, starting from [enabled: true]. *)
Lemma toggle_twice_restores_witness :
  let message := mkMessage (lit "TOGGLE_EXTENSION") None VUndefined VUndefined ∅ in
  let settings := Demo.settings true "all" in
  let st := Demo.store settings in
  let hf1 := FirefoxBackground.handleRuntimeMessage Demo.platform Demo.update
               settings st message 1 in
  let hf2 := FirefoxBackground.handleRuntimeMessage Demo.platform Demo.update
               (new_settings hf1) (new_storage hf1) message 1 in
  get (new_settings hf1) "enabled" = VBool false
  /\ get (new_settings hf2) "enabled" = VBool true
  /\ get (sync_items (new_storage hf2)) "enabled" = VBool true.
Proof.
  intros message settings st hf1 hf2.
  destruct (toggle_twice_restores Demo.platform Demo.update (Returned None)
              settings st message true 1 (Some 1))
    as (H1 & _ & H2 & H3 & _).
  - reflexivity.
  - reflexivity.
  - reflexivity.
  - vm_compute. reflexivity.
  - split; [exact H1|]. split; [exact H2|exact H3].
Defined.

(** Saving [enabled: false] and ['context'].  On a store whose
    synchronized area rejects every call the record goes to the fallback
    and is loaded from it; on a store that can be read but not written
    the save reports success and the load gives what it gave before. *)
Lemma safari_save_then_load_witness :
  let this := SafariSettingsManager.constructor in
  let s := Demo.settings false "context" in
  let fallback := Demo.broken_store ∅ in
  let readonly := Demo.readonly_store ∅ in
  (SafariSettingsManager.loadSettings this
     (SafariSettingsManager.saveSettings this s fallback).1.1).1
  = SafariSettingsManager.validateSettings this s
  /\ (SafariSettingsManager.saveSettings this s readonly).2 = true
  /\ (SafariSettingsManager.loadSettings this
        (SafariSettingsManager.saveSettings this s readonly).1.1).1
     = (SafariSettingsManager.loadSettings this readonly).1.
Proof.
  intros this s fallback readonly. split; [|split].
  - destruct (safari_save_then_load this s fallback) as (_ & _ & _ & _ & H).
    destruct H as (_ & _ & H); [eexists; reflexivity|reflexivity|].
    apply H; [eexists; reflexivity|reflexivity].
  - destruct (safari_save_then_load this s readonly) as (_ & _ & H & _).
    destruct H as [H _]; [right; reflexivity|exact H].
  - destruct (safari_save_then_load this s readonly) as (_ & H & _).
    apply H. reflexivity.
Defined.



(** The popup switches to ['context']: a page that took the broadcast
    record no longer captures a cross-origin link. *)
Lemma popup_mode_change_reaches_pages_witness :
  let relay := fun c s m =>
    SafariBackground.handleRuntimeMessage Demo.platform (Returned None)
      Demo.update c s m (Some 1) in
  let run := PopupActions.handleModeChange (Some relay) (lit "context")
               (Demo.settings true "all") (Demo.settings true "all")
               (Demo.store ∅) in
  ContentScript.shouldCaptureLink Demo.platform
    (ContentScript.onSettingsUpdated (PopupActions.popup_settings run))
    (Demo.page "https://a.example/") (Demo.link "https://b.example/x")
  = Returned false.
Proof.
  intros relay run.
  destruct (popup_mode_change_reaches_pages Demo.platform Demo.update
              (Returned None) (Some 1)
              (lit "context") (Demo.settings true "all") (Demo.settings true "all")
              (Demo.store ∅) eq_refl)
    as (_ & _ & _ & _ & H & _).
  destruct (H eq_refl (Demo.page "https://a.example/")
              (Demo.link "https://b.example/x")) as [_ H'].
  eapply H'. reflexivity.
Defined.

(** The Safari capture path for [https://example.com/a]. *)
Lemma safari_capture_pipeline_witness :
  let url := lit "https://example.com/a" in
  receiver_decode (proxly_prefix ++ Base64.encode (UTF8.encode url)) = Some url.
Proof.
  intros url.
  destruct (safari_capture_pipeline Demo.platform Demo.native Demo.update
              (Demo.settings true "all") (Demo.settings true "all")
              (Demo.page "https://example.com/") (Demo.store ∅) url (Some 1))
    as (H & _).
  - discriminate.
  - vm_compute. reflexivity.
  - apply ascii_of_forallb. vm_compute. reflexivity.
  - exact H.
Defined.

End FurtherRuns.
